(** * Cheatsheet Creator: Markdown import, Markdown export and search

    A shallow embedding of [backend/main.py]: the Markdown importer
    [parse_markdown_to_cheatsheet], the Markdown generation of
    [export_cheatsheet_markdown] and the scan of [search_cheatsheets],
    then the storage functions and the endpoints that read and write the
    store, followed by the properties proved about them.

    Modelling conventions.
    - Python [str] values are Rocq strings, character by character for
      ASCII text.  The character classes that the code relies on
      ([str.lower], the whitespace of [str.strip], the regex class [\w])
      are those of the ASCII range.  Python's differ beyond it (more
      letters, spaces and word characters, and lowercasings that change
      the length), so every statement that depends on a character class
      assumes that the text it reads is ASCII ([is_ascii]).
    - Python [int] values are [Z].
    - [datetime.now()] is read from a clock that is a parameter of the
      importer: the k-th call made during one import returns the k-th
      reading.
    - Exceptions are values: a computation that may raise returns
      [exn + A].
    - The files under [data/] are a value passed from call to call: the
      cheatsheet files by path and the index file. *)

From Stdlib Require Import ZArith List Bool Lia Sorting.Sorted.
From Stdlib Require Import Strings.String Strings.Ascii Numbers.DecimalString.
From Stdlib Require Numbers.DecimalZ.
Import ListNotations.

Local Open Scope string_scope.
Local Open Scope Z_scope.

(** ** Python string primitives *)

Module Py.

(** The newline character, ['\n']. *)
Definition nl : ascii := ascii_of_nat 10.

(** The one-character string ["\n"]. *)
Definition NL : string := String nl EmptyString.

(** [str.isspace] on one ASCII character: TAB, LF, VT, FF, CR, the
    separators FS, GS, RS, US and the space. *)
Definition isspace (c : ascii) : bool :=
  let n := N_of_ascii c in
  ((9 <=? n) && (n <=? 13) || (28 <=? n) && (n <=? 32))%N.

(** The regex class [\w] on ASCII: letters, digits and underscore. *)
Definition isword (c : ascii) : bool :=
  let n := N_of_ascii c in
  ((48 <=? n) && (n <=? 57) || (65 <=? n) && (n <=? 90)
   || (97 <=? n) && (n <=? 122) || (n =? 95))%N.

Definition lower_char (c : ascii) : ascii :=
  let n := N_of_ascii c in
  if ((65 <=? n) && (n <=? 90))%N then ascii_of_N (n + 32) else c.

(** [s.lower()] *)
Fixpoint lower (s : string) : string :=
  match s with
  | EmptyString => EmptyString
  | String c s' => String (lower_char c) (lower s')
  end.

(** [len(s)] *)
Definition len (s : string) : Z := Z.of_nat (String.length s).

(** [s.startswith(p)] *)
Definition startswith (s p : string) : bool := String.prefix p s.

(** [s[n:]] for a literal [n >= 0]. *)
Fixpoint slice_from (s : string) (n : nat) {struct n} : string :=
  match n, s with
  | O, _ => s
  | S n', String _ s' => slice_from s' n'
  | S _, EmptyString => EmptyString
  end.

(** [s[start:stop]]: a negative index counts from the end, and both
    indices are clamped to the bounds of [s]. *)
Definition slice (s : string) (start stop : Z) : string :=
  let n := len s in
  let norm i := if i <? 0 then Z.max 0 (i + n) else Z.min i n in
  let a := norm start in
  let b := norm stop in
  String.substring (Z.to_nat a) (Z.to_nat (b - a)) s.

(** [s.lstrip()], [s.rstrip()], [s.strip()] *)
Fixpoint lstrip (s : string) : string :=
  match s with
  | EmptyString => EmptyString
  | String c s' => if isspace c then lstrip s' else s
  end.

Fixpoint rstrip (s : string) : string :=
  match s with
  | EmptyString => EmptyString
  | String c s' =>
      match rstrip s' with
      | EmptyString => if isspace c then EmptyString else String c EmptyString
      | r => String c r
      end
  end.

Definition strip (s : string) : string := rstrip (lstrip s).

(** Truth value of a string: non-empty. *)
Definition truthy (s : string) : bool :=
  match s with EmptyString => false | _ => true end.

(** [s.split(sep)] for a one-character separator. *)
Fixpoint split (sep : ascii) (s : string) : list string :=
  match s with
  | EmptyString => [EmptyString]
  | String c s' =>
      if Ascii.eqb c sep then EmptyString :: split sep s'
      else match split sep s' with
           | [] => [String c EmptyString]
           | l :: ls => String c l :: ls
           end
  end.

(** [sep.join(parts)] *)
Definition join (sep : string) (parts : list string) : string :=
  String.concat sep parts.

(** [s.find(q)]: the lowest index at which [q] occurs in [s], or [-1]. *)
Fixpoint find_from (i : Z) (s q : string) : Z :=
  if String.prefix q s then i
  else match s with
       | EmptyString => -1
       | String _ s' => find_from (i + 1) s' q
       end.

Definition find (s q : string) : Z := find_from 0 s q.

(** [q in s] *)
Fixpoint contains (q s : string) : bool :=
  String.prefix q s
  || match s with
     | EmptyString => false
     | String _ s' => contains q s'
     end.

(** [str(n)] for an integer. *)
Definition str (n : Z) : string := NilZero.string_of_int (Z.to_int n).

(** The longest prefix of [s] made of characters satisfying [p]: what a
    greedy [p+] consumes at the start of [s]. *)
Fixpoint span (p : ascii -> bool) (s : string) : string :=
  match s with
  | EmptyString => EmptyString
  | String c s' => if p c then String c (span p s') else EmptyString
  end.

End Py.

(** [l.append(x)] *)
Definition list_append {A} (l : list A) (x : A) : list A := (l ++ [x])%list.

(** ** Data models *)

Module ReferenceCardRow.
Record t := mk { description : string; code : string }.
End ReferenceCardRow.

Module BlockType.
Inductive t := text | code | table | calculation | list | checkbox | reference.

Definition eqb (a b : t) : bool :=
  match a, b with
  | text, text | code, code | table, table | calculation, calculation
  | list, list | checkbox, checkbox | reference, reference => true
  | _, _ => false
  end.
End BlockType.

Module TitleSize.
Inductive t := sm | md | lg | xl.
End TitleSize.

Module Block.
Record t := mk {
  id : string;
  type : BlockType.t;
  title : option string;
  content : string;
  x : Z;
  y : Z;
  w : Z;
  h : Z;
  language : option string;
  referenceData : option (list ReferenceCardRow.t)
}.
End Block.

(** The dict literals with which the importer accumulates a text block.
    The key ["title"] is present only for a block opened by a [###] header;
    ["language"] and ["referenceData"] are never present. *)
Module BlockDict.
Record t := mk {
  id : string;
  title : option string;
  content : string;
  type : BlockType.t;
  x : Z;
  y : Z;
  w : Z;
  h : Z
}.

(** [d["content"] += s] *)
Definition add_content (d : t) (s : string) : t :=
  mk (id d) (title d) (content d ++ s) (type d) (x d) (y d) (w d) (h d).
End BlockDict.

(** The [Block] built from the keys of [d]: absent keys take the model's
    defaults. *)
Definition Block_of_dict (d : BlockDict.t) : Block.t :=
  Block.mk (BlockDict.id d) (BlockDict.type d) (BlockDict.title d)
           (BlockDict.content d) (BlockDict.x d) (BlockDict.y d)
           (BlockDict.w d) (BlockDict.h d) None None.

(** What the variable [current_block] and the items of a section's
    [blocks] list hold while importing: a dict or a [Block] model. *)
Inductive PyBlock :=
| PyDict (d : BlockDict.t)
| PyModel (b : Block.t).

(** The validated reading of an item: the dict dumped to the store is read
    back as [Block] built from the keys of [d]. *)
Definition as_block (b : PyBlock) : Block.t :=
  match b with
  | PyDict d => Block_of_dict d
  | PyModel m => m
  end.

(** Sections and cheatsheets, over the type of the items of [blocks]:
    [Block.t] for documents read from the store, [PyBlock] for the
    document under construction by the importer. *)
Module Section.
Record t (B : Type) := mk {
  id : string;
  title : string;
  titleColor : option string;
  titleSize : option TitleSize.t;
  blocks : list B
}.
Arguments mk {B}.
Arguments id {B}.
Arguments title {B}.
Arguments titleColor {B}.
Arguments titleSize {B}.
Arguments blocks {B}.

(** [section.blocks.append(b)] *)
Definition append {B} (s : t B) (b : B) : t B :=
  mk (id s) (title s) (titleColor s) (titleSize s) (list_append (blocks s) b).

Definition map {A B} (f : A -> B) (s : t A) : t B :=
  mk (id s) (title s) (titleColor s) (titleSize s) (List.map f (blocks s)).
End Section.

Module Cheatsheet.
Record t (B : Type) := mk {
  id : string;
  name : string;
  sections : list (Section.t B);
  created : string;
  updated : string
}.
Arguments mk {B}.
Arguments id {B}.
Arguments name {B}.
Arguments sections {B}.
Arguments created {B}.
Arguments updated {B}.

Definition map {A B} (f : A -> B) (c : t A) : t B :=
  mk (id c) (name c) (List.map (Section.map f) (sections c))
     (created c) (updated c).
End Cheatsheet.

(** [save_cheatsheet] followed by [load_cheatsheet]: every item of every
    [blocks] list is read back as a [Block]. *)
Definition stored (cs : Cheatsheet.t PyBlock) : Cheatsheet.t Block.t :=
  Cheatsheet.map as_block cs.

(** ** Clock and exceptions *)

Record Clock := mkClock {
  timestamp_ms : nat -> Z;      (* int(datetime.now().timestamp() * 1000) *)
  isoformat : nat -> string     (* datetime.now().isoformat() *)
}.

Inductive exn :=
| TypeError (msg : string).

Definition result (A : Type) : Type := (exn + A)%type.

(** ** The importer: [parse_markdown_to_cheatsheet] *)

(** Truth value of an optional object ([None] is false; a pydantic model
    and a non-empty dict are true). *)
Definition is_some {A} (o : option A) : bool :=
  match o with Some _ => true | None => false end.

(** The local variables of the importer at the head of its [while] loop.
    The index [i] is represented by the suffix [lines[i:]] on which the
    loop recurses; [ticks] counts the calls of [datetime.now()] made so
    far. *)
Record state := mkState {
  sections : list (Section.t PyBlock);
  current_section : option (Section.t PyBlock);
  current_block : option PyBlock;
  block_counter : Z;
  ticks : nat
}.

(** [f"sec_{int(datetime.now().timestamp() * 1000)}_{n}"] *)
Definition section_id (clk : Clock) (tick : nat) (n : Z) : string :=
  "sec_" ++ Py.str (timestamp_ms clk tick) ++ "_" ++ Py.str n.

(** [f"block_{cheatsheet_id}_{block_counter}"] *)
Definition block_id (cheatsheet_id : string) (counter : Z) : string :=
  "block_" ++ cheatsheet_id ++ "_" ++ Py.str counter.

(** [if current_block and current_section:
       current_section.blocks.append(current_block)],
    the first statement of the [###] and fence branches.  The variable
    [current_block] is left as it is. *)
Definition append_current (st : state) : state :=
  match current_block st, current_section st with
  | Some b, Some sec =>
      mkState (sections st) (Some (Section.append sec b)) (current_block st)
              (block_counter st) (ticks st)
  | _, _ => st
  end.

(** The branch [line.startswith('## ')]. *)
Definition on_h2 (clk : Clock) (line : string) (st : state) : state :=
  let st1 :=
    match current_section st, current_block st with
    | Some sec, Some b =>
        mkState (sections st) (Some (Section.append sec b)) None
                (block_counter st) (ticks st)
    | _, _ => st
    end in
  let sections1 :=
    match current_section st1 with
    | Some sec => list_append (sections st1) sec
    | None => sections st1
    end in
  let sid := section_id clk (ticks st1) (Z.of_nat (List.length sections1)) in
  mkState sections1
          (Some (Section.mk sid (Py.strip (Py.slice_from line 3)) None None []))
          (current_block st1) (block_counter st1) (S (ticks st1)).

(** The branch [line.startswith('### ')]. *)
Definition on_h3 (cheatsheet_id : string) (line : string) (st : state) : state :=
  let st1 := append_current st in
  let block_title := Py.strip (Py.slice_from line 4) in
  let counter := block_counter st1 + 1 in
  mkState (sections st1) (current_section st1)
          (Some (PyDict (BlockDict.mk (block_id cheatsheet_id counter)
                                      (Some block_title) "" BlockType.text
                                      0 (counter - 1) 6 2)))
          counter (ticks st1).

(** [re.match(r'```(\w+)?', line)]: [None] when the line does not start
    with the fence; otherwise the match object, given by its group 1
    ([None] when the optional group did not take part in the match). *)
Definition re_match_fence (line : string) : option (option string) :=
  if Py.startswith line "```" then
    match Py.span Py.isword (Py.slice_from line 3) with
    | EmptyString => Some None
    | tag => Some (Some tag)
    end
  else None.

(** [lang_match.group(1) if lang_match and lang_match.group(1) else "text"] *)
Definition fence_language (line : string) : string :=
  match re_match_fence line with
  | Some (Some g) => if Py.truthy g then g else "text"
  | _ => "text"
  end.

(** The branch [line.startswith('```')], once the inner loop has collected
    [code_lines]. *)
Definition on_fence (cheatsheet_id : string) (line : string)
           (code_lines : list string) (st : state) : state :=
  let st1 := append_current st in
  let language := fence_language line in
  let counter := block_counter st1 + 1 in
  let blk := Block.mk (block_id cheatsheet_id counter) BlockType.code None
                      (Py.join Py.NL code_lines) 0 (counter - 1) 6 3
                      (Some language) None in
  let section1 :=
    match current_section st1 with
    | Some sec => Some (Section.append sec (PyModel blk))
    | None => None
    end in
  mkState (sections st1) section1 None counter (ticks st1).

(** The branch [line.strip()] (regular text).  Subscripting
    [current_block] raises when it is not a dict. *)
Definition on_text (clk : Clock) (cheatsheet_id : string) (line : string)
           (st : state) : result state :=
  let st1 :=
    match current_section st with
    | None =>
        mkState (sections st)
                (Some (Section.mk (section_id clk (ticks st) 0)
                                  "Imported Content" None None []))
                (current_block st) (block_counter st) (S (ticks st))
    | Some _ => st
    end in
  match current_block st1 with
  | None =>
      let counter := block_counter st1 + 1 in
      inr (mkState (sections st1) (current_section st1)
                   (Some (PyDict (BlockDict.mk (block_id cheatsheet_id counter)
                                               None line BlockType.text
                                               0 (counter - 1) 6 2)))
                   counter (ticks st1))
  | Some (PyDict d) =>
      inr (mkState (sections st1) (current_section st1)
                   (Some (PyDict (BlockDict.add_content d (Py.NL ++ line))))
                   (block_counter st1) (ticks st1))
  | Some (PyModel _) => inl (TypeError "'Block' object is not subscriptable")
  end.

(** The [while i < len(lines)] loop, by recursion on [lines[i:]].  The inner
    loop of the fence branch is the local [scan]: it collects lines up to a
    line that starts with the fence (or the end of input), and the outer
    loop resumes after that line. *)
Fixpoint parse_lines (clk : Clock) (cheatsheet_id : string)
         (lines : list string) (st : state) : result state :=
  match lines with
  | [] => inr st
  | line :: rest =>
      if Py.startswith line "## " then
        parse_lines clk cheatsheet_id rest (on_h2 clk line st)
      else if Py.startswith line "### " then
        parse_lines clk cheatsheet_id rest (on_h3 cheatsheet_id line st)
      else if Py.startswith line "```" then
        (fix scan (l : list string) (code_lines : list string) : result state :=
           match l with
           | [] => inr (on_fence cheatsheet_id line code_lines st)
           | l0 :: l' =>
               if Py.startswith l0 "```" then
                 parse_lines clk cheatsheet_id l'
                             (on_fence cheatsheet_id line code_lines st)
               else scan l' (list_append code_lines l0)
           end) rest []
      else if Py.truthy (Py.strip line) then
        match on_text clk cheatsheet_id line st with
        | inl e => inl e
        | inr st' => parse_lines clk cheatsheet_id rest st'
        end
      else parse_lines clk cheatsheet_id rest st
  end.

(** The statements after the loop: flush the remaining block and section,
    and create the default section when there is none. *)
Definition finish (clk : Clock) (st : state) : state :=
  let section1 :=
    match current_block st, current_section st with
    | Some (PyDict d), Some sec =>
        Some (Section.append sec (PyModel (Block_of_dict d)))
    | Some (PyModel b), Some sec => Some (Section.append sec (PyModel b))
    | _, _ => current_section st
    end in
  let sections1 :=
    match section1 with
    | Some sec => list_append (sections st) sec
    | None => sections st
    end in
  match sections1 with
  | [] =>
      mkState [Section.mk (section_id clk (ticks st) 0) "Imported Content"
                          None None []]
              section1 (current_block st) (block_counter st) (S (ticks st))
  | _ => mkState sections1 section1 (current_block st) (block_counter st)
                 (ticks st)
  end.

Definition initial_state : state := mkState [] None None 0 1.

(** [f"cs_{int(datetime.now().timestamp() * 1000)}"], the first reading of
    the clock. *)
Definition new_cheatsheet_id (clk : Clock) : string :=
  "cs_" ++ Py.str (timestamp_ms clk 0).

Definition parse_markdown_to_cheatsheet (clk : Clock)
           (markdown_content name : string) : result (Cheatsheet.t PyBlock) :=
  let cheatsheet_id := new_cheatsheet_id clk in
  let lines := Py.split Py.nl markdown_content in
  match parse_lines clk cheatsheet_id lines initial_state with
  | inl e => inl e
  | inr st =>
      let st' := finish clk st in
      inr (Cheatsheet.mk cheatsheet_id name (sections st')
                         (isoformat clk (ticks st'))
                         (isoformat clk (S (ticks st'))))
  end.

(** ** The exporter: [export_cheatsheet_markdown] *)

(** The body of [for block in section.blocks], on the list [md_lines]. *)
Definition export_block (md_lines : list string) (block : Block.t)
  : list string :=
  let md1 :=
    match Block.title block with
    | Some t =>
        if Py.truthy t
        then list_append md_lines (Py.NL ++ "### " ++ t ++ Py.NL)
        else md_lines
    | None => md_lines
    end in
  match Block.type block with
  | BlockType.text | BlockType.table | BlockType.list | BlockType.checkbox =>
      list_append md1 (Py.NL ++ Block.content block ++ Py.NL)
  | BlockType.code =>
      let lang :=
        match Block.language block with
        | Some l => if Py.truthy l then l else "text"
        | None => "text"
        end in
      list_append md1 (Py.NL ++ "```" ++ lang ++ Py.NL ++ Block.content block
                             ++ Py.NL ++ "```" ++ Py.NL)
  | BlockType.calculation =>
      list_append md1 (Py.NL ++ "```" ++ Py.NL ++ Block.content block
                             ++ Py.NL ++ "```" ++ Py.NL)
  | BlockType.reference =>
      match Block.referenceData block with
      | Some (r :: rows) =>
          fold_left
            (fun acc row =>
               list_append acc ("| " ++ ReferenceCardRow.description row
                                     ++ " | `" ++ ReferenceCardRow.code row
                                     ++ "` |" ++ Py.NL))
            (r :: rows)
            (list_append
               (list_append md1 (Py.NL ++ "| Description | Code |" ++ Py.NL))
               ("|-------------|------|" ++ Py.NL))
      | _ => md1
      end
  end.

(** The body of [for section in cs.sections]. *)
Definition export_section (md_lines : list string)
           (section : Section.t Block.t) : list string :=
  fold_left export_block (Section.blocks section)
            (list_append md_lines
                         (Py.NL ++ "## " ++ Section.title section ++ Py.NL)).

(** The Markdown text generated for a cheatsheet. *)
Definition export_markdown (cs : Cheatsheet.t Block.t) : string :=
  let md_lines :=
    fold_left export_section (Cheatsheet.sections cs)
              ["# " ++ Cheatsheet.name cs ++ Py.NL] in
  Py.join Py.NL md_lines.

Record HTTPException := mkHTTPException {
  status_code : Z;
  detail : string
}.

Record Response := mkResponse {
  response_content : string;
  media_type : string;
  content_disposition : string
}.

(** The endpoint, over the store's [load_cheatsheet], for a name that the
    [Content-Disposition] header can carry. *)
Definition export_cheatsheet_markdown
           (load_cheatsheet : string -> option (Cheatsheet.t Block.t))
           (cheatsheet_id : string) : HTTPException + Response :=
  match load_cheatsheet cheatsheet_id with
  | None => inl (mkHTTPException 404 "Cheatsheet not found")
  | Some cs =>
      inr (mkResponse (export_markdown cs) "text/markdown"
                      ("attachment; filename=" ++ String (ascii_of_nat 34) ""
                       ++ Cheatsheet.name cs ++ ".md"
                       ++ String (ascii_of_nat 34) ""))
  end.

(** ** The search: [search_cheatsheets] *)

(** The result dicts, by their ["type"] key. *)
Inductive SearchResult :=
| CheatsheetResult (cheatsheet_id cheatsheet_name match_ : string)
| SectionResult (cheatsheet_id cheatsheet_name section_title match_ : string)
| BlockResult (cheatsheet_id cheatsheet_name section_title : string)
              (block_type : BlockType.t) (block_title : option string)
              (match_ : string).

Inductive ResultKind := cheatsheet | section | block.

Definition result_type (r : SearchResult) : ResultKind :=
  match r with
  | CheatsheetResult _ _ _ => cheatsheet
  | SectionResult _ _ _ _ => section
  | BlockResult _ _ _ _ _ _ => block
  end.

Definition result_match (r : SearchResult) : string :=
  match r with
  | CheatsheetResult _ _ m => m
  | SectionResult _ _ _ m => m
  | BlockResult _ _ _ _ _ m => m
  end.

(** The context snippet computed for a matching block. *)
Definition snippet_of (content query : string) : string :=
  let content_lower := Py.lower content in
  let match_index := Py.find content_lower query in
  let start := Z.max 0 (match_index - 50) in
  let end_ := Z.min (Py.len content) (match_index + Py.len query + 50) in
  let snippet := Py.slice content start end_ in
  let snippet := if start >? 0 then "..." ++ snippet else snippet in
  if end_ <? Py.len content then snippet ++ "..." else snippet.

(** The condition of the [if] in the loop over blocks. *)
Definition block_matches (query : string) (block : Block.t) : bool :=
  Py.contains query (Py.lower (Block.content block))
  || match Block.title block with
     | Some t => Py.truthy t && Py.contains query (Py.lower t)
     | None => false
     end.

(** The body of [for block in section.blocks]. *)
Definition search_block (query : string) (cs : Cheatsheet.t Block.t)
           (section : Section.t Block.t)
           (results : list SearchResult) (block : Block.t)
  : list SearchResult :=
  if block_matches query block then
    list_append results
                (BlockResult (Cheatsheet.id cs) (Cheatsheet.name cs)
                             (Section.title section) (Block.type block)
                             (Block.title block)
                             (snippet_of (Block.content block) query))
  else results.

(** The body of [for section in cs.sections]. *)
Definition search_section (query : string) (cs : Cheatsheet.t Block.t)
           (results : list SearchResult) (section : Section.t Block.t)
  : list SearchResult :=
  let results1 :=
    if Py.contains query (Py.lower (Section.title section)) then
      list_append results
                  (SectionResult (Cheatsheet.id cs) (Cheatsheet.name cs)
                                 (Section.title section)
                                 (Section.title section))
    else results in
  fold_left (search_block query cs section) (Section.blocks section) results1.

(** The body of [for cs in cheatsheets]. *)
Definition search_cheatsheet (query : string)
           (results : list SearchResult) (cs : Cheatsheet.t Block.t)
  : list SearchResult :=
  let results1 :=
    if Py.contains query (Py.lower (Cheatsheet.name cs)) then
      list_append results
                  (CheatsheetResult (Cheatsheet.id cs) (Cheatsheet.name cs)
                                    (Cheatsheet.name cs))
    else results in
  fold_left (search_section query cs) (Cheatsheet.sections cs) results1.

(** The endpoint, over the result of the store's [load_all_cheatsheets]. *)
Definition search_cheatsheets (cheatsheets : list (Cheatsheet.t Block.t))
           (q : string) : list SearchResult :=
  if negb (Py.truthy q) || (Py.len q <? 2) then []
  else
    let query := Py.lower q in
    fold_left (search_cheatsheet query) cheatsheets [].

(** ** Definitions used by the statements *)

(** The inner loop of the fence branch cuts the lines that follow an
    opening fence in two: the lines it collects, and the lines on which the
    outer loop resumes (after the closing fence, when there is one). *)
Fixpoint code_lines_of (l : list string) : list string :=
  match l with
  | [] => []
  | l0 :: l' => if Py.startswith l0 "```" then [] else l0 :: code_lines_of l'
  end.

Fixpoint after_fence (l : list string) : list string :=
  match l with
  | [] => []
  | l0 :: l' => if Py.startswith l0 "```" then l' else after_fence l'
  end.

(** All the blocks of a document, in document order. *)
Definition all_blocks {B} (secs : list (Section.t B)) : list B :=
  flat_map Section.blocks secs.

(** The branch of the loop body that a line selects. *)
Inductive LineKind := H2 | H3 | Fence | Text | Blank.

Definition classify (line : string) : LineKind :=
  if Py.startswith line "## " then H2
  else if Py.startswith line "### " then H3
  else if Py.startswith line "```" then Fence
  else if Py.truthy (Py.strip line) then Text
  else Blank.

(** All characters of a string satisfy [p]. *)
Fixpoint string_forallb (p : ascii -> bool) (s : string) : bool :=
  match s with
  | EmptyString => true
  | String c s' => p c && string_forallb p s'
  end.

(** The first character of a string, if any, does not satisfy [p]. *)
Definition head_fails (p : ascii -> bool) (s : string) : bool :=
  match s with
  | EmptyString => true
  | String c _ => negb (p c)
  end.

(** [sectionless pre n]: the lines [pre] open no section (they are blank
    lines, [###] headers and complete fenced blocks) and start [n]
    blocks. *)
Inductive sectionless : list string -> Z -> Prop :=
| sectionless_nil : sectionless [] 0
| sectionless_blank l pre n :
    classify l = Blank -> sectionless pre n -> sectionless (l :: pre) n
| sectionless_h3 l pre n :
    classify l = H3 -> sectionless pre n -> sectionless (l :: pre) (n + 1)
| sectionless_fence l code closing pre n :
    classify l = Fence ->
    Forall (fun c => Py.startswith c "```" = false) code ->
    Py.startswith closing "```" = true ->
    sectionless pre n ->
    sectionless (l :: code ++ closing :: pre)%list (n + 1).

(** The items held by the importer's variables, in the order in which
    they reach the document. *)
Definition pending (st : state) : list PyBlock :=
  match current_block st with Some b => [b] | None => [] end.

Definition tracked (st : state) : list PyBlock :=
  (all_blocks (sections st)
   ++ match current_section st with Some sec => Section.blocks sec | None => [] end
   ++ pending st)%list.

(** *** The search as the specification words it *)


(** One match for a block when the query is a substring of its content or,
    if present, of its title. *)
Definition spec_block_matches (query : string) (cs : Cheatsheet.t Block.t)
           (sec : Section.t Block.t) (b : Block.t) : list SearchResult :=
  if Py.contains query (Py.lower (Block.content b))
     || match Block.title b with
        | Some t => Py.contains query (Py.lower t)
        | None => false
        end
  then [BlockResult (Cheatsheet.id cs) (Cheatsheet.name cs) (Section.title sec)
                    (Block.type b) (Block.title b)
                    (snippet_of (Block.content b) query)]
  else [].

(** One match for the section when the query is a substring of its title,
    then the matches of its blocks in order. *)
Definition spec_section_matches (query : string) (cs : Cheatsheet.t Block.t)
           (sec : Section.t Block.t) : list SearchResult :=
  ((if Py.contains query (Py.lower (Section.title sec))
    then [SectionResult (Cheatsheet.id cs) (Cheatsheet.name cs)
                        (Section.title sec) (Section.title sec)]
    else [])
   ++ flat_map (spec_block_matches query cs sec) (Section.blocks sec))%list.

(** One match for the document when the query is a substring of its name,
    then the matches of its sections in order. *)
Definition spec_cheatsheet_matches (query : string)
           (cs : Cheatsheet.t Block.t) : list SearchResult :=
  ((if Py.contains query (Py.lower (Cheatsheet.name cs))
    then [CheatsheetResult (Cheatsheet.id cs) (Cheatsheet.name cs)
                           (Cheatsheet.name cs)]
    else [])
   ++ flat_map (spec_section_matches query cs) (Cheatsheet.sections cs))%list.

Definition spec_search (cheatsheets : list (Cheatsheet.t Block.t))
           (q : string) : list SearchResult :=
  flat_map (spec_cheatsheet_matches (Py.lower q)) cheatsheets.

(** *** Invariants of the importer *)

(** The variable [current_block] does not hold a [Block] model. *)
Definition not_model (cb : option PyBlock) : Prop :=
  match cb with Some (PyModel _) => False | _ => True end.

(** At the head of the loop the variable [current_block] holds [None] or
    a dict, never a [Block] model. *)
Definition dict_or_none (st : state) : Prop :=
  not_model (current_block st).

(** The blocks held by a state, as the store reads them. *)
Definition tracked_blocks (st : state) : list Block.t :=
  List.map as_block (tracked st).

(** The layout that the importer gives to a block: the id and the row are
    derived from the counter [y + 1], the column is 0, the width 6, and the
    height 2 for a text block and 3 for a code block. *)
Definition imported_layout (cheatsheet_id : string) (b : Block.t) : Prop :=
  Block.id b = block_id cheatsheet_id (Block.y b + 1)
  /\ Block.x b = 0 /\ Block.w b = 6
  /\ ((Block.type b = BlockType.text /\ Block.h b = 2)
      \/ (Block.type b = BlockType.code /\ Block.h b = 3)).

(** The blocks [l] were laid out from counters between [lo + 1] and [hi],
    in increasing order. *)
Definition laid_out (cheatsheet_id : string) (lo hi : Z) (l : list Block.t)
  : Prop :=
  Forall (fun b => imported_layout cheatsheet_id b /\ lo <= Block.y b < hi) l
  /\ StronglySorted Z.lt (List.map Block.y l).

Definition counters_inv (cheatsheet_id : string) (lo : Z) (st : state) : Prop :=
  dict_or_none st
  /\ lo <= block_counter st
  /\ laid_out cheatsheet_id lo (block_counter st) (tracked_blocks st).

(** What one branch of the loop does to the tracked blocks [T] and to the
    counter [bc]; [opened] tells whether a section is current.  A branch
    leaves both unchanged, or starts a block on top of the blocks it keeps
    (with an open section it keeps them all), or starts a block and
    discards it (only without a section), or edits the last block without
    touching its layout. *)
Inductive step_effect (cheatsheet_id : string) (opened : bool)
          (T : list Block.t) (bc : Z) : list Block.t -> Z -> Prop :=
| effect_none : step_effect cheatsheet_id opened T bc T bc
| effect_start keep drop b :
    T = (keep ++ drop)%list -> (opened = true -> drop = []) ->
    imported_layout cheatsheet_id b -> Block.y b = bc ->
    step_effect cheatsheet_id opened T bc (keep ++ [b])%list (bc + 1)
| effect_discard keep drop :
    T = (keep ++ drop)%list -> opened = false ->
    step_effect cheatsheet_id opened T bc keep (bc + 1)
| effect_edit l b b' :
    T = (l ++ [b])%list ->
    (imported_layout cheatsheet_id b -> imported_layout cheatsheet_id b') ->
    Block.y b' = Block.y b ->
    step_effect cheatsheet_id opened T bc (l ++ [b'])%list bc.


(** The blocks of a document as the store reads them, in document order. *)
Definition document_blocks (doc : Cheatsheet.t PyBlock) : list Block.t :=
  List.map as_block (all_blocks (Cheatsheet.sections doc)).

(** *** Shapes, for the round trip *)

(** A string without newline. *)
Definition no_nl (s : string) : bool :=
  string_forallb (fun c => negb (Ascii.eqb c Py.nl)) s.

(** What the round trip compares: the title, type, content and language
    of a block; the title and the blocks of a section. *)
Definition BlockShape : Type :=
  (option string * BlockType.t * string * option string)%type.

Definition block_shape (b : Block.t) : BlockShape :=
  (Block.title b, Block.type b, Block.content b, Block.language b).

Definition SectionShape : Type := (string * list BlockShape)%type.

Definition section_shape (s : Section.t Block.t) : SectionShape :=
  (Section.title s, List.map block_shape (Section.blocks s)).

Definition shape (doc : Cheatsheet.t PyBlock) : list SectionShape :=
  List.map section_shape (Cheatsheet.sections (stored doc)).

(** The export without its first element ["# {name}\n"]. *)
Definition export_body (cs : Cheatsheet.t Block.t) : string :=
  Py.join Py.NL (fold_left export_section (Cheatsheet.sections cs) []).

(** No block of the document has an empty title. *)
Definition no_empty_title (doc : Cheatsheet.t PyBlock) : Prop :=
  Forall (fun b => Block.title b <> Some "") (document_blocks doc).

(** *** The documents that the importer produces *)

(** Whether a block may follow, in a section, a block that is a text
    block ([prev_text]) or not, and what it is itself.  An untitled text
    block never follows a text block: the importer would have appended its
    lines to that block. *)
Definition follows (prev_text : bool) (b : Block.t) : option bool :=
  match Block.type b, Block.title b with
  | BlockType.text, None => if prev_text then None else Some true
  | BlockType.text, Some _ => Some true
  | _, _ => Some false
  end.

Fixpoint chain (prev_text : bool) (l : list Block.t) : option bool :=
  match l with
  | [] => Some prev_text
  | b :: l' =>
      match follows prev_text b with
      | None => None
      | Some p => chain p l'
      end
  end.

(** The blocks that the importer builds: an untitled text block made of
    text lines; a titled text block whose content is empty or a newline
    followed by text lines; a code block with a language made of word
    characters and without fence line in its content. *)
Definition canon_block (b : Block.t) : Prop :=
  match Block.type b, Block.title b with
  | BlockType.text, None =>
      Block.language b = None
      /\ Forall (fun l => classify l = Text) (Py.split Py.nl (Block.content b))
  | BlockType.text, Some t =>
      Block.language b = None
      /\ Py.strip t = t /\ no_nl t = true
      /\ exists ls, Py.split Py.nl (Block.content b) = "" :: ls
                    /\ Forall (fun l => classify l = Text) ls
  | BlockType.code, None =>
      exists lang,
        Block.language b = Some lang
        /\ Py.truthy lang = true
        /\ string_forallb Py.isword lang = true
        /\ Forall (fun l => Py.startswith l "```" = false)
                  (Py.split Py.nl (Block.content b))
  | _, _ => False
  end.

Definition canon_title (t : string) : Prop :=
  Py.strip t = t /\ no_nl t = true.

Definition canon_section (s : Section.t Block.t) : Prop :=
  canon_title (Section.title s)
  /\ Forall canon_block (Section.blocks s)
  /\ chain false (Section.blocks s) <> None.

(** The items of the current section followed by the pending block. *)
Definition open_items (st : state) : list PyBlock :=
  (match current_section st with
   | Some sec => Section.blocks sec
   | None => []
   end ++ pending st)%list.

Definition canon_state (st : state) : Prop :=
  dict_or_none st
  /\ Forall canon_section (List.map (Section.map as_block) (sections st))
  /\ Forall canon_block (List.map as_block (open_items st))
  /\ match current_section st with
     | Some sec =>
         canon_title (Section.title sec)
         /\ chain false (List.map as_block (open_items st))
            = Some (is_some (current_block st))
     | None =>
         forall b, current_block st = Some b ->
                   Block.title (as_block b) <> None
     end.

(** The sections that the statements after the loop make of a state, as
    the store reads them: the finished sections, then the current section
    with the pending block. *)
Definition flushed (st : state) : list (Section.t Block.t) :=
  (List.map (Section.map as_block) (sections st)
   ++ match current_section st with
      | Some sec =>
          [Section.mk (Section.id sec) (Section.title sec)
                      (Section.titleColor sec) (Section.titleSize sec)
                      (List.map as_block (open_items st))]
      | None => []
      end)%list.

(** The lines of the Markdown that the exporter emits for a block and for
    a section. *)
Definition block_lines (b : Block.t) : list string :=
  flat_map (Py.split Py.nl) (export_block [] b).

Definition section_lines (s : Section.t Block.t) : list string :=
  flat_map (Py.split Py.nl) (export_section [] s).

(** The shape of the open section's items, and of the sections that a
    state would flush. *)
Definition open_shape (st : state) : list BlockShape :=
  List.map (fun x => block_shape (as_block x)) (open_items st).

Definition state_shape (st : state) : list SectionShape :=
  List.map section_shape (flushed st).

(** [c + "\n" + l1 + "\n" + l2 ...]: the content of a text block after
    the lines [ls] were appended to it. *)
Definition add_lines (c : string) (ls : list string) : string :=
  fold_left (fun c l => c ++ Py.NL ++ l) ls c.

(** The outline of a document: the title and the number of blocks of each
    section. *)
Definition outline (l : list SectionShape) : list (string * nat) :=
  List.map (fun s => (fst s, List.length (snd s))) l.

(** *** Sample documents and inputs *)

(** A clock for the examples: the k-th reading is [1700000000000 + k]
    milliseconds. *)
Definition sample_clock : Clock :=
  mkClock (fun k => 1700000000000 + Z.of_nat k)
          (fun k => "2023-11-14T22:13:20.00" ++ Py.str (Z.of_nat k)).


(** The text ["### A\n```\ncode\n```\n## S\ntext"]. *)
Definition md_fence_first : string :=
  Py.join Py.NL ["### A"; "```"; "code"; "```"; "## S"; "text"].

Definition sample_block (title : option string) (content : string) : Block.t :=
  Block.mk "block_cs_1_1" BlockType.text title content 0 0 6 2 None None.

Definition sample_doc (name : string) (blocks : list Block.t)
  : Cheatsheet.t Block.t :=
  Cheatsheet.mk "cs_1" name [Section.mk "sec_1_0" "Notes" None None blocks]
                "2024-01-01T00:00:00" "2024-01-01T00:00:00".

(** The text ["## API\n### Auth\n```python\nx = 1\n```\n"]. *)
Definition md_api_auth : string :=
  Py.join Py.NL ["## API"; "### Auth"; "```python"; "x = 1"; "```"; ""].

(** The text ["## S\nfoo\n### \nbar"]: its [###] header has an empty
    title. *)
Definition md_empty_title : string :=
  Py.join Py.NL ["## S"; "foo"; "### "; "bar"].

(** The text ["## API\n### Auth\ntoken\n```python\nx = 1\n```\nmore"]. *)
Definition md_api_notes : string :=
  Py.join Py.NL ["## API"; "### Auth"; "token"; "```python"; "x = 1"; "```";
                 "more"].

(** ** The store: cheatsheet files and index *)

(** A Python dict with string keys, in insertion order. *)
Definition dict (V : Type) : Type := list (string * V).

(** [d.get(k)] *)
Fixpoint dict_get {V} (d : dict V) (k : string) : option V :=
  match d with
  | [] => None
  | (k', v) :: d' => if String.eqb k' k then Some v else dict_get d' k
  end.

(** [k in d] *)
Definition dict_contains {V} (k : string) (d : dict V) : bool :=
  match dict_get d k with Some _ => true | None => false end.

(** [d[k] = v]: an existing key keeps its place, a new key comes last. *)
Fixpoint dict_set {V} (d : dict V) (k : string) (v : V) : dict V :=
  match d with
  | [] => [(k, v)]
  | (k', v') :: d' =>
      if String.eqb k' k then (k', v) :: d' else (k', v') :: dict_set d' k v
  end.

(** [del d[k]] *)
Fixpoint dict_del {V} (d : dict V) (k : string) : dict V :=
  match d with
  | [] => []
  | (k', v') :: d' =>
      if String.eqb k' k then d' else (k', v') :: dict_del d' k
  end.

(** [d.keys()] *)
Definition dict_keys {V} (d : dict V) : list string := List.map fst d.

(** The entries of the index: the metadata of a cheatsheet. *)
Module IndexEntry.
Record t := mk {
  id : string;
  name : string;
  created : string;
  updated : string
}.
End IndexEntry.

(** The files under [data/].  A cheatsheet file holds the JSON dump of a
    cheatsheet and is represented by the cheatsheet it is read back as;
    the index file, when it exists, holds a dict of entries.  Cheatsheet
    files are told apart by their paths, as [joinpath] gives them, and
    the index file [data/index.json] is none of them: an id whose path
    leaves [data/cheatsheets] for the index file is outside the model, as
    are the failures of the file system. *)
Record World := mkWorld {
  files : string -> option (Cheatsheet.t Block.t);
  index_file : option (dict IndexEntry.t)
}.

(** A document whose blocks are all [Block] models, as a Python object. *)
Definition models (cs : Cheatsheet.t Block.t) : Cheatsheet.t PyBlock :=
  Cheatsheet.map PyModel cs.

(** The body of a [PUT] request. *)
Module CheatsheetUpdate.
Record t := mk {
  name : option string;
  sections : option (list (Section.t Block.t))
}.
End CheatsheetUpdate.

Section Store.

(** [pathlib]'s [/]: the path of [name] in the directory [dir]. *)
Variable joinpath : string -> string -> string.

Definition DATA_DIR : string := "data/cheatsheets".

Definition get_cheatsheet_path (cheatsheet_id : string) : string :=
  joinpath DATA_DIR (cheatsheet_id ++ ".json").

Definition load_index (w : World) : dict IndexEntry.t :=
  match index_file w with
  | None => []
  | Some index => index
  end.

Definition save_index (index : dict IndexEntry.t) (w : World) : World :=
  mkWorld (files w) (Some index).

Definition load_cheatsheet (w : World) (cheatsheet_id : string)
  : option (Cheatsheet.t Block.t) :=
  files w (get_cheatsheet_path cheatsheet_id).

(** [save_cheatsheet], when its two writes complete. *)
Definition save_cheatsheet (cheatsheet : Cheatsheet.t PyBlock) (w : World)
  : World :=
  let filepath := get_cheatsheet_path (Cheatsheet.id cheatsheet) in
  let w1 :=
    mkWorld (fun p => if String.eqb p filepath then Some (stored cheatsheet)
                      else files w p)
            (index_file w) in
  let index := load_index w1 in
  save_index
    (dict_set index (Cheatsheet.id cheatsheet)
              (IndexEntry.mk (Cheatsheet.id cheatsheet)
                             (Cheatsheet.name cheatsheet)
                             (Cheatsheet.created cheatsheet)
                             (Cheatsheet.updated cheatsheet)))
    w1.

Definition delete_cheatsheet_file (cheatsheet_id : string) (w : World)
  : World :=
  let filepath := get_cheatsheet_path cheatsheet_id in
  let w1 :=
    match files w filepath with
    | Some _ =>
        mkWorld (fun p => if String.eqb p filepath then None else files w p)
                (index_file w)
    | None => w
    end in
  let index := load_index w1 in
  if dict_contains cheatsheet_id index
  then save_index (dict_del index cheatsheet_id) w1
  else w1.

Definition load_all_cheatsheets (w : World) : list (Cheatsheet.t Block.t) :=
  let index := load_index w in
  fold_left
    (fun cheatsheets cheatsheet_id =>
       match load_cheatsheet w cheatsheet_id with
       | Some cs => list_append cheatsheets cs
       | None => cheatsheets
       end)
    (dict_keys index) [].

(** *** The endpoints over the store *)

Definition not_found : HTTPException :=
  mkHTTPException 404 "Cheatsheet not found".

Definition get_cheatsheets (w : World) : list (Cheatsheet.t Block.t) :=
  load_all_cheatsheets w.

Definition get_cheatsheet (cheatsheet_id : string) (w : World)
  : HTTPException + Cheatsheet.t Block.t :=
  match load_cheatsheet w cheatsheet_id with
  | Some cs => inr cs
  | None => inl not_found
  end.

Definition create_cheatsheet (clk : Clock) (name : string) (w : World)
  : Cheatsheet.t PyBlock * World :=
  let new_id := "cs_" ++ Py.str (timestamp_ms clk 0) in
  let new_cheatsheet :=
    Cheatsheet.mk new_id name [] (isoformat clk 1) (isoformat clk 2) in
  (new_cheatsheet, save_cheatsheet new_cheatsheet w).

Definition update_cheatsheet (clk : Clock) (cheatsheet_id : string)
           (update : CheatsheetUpdate.t) (w : World)
  : (HTTPException + Cheatsheet.t Block.t) * World :=
  match load_cheatsheet w cheatsheet_id with
  | None => (inl not_found, w)
  | Some cs =>
      let name1 :=
        match CheatsheetUpdate.name update with
        | Some n => n
        | None => Cheatsheet.name cs
        end in
      let sections1 :=
        match CheatsheetUpdate.sections update with
        | Some s => s
        | None => Cheatsheet.sections cs
        end in
      let cs1 := Cheatsheet.mk (Cheatsheet.id cs) name1 sections1
                               (Cheatsheet.created cs) (isoformat clk 0) in
      (inr cs1, save_cheatsheet (models cs1) w)
  end.

Definition delete_cheatsheet (cheatsheet_id : string) (w : World)
  : (HTTPException + string) * World :=
  match load_cheatsheet w cheatsheet_id with
  | None => (inl not_found, w)
  | Some _ =>
      (inr "Cheatsheet deleted successfully",
       delete_cheatsheet_file cheatsheet_id w)
  end.

(** The Markdown import, for a request body whose values are strings.
    The call of [save_cheatsheet] stands inside the [try]: it completes,
    or it raises (a write that fails, a string that cannot be encoded)
    and the exception is caught by [except Exception].  [save_failure]
    is the outcome of that call: [None] when it completes, and otherwise
    the message of the exception with the files as the failed call
    leaves them. *)
Definition import_markdown (clk : Clock)
           (save_failure : option (string * World))
           (data : dict string) (w : World)
  : (HTTPException + Cheatsheet.t PyBlock) * World :=
  let markdown_content :=
    match dict_get data "content" with Some c => c | None => "" end in
  let name :=
    match dict_get data "name" with
    | Some n => n
    | None => "Imported from Markdown"
    end in
  if negb (Py.truthy markdown_content) then
    (inl (mkHTTPException 400 "No markdown content provided"), w)
  else
    match parse_markdown_to_cheatsheet clk markdown_content name with
    | inl (TypeError msg) =>
        (inl (mkHTTPException 400 ("Failed to parse markdown: " ++ msg)), w)
    | inr cs =>
        match save_failure with
        | None => (inr cs, save_cheatsheet cs w)
        | Some (msg, w') =>
            (inl (mkHTTPException 400 ("Failed to parse markdown: " ++ msg)),
             w')
        end
    end.

(** [search_cheatsheets] and [export_cheatsheet_markdown], reading the
    store. *)
Definition search_endpoint (q : string) (w : World) : list SearchResult :=
  search_cheatsheets (load_all_cheatsheets w) q.

Definition export_endpoint (cheatsheet_id : string) (w : World)
  : HTTPException + Response :=
  export_cheatsheet_markdown (load_cheatsheet w) cheatsheet_id.

End Store.

(** The index lists every cheatsheet file under its own id, once. *)
Definition store_ok (joinpath : string -> string -> string) (w : World)
  : Prop :=
  NoDup (dict_keys (load_index w))
  /\ forall k, In k (dict_keys (load_index w)) ->
               exists cs, load_cheatsheet joinpath w k = Some cs
                          /\ Cheatsheet.id cs = k.

(** [pathlib]'s [/] for the examples: plain relative names. *)
Definition sample_joinpath (dir name : string) : string :=
  dir ++ "/" ++ name.

Definition empty_world : World := mkWorld (fun _ => None) None.

(** No key of the index other than [cheatsheet_id] names the file of
    [cheatsheet_id]: writing or deleting that file touches the file of no
    other listed cheatsheet. *)
Definition no_path_clash (joinpath : string -> string -> string)
           (cheatsheet_id : string) (w : World) : Prop :=
  forall k, In k (dict_keys (load_index w)) ->
            get_cheatsheet_path joinpath k
            = get_cheatsheet_path joinpath cheatsheet_id ->
            k = cheatsheet_id.

(** A store of two cheatsheets, for the examples. *)
Definition sample_store : World :=
  save_cheatsheet sample_joinpath
    (Cheatsheet.mk "cs_2" "Go Basics" [] "t2" "t2")
    (save_cheatsheet sample_joinpath
       (Cheatsheet.mk "cs_1" "Go Notes" [] "t1" "t1") empty_world).

(** *** The ids of the sections *)

(** The sections that the importer holds: the finished ones, then the
    current one. *)
Definition open_sections (st : state) : list (Section.t PyBlock) :=
  (sections st
   ++ match current_section st with Some sec => [sec] | None => [] end)%list.

(** The section at place [k] (from 0) has the id made of the clock's
    reading [k + 1] and of [k]. *)
Definition positional_ids {B} (clk : Clock) (l : list (Section.t B)) : Prop :=
  List.map Section.id l
  = List.map (fun k => section_id clk (S k) (Z.of_nat k))
             (seq 0 (List.length l)).

(** The clock was read once for the id of the cheatsheet and once for
    each section; before the first section is opened no section is
    finished. *)
Definition section_ids_inv (clk : Clock) (st : state) : Prop :=
  dict_or_none st
  /\ ticks st = S (List.length (open_sections st))
  /\ (current_section st = None -> sections st = [])
  /\ positional_ids clk (open_sections st).

(** Without a [##] line no section is finished inside the loop, and the
    current section, if any, is the default one. *)
Definition default_section_inv (st : state) : Prop :=
  dict_or_none st
  /\ sections st = []
  /\ match current_section st with
     | Some sec => Section.title sec = "Imported Content"
     | None => True
     end.

(** The lines handled by the regular-text branch. *)
Definition is_text_line (l : string) : bool :=
  match classify l with Text => true | _ => false end.

(** *** What the exporter and the search read *)

(** The block types that are exported as their bare content. *)
Definition paragraph_type (t : BlockType.t) : bool :=
  match t with
  | BlockType.text | BlockType.table | BlockType.list | BlockType.checkbox =>
      true
  | _ => false
  end.

(** Two blocks with the same title and content that are both exported as
    bare content, or have the same type, language and reference rows. *)
Definition export_alike (b1 b2 : Block.t) : Prop :=
  Block.title b1 = Block.title b2
  /\ Block.content b1 = Block.content b2
  /\ ((paragraph_type (Block.type b1) = true
       /\ paragraph_type (Block.type b2) = true)
      \/ (Block.type b1 = Block.type b2
          /\ Block.language b1 = Block.language b2
          /\ Block.referenceData b1 = Block.referenceData b2)).

(** The key ["cheatsheet_id"] of a result. *)
Definition result_cheatsheet_id (r : SearchResult) : string :=
  match r with
  | CheatsheetResult i _ _ => i
  | SectionResult i _ _ _ => i
  | BlockResult i _ _ _ _ _ => i
  end.

(** *** ASCII text *)

(** The strings on which the model of [str.lower], of the whitespace of
    [str.strip] and of the regex class [\w] is exact: every character is
    below 128. *)
Definition is_ascii (s : string) : bool :=
  string_forallb (fun c => (N_of_ascii c <? 128)%N) s.




(** *** The blocks that a text starts *)





(** * Properties *)

(** ** Strings *)

Lemma len_nonneg s : 0 <= Py.len s.
Proof. unfold Py.len; lia. Qed.

Lemma len_String c s : Py.len (String c s) = Py.len s + 1.
Proof. unfold Py.len; simpl String.length; lia. Qed.

Lemma lower_length s : String.length (Py.lower s) = String.length s.
Proof. induction s; simpl; congruence. Qed.

Lemma len_lower s : Py.len (Py.lower s) = Py.len s.
Proof. unfold Py.len; now rewrite lower_length. Qed.

Lemma append_nil_r s : s ++ "" = s.
Proof. induction s; simpl; congruence. Qed.

Lemma append_assoc s1 s2 s3 : (s1 ++ s2) ++ s3 = s1 ++ (s2 ++ s3).
Proof. induction s1; simpl; congruence. Qed.

Lemma length_append s1 s2 :
  String.length (s1 ++ s2) = (String.length s1 + String.length s2)%nat.
Proof. induction s1; simpl; congruence. Qed.

Lemma prefix_nil_l s : String.prefix "" s = true.
Proof. now destruct s. Qed.

Lemma startswith_app p s : Py.startswith (p ++ s) p = true.
Proof.
  unfold Py.startswith. induction p as [|c p IH]; simpl.
  - apply prefix_nil_l.
  - destruct (ascii_dec c c); [exact IH | congruence].
Qed.

Lemma prefix_nil_r q : String.prefix q "" = true -> q = "".
Proof. destruct q; simpl; congruence. Qed.

Lemma contains_empty_r q : q <> "" -> Py.contains q "" = false.
Proof. destruct q; simpl; congruence. Qed.

(** [find] returns [-1] exactly when the query does not occur. *)
Lemma find_from_absent q s i :
  Py.contains q s = false -> Py.find_from i s q = -1.
Proof.
  revert i; induction s as [|c s IH]; intros i; cbn [Py.contains Py.find_from].
  - destruct (String.prefix q ""); simpl; congruence.
  - destruct (String.prefix q (String c s)); simpl; [congruence | apply IH].
Qed.

Lemma find_from_present q s i :
  Py.contains q s = true -> i <= Py.find_from i s q <= i + Py.len s.
Proof.
  revert i; induction s as [|c s IH]; intros i H.
  - cbn [Py.contains Py.find_from] in *.
    destruct (String.prefix q ""); try discriminate.
    unfold Py.len; simpl; lia.
  - cbn [Py.contains Py.find_from] in *. rewrite len_String.
    pose proof (len_nonneg s).
    destruct (String.prefix q (String c s)).
    + lia.
    + simpl in H. specialize (IH (i + 1) H). lia.
Qed.

Lemma find_from_shift q s i :
  Py.contains q s = true -> Py.find_from i s q = i + Py.find s q.
Proof.
  unfold Py.find. revert i; induction s as [|c s IH]; intros i H.
  - cbn [Py.contains Py.find_from] in *.
    destruct (String.prefix q ""); try discriminate. lia.
  - cbn [Py.contains Py.find_from] in *.
    destruct (String.prefix q (String c s)).
    + lia.
    + simpl in H. rewrite (IH (i + 1) H), (IH (0 + 1) H). lia.
Qed.

(** The index returned by [find] is the first occurrence. *)
Lemma find_first_occurrence q s :
  Py.contains q s = true ->
  Py.startswith (Py.slice_from s (Z.to_nat (Py.find s q))) q = true
  /\ forall j, (j < Z.to_nat (Py.find s q))%nat ->
               Py.startswith (Py.slice_from s j) q = false.
Proof.
  unfold Py.find, Py.startswith. induction s as [|c s IH]; intros H.
  - cbn [Py.contains Py.find_from] in *.
    destruct (String.prefix q "") eqn:E; try discriminate.
    split; [exact E | intros j Hj; simpl in Hj; lia].
  - cbn [Py.contains Py.find_from] in *.
    destruct (String.prefix q (String c s)) eqn:E.
    + split; [exact E | intros j Hj; simpl in Hj; lia].
    + simpl in H. destruct (IH H) as [IH1 IH2].
      rewrite (find_from_shift q s (0 + 1) H).
      pose proof (find_from_present q s 0 H) as Hb. unfold Py.find in *.
      replace (Z.to_nat (0 + 1 + Py.find_from 0 s q))
        with (S (Z.to_nat (Py.find_from 0 s q))) by lia.
      split; [exact IH1|].
      intros [|j] Hj; [exact E|]. simpl. apply IH2. lia.
Qed.

(** ** Search *)

Lemma fold_search_block query cs sec bs results :
  fold_left (search_block query cs sec) bs results
  = (results
     ++ flat_map (fun b => if block_matches query b
                           then [BlockResult (Cheatsheet.id cs)
                                   (Cheatsheet.name cs) (Section.title sec)
                                   (Block.type b) (Block.title b)
                                   (snippet_of (Block.content b) query)]
                           else []) bs)%list.
Proof.
  revert results; induction bs as [|b bs IH]; intros results; simpl.
  - now rewrite app_nil_r.
  - rewrite IH. unfold search_block, list_append.
    destruct (block_matches query b); simpl.
    + now rewrite <- app_assoc.
    + reflexivity.
Qed.

Lemma block_matches_spec query b :
  query <> "" ->
  block_matches query b
  = (Py.contains query (Py.lower (Block.content b))
     || match Block.title b with
        | Some t => Py.contains query (Py.lower t)
        | None => false
        end).
Proof.
  intros Hq. unfold block_matches. f_equal.
  destruct (Block.title b) as [[|c t]|]; simpl Py.truthy; try reflexivity.
  simpl Py.lower. now rewrite contains_empty_r.
Qed.

Lemma fold_search_section query cs secs results :
  query <> "" ->
  fold_left (search_section query cs) secs results
  = (results ++ flat_map (spec_section_matches query cs) secs)%list.
Proof.
  intros Hq. revert results; induction secs as [|s secs IH]; intros results; simpl.
  - now rewrite app_nil_r.
  - rewrite IH. unfold search_section at 1. rewrite fold_search_block.
    unfold spec_section_matches at 2, list_append.
    rewrite (flat_map_ext _ (spec_block_matches query cs s)).
    + destruct (Py.contains query (Py.lower (Section.title s))); simpl;
        now rewrite <- ?app_assoc.
    + intros b. unfold spec_block_matches. now rewrite block_matches_spec.
Qed.

Lemma fold_search_cheatsheet query css results :
  query <> "" ->
  fold_left (search_cheatsheet query) css results
  = (results ++ flat_map (spec_cheatsheet_matches query) css)%list.
Proof.
  intros Hq. revert results; induction css as [|cs css IH]; intros results; simpl.
  - now rewrite app_nil_r.
  - rewrite IH. unfold search_cheatsheet at 1. rewrite fold_search_section by exact Hq.
    unfold spec_cheatsheet_matches at 2, list_append.
    destruct (Py.contains query (Py.lower (Cheatsheet.name cs))); simpl;
      now rewrite <- ?app_assoc.
Qed.

Lemma lower_nonempty q : 2 <= Py.len q -> Py.lower q <> "".
Proof. destruct q; unfold Py.len; simpl; [lia | congruence]. Qed.

Lemma search_guard_passes q :
  2 <= Py.len q -> negb (Py.truthy q) || (Py.len q <? 2) = false.
Proof.
  intros H. destruct q; [unfold Py.len in H; simpl in H; lia|].
  simpl. apply Z.ltb_ge. exact H.
Qed.

Lemma search_refines_spec css q :
  2 <= Py.len q -> search_cheatsheets css q = spec_search css q.
Proof.
  intros H. unfold search_cheatsheets, spec_search.
  rewrite search_guard_passes by exact H.
  now rewrite fold_search_cheatsheet by (apply lower_nonempty; exact H).
Qed.



Lemma block_result_origin css q r :
  2 <= Py.len q ->
  In r (search_cheatsheets css q) -> result_type r = block ->
  exists cs sec b,
    In cs css /\ In sec (Cheatsheet.sections cs) /\ In b (Section.blocks sec)
    /\ block_matches (Py.lower q) b = true
    /\ r = BlockResult (Cheatsheet.id cs) (Cheatsheet.name cs)
                       (Section.title sec) (Block.type b) (Block.title b)
                       (snippet_of (Block.content b) (Py.lower q)).
Proof.
  intros Hq Hin Hk. rewrite search_refines_spec in Hin by exact Hq.
  unfold spec_search in Hin. apply in_flat_map in Hin.
  destruct Hin as (cs & Hcs & Hin). unfold spec_cheatsheet_matches in Hin.
  apply in_app_or in Hin. destruct Hin as [Hin|Hin].
  { destruct (Py.contains _ _); simpl in Hin; [|contradiction].
    destruct Hin as [<-|[]]. discriminate. }
  apply in_flat_map in Hin. destruct Hin as (sec & Hsec & Hin).
  unfold spec_section_matches in Hin.
  apply in_app_or in Hin. destruct Hin as [Hin|Hin].
  { destruct (Py.contains _ _); simpl in Hin; [|contradiction].
    destruct Hin as [<-|[]]. discriminate. }
  apply in_flat_map in Hin. destruct Hin as (b & Hb & Hin).
  unfold spec_block_matches in Hin.
  rewrite <- block_matches_spec in Hin by (apply lower_nonempty; exact Hq).
  destruct (block_matches (Py.lower q) b) eqn:Hm; simpl in Hin; [|contradiction].
  destruct Hin as [<-|[]]. exists cs, sec, b. auto.
Qed.







(** Claim C8.  A query of length 0 or 1 yields the empty list of results,
    whatever the documents. *)
Theorem search_short_query
        (cheatsheets : list (Cheatsheet.t Block.t)) (q : string) :
  Py.len q < 2 -> search_cheatsheets cheatsheets q = [].
Proof.
  intros H. unfold search_cheatsheets.
  destruct q as [|c q]; [reflexivity|].
  simpl negb. simpl orb. apply Z.ltb_lt in H. now rewrite H.
Qed.

Lemma search_short_query_witness :
  search_cheatsheets [sample_doc "a" [sample_block (Some "a") "a"]] "a" = [].
Proof.
  apply (search_short_query [sample_doc "a" [sample_block (Some "a") "a"]] "a").
  vm_compute. reflexivity.
Defined.





(** ** The importer's loop *)

Lemma scan_unfold clk cheatsheet_id line st l code_lines :
  (fix scan (l : list string) (code_lines : list string) : result state :=
     match l with
     | [] => inr (on_fence cheatsheet_id line code_lines st)
     | l0 :: l' =>
         if Py.startswith l0 "```" then
           parse_lines clk cheatsheet_id l'
                       (on_fence cheatsheet_id line code_lines st)
         else scan l' (list_append code_lines l0)
     end) l code_lines
  = parse_lines clk cheatsheet_id (after_fence l)
                (on_fence cheatsheet_id line (code_lines ++ code_lines_of l) st).
Proof.
  revert code_lines. induction l as [|l0 l IH]; intros code_lines.
  - simpl. now rewrite app_nil_r.
  - cbn [after_fence code_lines_of]. destruct (Py.startswith l0 "```").
    + now rewrite app_nil_r.
    + rewrite IH. unfold list_append. now rewrite <- app_assoc.
Qed.

(** One iteration of the loop, by the kind of the line. *)
Lemma parse_lines_cons clk cheatsheet_id line rest st :
  parse_lines clk cheatsheet_id (line :: rest) st
  = match classify line with
    | H2 => parse_lines clk cheatsheet_id rest (on_h2 clk line st)
    | H3 => parse_lines clk cheatsheet_id rest (on_h3 cheatsheet_id line st)
    | Fence =>
        parse_lines clk cheatsheet_id (after_fence rest)
                    (on_fence cheatsheet_id line (code_lines_of rest) st)
    | Text =>
        match on_text clk cheatsheet_id line st with
        | inl e => inl e
        | inr st' => parse_lines clk cheatsheet_id rest st'
        end
    | Blank => parse_lines clk cheatsheet_id rest st
    end.
Proof.
  cbn [parse_lines]. unfold classify.
  destruct (Py.startswith line "## "); [reflexivity|].
  destruct (Py.startswith line "### "); [reflexivity|].
  destruct (Py.startswith line "```"); [|destruct (Py.truthy _); reflexivity].
  apply (scan_unfold clk cheatsheet_id line st rest []).
Qed.

Lemma after_fence_length l : (List.length (after_fence l) <= List.length l)%nat.
Proof.
  induction l as [|l0 l IH]; simpl; [lia|].
  destruct (Py.startswith l0 "```"); lia.
Qed.

Lemma after_fence_Forall (Q : string -> Prop) l :
  Forall Q l -> Forall Q (after_fence l).
Proof.
  induction 1 as [|l0 l H0 H IH]; simpl; [constructor|].
  destruct (Py.startswith l0 "```"); assumption.
Qed.

Lemma code_lines_of_Forall (Q : string -> Prop) l :
  Forall Q l -> Forall Q (code_lines_of l).
Proof.
  induction 1 as [|l0 l H0 H IH]; simpl; [constructor|].
  destruct (Py.startswith l0 "```"); [constructor|now constructor].
Qed.

Lemma code_lines_of_no_fence l :
  Forall (fun c => Py.startswith c "```" = false) (code_lines_of l).
Proof.
  induction l as [|l0 l IH]; simpl; [constructor|].
  destruct (Py.startswith l0 "```") eqn:E; [constructor|now constructor].
Qed.

(** An invariant of the four branches, on lines that satisfy [Q], is an
    invariant of the loop, and the loop then ends without raising. *)
Lemma parse_lines_invariant clk cheatsheet_id
      (Q : string -> Prop) (I : state -> Prop) :
  (forall line st, Q line -> classify line = H2 ->
                   I st -> I (on_h2 clk line st)) ->
  (forall line st, Q line -> classify line = H3 ->
                   I st -> I (on_h3 cheatsheet_id line st)) ->
  (forall line code st,
      Q line -> classify line = Fence -> Forall Q code ->
      Forall (fun c => Py.startswith c "```" = false) code ->
      I st -> I (on_fence cheatsheet_id line code st)) ->
  (forall line st, Q line -> classify line = Text -> I st ->
                   exists st', on_text clk cheatsheet_id line st = inr st'
                               /\ I st') ->
  forall lines st,
    Forall Q lines -> I st ->
    exists st', parse_lines clk cheatsheet_id lines st = inr st' /\ I st'.
Proof.
  intros Hh2 Hh3 Hfence Htext lines.
  remember (List.length lines) as n eqn:Hn.
  revert lines Hn. induction n as [n IH] using lt_wf_ind.
  intros [|line rest] Hn st HQ HI.
  - exists st. split; [reflexivity | exact HI].
  - inversion HQ as [|? ? Hline Hrest]; subst.
    rewrite parse_lines_cons. simpl List.length in IH.
    destruct (classify line) eqn:K.
    + apply (IH (List.length rest)); auto.
    + apply (IH (List.length rest)); auto.
    + apply (IH (List.length (after_fence rest))).
      * pose proof (after_fence_length rest). lia.
      * reflexivity.
      * now apply after_fence_Forall.
      * apply Hfence; auto using code_lines_of_Forall, code_lines_of_no_fence.
    + destruct (Htext line st Hline K HI) as (st' & -> & HI').
      apply (IH (List.length rest)); auto.
    + apply (IH (List.length rest)); auto.
Qed.

(** ** The importer does not raise *)

Lemma on_text_ok clk cheatsheet_id line st :
  dict_or_none st ->
  exists st', on_text clk cheatsheet_id line st = inr st' /\ dict_or_none st'.
Proof.
  unfold dict_or_none, on_text. intros H.
  destruct (current_section st), (current_block st) as [[d|b]|];
    cbn [current_block] in *; try contradiction; eexists; split;
    try reflexivity; exact I.
Qed.

Lemma parse_lines_ok clk cheatsheet_id lines st :
  dict_or_none st ->
  exists st', parse_lines clk cheatsheet_id lines st = inr st'
              /\ dict_or_none st'.
Proof.
  intros H.
  apply (parse_lines_invariant clk cheatsheet_id (fun _ => True) dict_or_none).
  - intros line s _ _ Hs. unfold dict_or_none, on_h2 in *.
    destruct (current_section s), (current_block s) as [[d|b]|] eqn:E;
      simpl; rewrite ?E; auto.
  - intros line s _ _ _. exact I.
  - intros line code s _ _ _ _ _. exact I.
  - intros line s _ _ Hs. now apply on_text_ok.
  - now apply Forall_forall.
  - exact H.
Qed.

(** Claim C6.  For every text and every name the importer returns a
    document (it does not raise), named as asked and with at least one
    section; for the empty text the document has exactly one section,
    titled "Imported Content", without blocks. *)
Theorem import_never_fails (clk : Clock) (markdown_content name : string) :
  (exists doc,
      parse_markdown_to_cheatsheet clk markdown_content name = inr doc
      /\ Cheatsheet.name doc = name
      /\ Cheatsheet.sections doc <> [])
  /\ parse_markdown_to_cheatsheet clk "" name
     = inr (Cheatsheet.mk (new_cheatsheet_id clk) name
              [Section.mk (section_id clk 1 0) "Imported Content" None None []]
              (isoformat clk 2) (isoformat clk 3)).
Proof.
  split; [|reflexivity].
  unfold parse_markdown_to_cheatsheet.
  destruct (parse_lines_ok clk (new_cheatsheet_id clk)
              (Py.split Py.nl markdown_content) initial_state I)
    as (st & -> & _).
  eexists. split; [reflexivity|]. split; [reflexivity|].
  cbn [Cheatsheet.sections]. unfold finish.
  destruct (match current_block st with
            | Some (PyDict d) =>
                match current_section st with
                | Some sec => Some (Section.append sec (PyModel (Block_of_dict d)))
                | None => current_section st
                end
            | Some (PyModel b) =>
                match current_section st with
                | Some sec => Some (Section.append sec (PyModel b))
                | None => current_section st
                end
            | None => current_section st
            end) as [sec|].
  - unfold list_append. destruct (sections st); simpl; discriminate.
  - destruct (sections st); simpl; discriminate.
Qed.

(** ** The example of the specification *)

Lemma import_api_auth clk :
  parse_markdown_to_cheatsheet clk md_api_auth "Notes"
  = inr (Cheatsheet.mk (new_cheatsheet_id clk) "Notes"
           [Section.mk (section_id clk 1 0) "API" None None
              [PyDict (BlockDict.mk (block_id (new_cheatsheet_id clk) 1)
                                    (Some "Auth") "" BlockType.text 0 0 6 2);
               PyModel (Block.mk (block_id (new_cheatsheet_id clk) 2)
                                 BlockType.code None "x = 1" 0 1 6 3
                                 (Some "python") None)]]
           (isoformat clk 2) (isoformat clk 3)).
Proof. reflexivity. Qed.

(** The claim C1 as the specification states it fails: the section "API"
    of the imported document does not consist of the code block alone. *)
Lemma import_api_auth_not_single_block :
  ~ exists clk doc sec b,
      parse_markdown_to_cheatsheet clk md_api_auth "Notes" = inr doc
      /\ Cheatsheet.sections doc = [sec]
      /\ Section.title sec = "API"
      /\ List.map as_block (Section.blocks sec) = [b]
      /\ Block.type b = BlockType.code
      /\ Block.content b = "x = 1"
      /\ Block.language b = Some "python".
Proof.
  intros (clk & doc & sec & b & H & Hs & _ & Hb & _).
  rewrite import_api_auth in H. injection H as <-.
  cbn [Cheatsheet.sections] in Hs. injection Hs as <-.
  cbn [Section.blocks List.map] in Hb. discriminate Hb.
Qed.

(** Claim C1, amended.  Importing ["## API\n### Auth\n```python\nx = 1\n```\n"]
    under the name "Notes" yields a document with exactly one section,
    titled "API", with exactly two blocks: first the text block titled
    "Auth" opened by the [###] header, with empty content (the fence
    appends it to the section), then the code block with content "x = 1"
    and language "python". *)
Theorem import_api_auth_two_blocks (clk : Clock) :
  exists doc sec,
    parse_markdown_to_cheatsheet clk md_api_auth "Notes" = inr doc
    /\ Cheatsheet.name doc = "Notes"
    /\ Cheatsheet.sections doc = [sec]
    /\ Section.title sec = "API"
    /\ List.map as_block (Section.blocks sec)
       = [Block.mk (block_id (Cheatsheet.id doc) 1) BlockType.text
                   (Some "Auth") "" 0 0 6 2 None None;
          Block.mk (block_id (Cheatsheet.id doc) 2) BlockType.code
                   None "x = 1" 0 1 6 3 (Some "python") None].
Proof.
  eexists. eexists. split; [apply import_api_auth|].
  repeat split; reflexivity.
Qed.

(** ** The language of a fenced block *)

Lemma span_word_tag tag rest :
  string_forallb Py.isword tag = true ->
  head_fails Py.isword rest = true ->
  Py.span Py.isword (tag ++ rest) = tag.
Proof.
  intros Ht Hr. induction tag as [|c tag IH]; simpl in *.
  - destruct rest as [|c rest]; [reflexivity|]. cbn [head_fails] in Hr.
    cbn [Py.span]. destruct (Py.isword c); [discriminate Hr | reflexivity].
  - apply andb_true_iff in Ht. destruct Ht as [Hc Ht].
    rewrite Hc. now rewrite IH.
Qed.

Lemma fence_language_tag tag rest :
  string_forallb Py.isword tag = true ->
  head_fails Py.isword rest = true ->
  fence_language ("```" ++ tag ++ rest) = if Py.truthy tag then tag else "text".
Proof.
  intros Ht Hr. unfold fence_language, re_match_fence.
  rewrite startswith_app.
  change (Py.slice_from ("```" ++ tag ++ rest) 3) with (tag ++ rest).
  rewrite span_word_tag by assumption.
  now destruct tag.
Qed.



(** ** The block counter *)

Lemma laid_out_nil cheatsheet_id lo hi : laid_out cheatsheet_id lo hi [].
Proof. split; constructor. Qed.

Lemma StronglySorted_app_l {A} (R : A -> A -> Prop) l1 l2 :
  StronglySorted R (l1 ++ l2) -> StronglySorted R l1.
Proof.
  induction l1 as [|a l1 IH]; simpl; intros H; [constructor|].
  inversion H as [|? ? Hs Hf]; subst. constructor; [auto|].
  apply Forall_app in Hf. tauto.
Qed.

Lemma StronglySorted_snoc {A} (R : A -> A -> Prop) l x :
  StronglySorted R l -> Forall (fun a => R a x) l ->
  StronglySorted R (l ++ [x]).
Proof.
  induction l as [|a l IH]; simpl; intros Hs Hf.
  - repeat constructor.
  - inversion Hs; inversion Hf; subst. constructor; [auto|].
    apply Forall_app. split; [assumption | now constructor].
Qed.

Lemma laid_out_app_l cheatsheet_id lo hi l1 l2 :
  laid_out cheatsheet_id lo hi (l1 ++ l2) -> laid_out cheatsheet_id lo hi l1.
Proof.
  intros [Hf Hs]. split.
  - apply Forall_app in Hf. tauto.
  - rewrite map_app in Hs. now apply StronglySorted_app_l in Hs.
Qed.

Lemma laid_out_weaken cheatsheet_id lo hi hi' l :
  hi <= hi' -> laid_out cheatsheet_id lo hi l -> laid_out cheatsheet_id lo hi' l.
Proof.
  intros Hle [Hf Hs]. split; [|exact Hs].
  eapply Forall_impl; [|exact Hf]. cbv beta. intros b [H1 H2]. split; [exact H1 | lia].
Qed.

Lemma laid_out_snoc cheatsheet_id lo hi l b :
  laid_out cheatsheet_id lo hi l -> imported_layout cheatsheet_id b ->
  Block.y b = hi -> lo <= hi ->
  laid_out cheatsheet_id lo (hi + 1) (l ++ [b]).
Proof.
  intros [Hf Hs] Hb Hy Hlo. split.
  - apply Forall_app. split.
    + eapply Forall_impl; [|exact Hf]. cbv beta. intros a [H1 H2].
      split; [exact H1 | lia].
    + constructor; [|constructor]. split; [exact Hb | lia].
  - rewrite map_app. apply StronglySorted_snoc; [exact Hs|].
    apply Forall_map. eapply Forall_impl; [|exact Hf]. cbv beta.
    intros a [_ H2]. lia.
Qed.

(** Replacing the last block by one with the same layout. *)
Lemma laid_out_replace_last cheatsheet_id lo hi l b b' :
  laid_out cheatsheet_id lo hi (l ++ [b]) ->
  (imported_layout cheatsheet_id b -> imported_layout cheatsheet_id b') ->
  Block.y b' = Block.y b ->
  laid_out cheatsheet_id lo hi (l ++ [b']).
Proof.
  intros [Hf Hs] Hb Hy. apply Forall_app in Hf. destruct Hf as [Hf Hl].
  inversion Hl as [|? ? [Hlay Hrange] _]; subst. specialize (Hb Hlay).
  rewrite map_app in Hs. split.
  - apply Forall_app. split; [exact Hf|].
    constructor; [|constructor]. split; [exact Hb | lia].
  - rewrite map_app. cbn [List.map]. rewrite Hy. exact Hs.
Qed.

Lemma all_blocks_app {B} (s1 s2 : list (Section.t B)) :
  all_blocks (s1 ++ s2) = (all_blocks s1 ++ all_blocks s2)%list.
Proof. apply flat_map_app. Qed.

Lemma tracked_on_h2 clk line st :
  tracked (on_h2 clk line st) = tracked st
  /\ block_counter (on_h2 clk line st) = block_counter st.
Proof.
  destruct st as [secs [sec|] [b|] bc tk];
    unfold on_h2, tracked, pending, list_append; simpl;
    rewrite ?all_blocks_app; unfold all_blocks; simpl;
    rewrite ?app_nil_r, <- ?app_assoc; split; reflexivity.
Qed.

Ltac norm_tracked :=
  unfold tracked_blocks, tracked, pending, all_blocks;
  cbn [sections current_section current_block block_counter ticks
       Section.blocks Section.append flat_map is_some];
  unfold list_append;
  rewrite ?flat_map_app, ?map_app, ?app_nil_r;
  cbn [List.map flat_map app as_block Section.blocks];
  rewrite ?app_nil_r.

Ltac solve_layout :=
  unfold imported_layout, Block_of_dict;
  cbn [Block.id Block.x Block.y Block.w Block.h Block.type
       BlockDict.id BlockDict.x BlockDict.y BlockDict.w BlockDict.h
       BlockDict.type];
  rewrite Z.sub_add; auto 6.

Lemma h2_effect clk cheatsheet_id line st :
  step_effect cheatsheet_id (is_some (current_section st))
              (tracked_blocks st) (block_counter st)
              (tracked_blocks (on_h2 clk line st))
              (block_counter (on_h2 clk line st)).
Proof.
  unfold tracked_blocks. destruct (tracked_on_h2 clk line st) as [-> ->].
  constructor.
Qed.

Lemma h3_effect cheatsheet_id line st :
  step_effect cheatsheet_id (is_some (current_section st))
              (tracked_blocks st) (block_counter st)
              (tracked_blocks (on_h3 cheatsheet_id line st))
              (block_counter (on_h3 cheatsheet_id line st)).
Proof.
  destruct st as [secs [sec|] [b|] bc tk]; unfold on_h3, append_current;
    norm_tracked.
  - rewrite !app_assoc.
    apply effect_start with (drop := []);
      [now rewrite app_nil_r | reflexivity | solve_layout | cbn; lia].
  - rewrite !app_assoc.
    apply effect_start with (drop := []);
      [now rewrite app_nil_r | reflexivity | solve_layout | cbn; lia].
  - apply effect_start with (drop := [as_block b]);
      [reflexivity | discriminate | solve_layout | cbn; lia].
  - apply effect_start with (drop := []);
      [now rewrite app_nil_r | reflexivity | solve_layout | cbn; lia].
Qed.

Lemma fence_effect cheatsheet_id line code st :
  step_effect cheatsheet_id (is_some (current_section st))
              (tracked_blocks st) (block_counter st)
              (tracked_blocks (on_fence cheatsheet_id line code st))
              (block_counter (on_fence cheatsheet_id line code st)).
Proof.
  destruct st as [secs [sec|] [b|] bc tk]; unfold on_fence, append_current;
    norm_tracked.
  - rewrite !app_assoc.
    apply effect_start with (drop := []);
      [now rewrite app_nil_r | reflexivity | solve_layout | cbn; lia].
  - rewrite !app_assoc.
    apply effect_start with (drop := []);
      [now rewrite app_nil_r | reflexivity | solve_layout | cbn; lia].
  - apply effect_discard with (drop := [as_block b]); reflexivity.
  - apply effect_discard with (drop := []); [now rewrite app_nil_r | reflexivity].
Qed.

Lemma text_effect clk cheatsheet_id line st :
  dict_or_none st ->
  exists st',
    on_text clk cheatsheet_id line st = inr st'
    /\ dict_or_none st'
    /\ is_some (current_section st') = true
    /\ step_effect cheatsheet_id (is_some (current_section st))
                   (tracked_blocks st) (block_counter st)
                   (tracked_blocks st') (block_counter st').
Proof.
  intros Hd. destruct st as [secs [sec|] [[d|b]|] bc tk];
    unfold dict_or_none in Hd; cbn in Hd; try contradiction;
    unfold on_text; cbn [current_section current_block];
    eexists; (split; [reflexivity|]); (split; [exact I|]);
    (split; [reflexivity|]); norm_tracked.
  - rewrite !app_assoc.
    apply effect_edit with (b := Block_of_dict d);
      [reflexivity | intros H; exact H | reflexivity].
  - rewrite !app_assoc.
    apply effect_start with (drop := []);
      [now rewrite app_nil_r | reflexivity | solve_layout | cbn; lia].
  - apply effect_edit with (b := Block_of_dict d);
      [reflexivity | intros H; exact H | reflexivity].
  - apply effect_start with (drop := []);
      [now rewrite app_nil_r | reflexivity | solve_layout | cbn; lia].
Qed.

Lemma laid_out_effect cheatsheet_id opened lo T bc T' bc' :
  step_effect cheatsheet_id opened T bc T' bc' ->
  lo <= bc -> laid_out cheatsheet_id lo bc T ->
  lo <= bc' /\ laid_out cheatsheet_id lo bc' T'.
Proof.
  intros E Hlo HT. destruct E as [|keep drop b -> _ Hb Hy|keep drop -> _|l b b' -> Hb Hy].
  - auto.
  - split; [lia|]. apply laid_out_app_l in HT. now apply laid_out_snoc.
  - split; [lia|]. apply laid_out_app_l in HT.
    eapply laid_out_weaken; [|exact HT]. lia.
  - split; [lia|]. eapply laid_out_replace_last; eauto.
Qed.

Lemma dict_or_none_h2 clk line st :
  dict_or_none st -> dict_or_none (on_h2 clk line st).
Proof.
  destruct st as [secs [sec|] [[d|b]|] bc tk]; unfold dict_or_none; cbn; auto.
Qed.

Lemma counters_inv_parse clk cheatsheet_id lo lines st :
  counters_inv cheatsheet_id lo st ->
  exists st', parse_lines clk cheatsheet_id lines st = inr st'
              /\ counters_inv cheatsheet_id lo st'.
Proof.
  intros H.
  apply (parse_lines_invariant clk cheatsheet_id (fun _ => True)
           (counters_inv cheatsheet_id lo)).
  - intros line s _ _ (Hd & Hlo & HT).
    destruct (laid_out_effect _ _ _ _ _ _ _ (h2_effect clk cheatsheet_id line s)
                Hlo HT).
    split; [now apply dict_or_none_h2 | auto].
  - intros line s _ _ (Hd & Hlo & HT).
    destruct (laid_out_effect _ _ _ _ _ _ _ (h3_effect cheatsheet_id line s)
                Hlo HT).
    split; [exact I | auto].
  - intros line code s _ _ _ _ (Hd & Hlo & HT).
    destruct (laid_out_effect _ _ _ _ _ _ _
                (fence_effect cheatsheet_id line code s) Hlo HT).
    split; [exact I | auto].
  - intros line s _ _ (Hd & Hlo & HT).
    destruct (text_effect clk cheatsheet_id line s Hd)
      as (s' & E & Hd' & _ & Heff).
    exists s'. split; [exact E|].
    destruct (laid_out_effect _ _ _ _ _ _ _ Heff Hlo HT).
    split; auto.
  - now apply Forall_forall.
  - exact H.
Qed.

(** The blocks of the final document are the tracked blocks, without the
    pending one when no section is current. *)
Lemma finish_blocks clk st :
  exists drop,
    tracked_blocks st
    = (List.map as_block (all_blocks (sections (finish clk st))) ++ drop)%list
    /\ (is_some (current_section st) = true -> drop = []).
Proof.
  destruct st as [secs [sec|] [[d|b]|] bc tk]; unfold finish;
    cbn [current_block current_section sections]; unfold list_append;
    [exists [] | exists [] | exists []
     | exists [Block_of_dict d] | exists [b] | exists []];
    destruct secs; unfold tracked_blocks, tracked, pending, all_blocks;
    simpl; rewrite ?flat_map_app, ?map_app; simpl;
    rewrite ?app_nil_r, <- ?app_assoc; simpl; unfold list_append;
    rewrite ?map_app; simpl; split; auto; intros; discriminate.
Qed.





















(** ** Fenced blocks before any section *)

Lemma fence_classify line :
  Py.startswith line "```" = true -> classify line = Fence.
Proof.
  unfold classify, Py.startswith. intros H. rewrite H.
  destruct line as [|c line]; [discriminate H|].
  cbn [String.prefix] in *.
  destruct (ascii_dec "`" c) as [<-|]; [reflexivity | discriminate H].
Qed.

Lemma after_fence_closed code closing rest :
  Forall (fun c => Py.startswith c "```" = false) code ->
  Py.startswith closing "```" = true ->
  after_fence (code ++ closing :: rest) = rest.
Proof.
  intros Hc Hcl. induction Hc as [|c code Hc0 _ IH]; cbn [app after_fence].
  - now rewrite Hcl.
  - now rewrite Hc0.
Qed.

Lemma sectionless_nonneg pre n : sectionless pre n -> 0 <= n.
Proof. induction 1; lia. Qed.

(** Lines that open no section leave the importer without section and
    without settled block; only the counter and the pending block move. *)
Lemma parse_sectionless clk cheatsheet_id pre n :
  sectionless pre n ->
  forall rest st,
    current_section st = None ->
    exists cb,
      parse_lines clk cheatsheet_id (pre ++ rest) st
      = parse_lines clk cheatsheet_id rest
                    (mkState (sections st) None cb (block_counter st + n)
                             (ticks st)).
Proof.
  induction 1 as [|l pre n K _ IH|l pre n K _ IH|l code closing pre n K Hc Hcl _ IH];
    intros rest st Hs.
  - exists (current_block st). destruct st as [secs cs cb bc tk].
    cbn in *. subst cs. now rewrite Z.add_0_r.
  - cbn [app]. rewrite parse_lines_cons, K. now apply IH.
  - cbn [app]. rewrite parse_lines_cons, K.
    destruct st as [secs cs cb bc tk]. cbn in Hs. subst cs.
    destruct (IH rest (on_h3 cheatsheet_id l (mkState secs None cb bc tk)))
      as (cb' & E).
    + now destruct cb.
    + exists cb'. rewrite E. f_equal.
      destruct cb; cbn; f_equal; lia.
  - cbn [app]. rewrite <- app_assoc. cbn [app].
    rewrite parse_lines_cons, K.
    rewrite (after_fence_closed code closing (pre ++ rest) Hc Hcl).
    destruct st as [secs cs cb bc tk]. cbn in Hs. subst cs.
    destruct (IH rest (on_fence cheatsheet_id l
                                (code_lines_of (code ++ closing :: pre ++ rest))
                                (mkState secs None cb bc tk)))
      as (cb' & E).
    + now destruct cb.
    + exists cb'. rewrite E. f_equal.
      destruct cb; cbn; f_equal; lia.
Qed.

(** Claim C9.  When a fence opens after lines that open no section (blank
    lines, [###] headers, complete fenced blocks; [n] blocks started), the
    importer resumes after the fenced block without section, without
    pending block and with nothing settled: the code block is in no
    section.  Only the counter records it, [n + 1], so that every block of
    the imported document has a row of at least [n + 1]: the row [n] of
    the discarded block is skipped. *)
Theorem sectionless_fence_discarded
        (clk : Clock) (markdown_content name : string)
        (pre : list string) (n : Z) (line : string) (lines : list string) :
  sectionless pre n ->
  Py.startswith line "```" = true ->
  Py.split Py.nl markdown_content = (pre ++ line :: lines)%list ->
  parse_lines clk (new_cheatsheet_id clk) (pre ++ line :: lines) initial_state
  = parse_lines clk (new_cheatsheet_id clk) (after_fence lines)
                (mkState [] None None (n + 1) 1)
  /\ exists doc,
       parse_markdown_to_cheatsheet clk markdown_content name = inr doc
       /\ Forall (fun b => n + 1 <= Block.y b) (document_blocks doc).
Proof.
  intros Hpre Hline Hsplit.
  set (csid := new_cheatsheet_id clk).
  assert (E : parse_lines clk csid (pre ++ line :: lines) initial_state
              = parse_lines clk csid (after_fence lines)
                            (mkState [] None None (n + 1) 1)).
  { destruct (parse_sectionless clk csid pre n Hpre (line :: lines)
                initial_state eq_refl) as (cb & ->).
    rewrite parse_lines_cons, (fence_classify line Hline).
    f_equal. destruct cb; reflexivity. }
  split; [exact E|].
  unfold parse_markdown_to_cheatsheet. fold csid. rewrite Hsplit, E.
  pose proof (sectionless_nonneg pre n Hpre) as Hn.
  assert (H0 : counters_inv csid (n + 1) (mkState [] None None (n + 1) 1)).
  { split; [exact I|]. split; [cbn; lia|]. apply laid_out_nil. }
  destruct (counters_inv_parse clk csid (n + 1) (after_fence lines) _ H0)
    as (st & -> & Hd & Hlo & HT).
  eexists. split; [reflexivity|].
  unfold document_blocks. cbn [Cheatsheet.sections].
  destruct (finish_blocks clk st) as (drop & Htr & _).
  rewrite Htr in HT. apply laid_out_app_l in HT. destruct HT as [Hf _].
  eapply Forall_impl; [|exact Hf]. cbv beta. intros b [_ H2]. lia.
Qed.

Lemma sectionless_fence_discarded_witness :
  exists doc,
    parse_markdown_to_cheatsheet sample_clock md_fence_first "Notes" = inr doc
    /\ Forall (fun b => 1 + 1 <= Block.y b) (document_blocks doc).
Proof.
  apply (sectionless_fence_discarded sample_clock md_fence_first "Notes"
           ["### A"] 1 "```" ["code"; "```"; "## S"; "text"]).
  - apply (sectionless_h3 "### A" [] 0); [reflexivity | constructor].
  - reflexivity.
  - reflexivity.
Defined.

(** ** Lines *)

Lemma split_nonempty sep s : Py.split sep s <> [].
Proof.
  destruct s as [|c s]; cbn [Py.split]; [discriminate|].
  destruct (Ascii.eqb c sep); [discriminate|].
  destruct (Py.split sep s); discriminate.
Qed.

Lemma split_app_nl a b :
  Py.split Py.nl (a ++ Py.NL ++ b)
  = (Py.split Py.nl a ++ Py.split Py.nl b)%list.
Proof.
  induction a as [|c a IH].
  - cbn [append Py.NL Py.split]. rewrite Ascii.eqb_refl. reflexivity.
  - cbn [append Py.split]. rewrite IH.
    destruct (Ascii.eqb c Py.nl); [reflexivity|].
    pose proof (split_nonempty Py.nl a).
    destruct (Py.split Py.nl a); [congruence | reflexivity].
Qed.

Lemma split_snoc_nl a :
  Py.split Py.nl (a ++ Py.NL) = (Py.split Py.nl a ++ [""])%list.
Proof.
  rewrite <- (append_nil_r (a ++ Py.NL)), append_assoc.
  apply split_app_nl.
Qed.

Lemma split_cons_nl b :
  Py.split Py.nl (Py.NL ++ b) = "" :: Py.split Py.nl b.
Proof. apply (split_app_nl "" b). Qed.

Lemma split_no_nl s : no_nl s = true -> Py.split Py.nl s = [s].
Proof.
  unfold no_nl. induction s as [|c s IH]; cbn [string_forallb Py.split];
    [reflexivity|].
  intros H. apply andb_true_iff in H. destruct H as [Hc Hs].
  apply negb_true_iff in Hc. rewrite Hc, (IH Hs). reflexivity.
Qed.

Lemma split_lines_no_nl s : Forall (fun l => no_nl l = true) (Py.split Py.nl s).
Proof.
  induction s as [|c s IH]; cbn [Py.split]; [repeat constructor|].
  destruct (Ascii.eqb c Py.nl) eqn:E; [constructor; [reflexivity | exact IH]|].
  destruct (Py.split Py.nl s) as [|l ls].
  - constructor; [|constructor]. unfold no_nl. cbn [string_forallb].
    now rewrite E.
  - inversion IH; subst. constructor; [|assumption].
    unfold no_nl in *. cbn [string_forallb]. now rewrite E.
Qed.

Lemma join_cons sep x y l :
  Py.join sep (x :: y :: l) = x ++ sep ++ Py.join sep (y :: l).
Proof. reflexivity. Qed.

Lemma join_split s : Py.join Py.NL (Py.split Py.nl s) = s.
Proof.
  induction s as [|c s IH]; [reflexivity|]. cbn [Py.split].
  destruct (Ascii.eqb c Py.nl) eqn:E.
  - apply Ascii.eqb_eq in E. subst c.
    pose proof (split_nonempty Py.nl s).
    destruct (Py.split Py.nl s) as [|l ls]; [congruence|].
    rewrite join_cons, IH. reflexivity.
  - destruct (Py.split Py.nl s) as [|l ls].
    + cbn in IH. now subst s.
    + destruct ls as [|l' ls]; [cbn in *; now subst s|].
      rewrite join_cons in *. cbn [append]. now rewrite IH.
Qed.

Lemma split_join es :
  es <> [] ->
  Py.split Py.nl (Py.join Py.NL es) = flat_map (Py.split Py.nl) es.
Proof.
  induction es as [|e es IH]; [congruence|]. intros _.
  destruct es as [|e' es].
  - cbn. now rewrite app_nil_r.
  - rewrite join_cons, split_app_nl, IH by discriminate. reflexivity.
Qed.

Lemma no_nl_app a b : no_nl (a ++ b) = no_nl a && no_nl b.
Proof.
  unfold no_nl. induction a as [|c a IH]; cbn [append string_forallb];
    [reflexivity|]. now rewrite IH, andb_assoc.
Qed.

Lemma no_nl_slice_from s n : no_nl s = true -> no_nl (Py.slice_from s n) = true.
Proof.
  revert s. induction n as [|n IH]; intros s H; [exact H|].
  destruct s as [|c s]; [reflexivity|]. cbn [Py.slice_from].
  apply IH. unfold no_nl in *. cbn in H. apply andb_true_iff in H. tauto.
Qed.

Lemma no_nl_lstrip s : no_nl s = true -> no_nl (Py.lstrip s) = true.
Proof.
  induction s as [|c s IH]; intros H; [reflexivity|]. cbn [Py.lstrip].
  destruct (Py.isspace c); [|exact H].
  apply IH. unfold no_nl in *. cbn in H. apply andb_true_iff in H. tauto.
Qed.

Lemma no_nl_rstrip s : no_nl s = true -> no_nl (Py.rstrip s) = true.
Proof.
  unfold no_nl. induction s as [|c s IH]; intros H; [reflexivity|].
  cbn [string_forallb] in H. apply andb_true_iff in H. destruct H as [Hc Hs].
  specialize (IH Hs). cbn [Py.rstrip].
  destruct (Py.rstrip s) as [|c' r].
  - destruct (Py.isspace c); [reflexivity|]. cbn [string_forallb].
    now rewrite Hc.
  - cbn [string_forallb] in *. now rewrite Hc.
Qed.

Lemma no_nl_strip s : no_nl s = true -> no_nl (Py.strip s) = true.
Proof. intros H. now apply no_nl_rstrip, no_nl_lstrip. Qed.

(** [strip] is idempotent. *)
Lemma rstrip_idem s : Py.rstrip (Py.rstrip s) = Py.rstrip s.
Proof.
  induction s as [|c s IH]; [reflexivity|]. cbn [Py.rstrip].
  destruct (Py.rstrip s) as [|c' r] eqn:E.
  - destruct (Py.isspace c) eqn:Ec; [reflexivity|].
    cbn [Py.rstrip]. now rewrite Ec.
  - cbn [Py.rstrip]. cbn [Py.rstrip] in IH.
    destruct (match Py.rstrip r with
              | "" => if Py.isspace c' then "" else String c' ""
              | String a s0 => String c' (String a s0)
              end) eqn:E2; [discriminate IH|]. now rewrite IH.
Qed.

Lemma lstrip_fixed_rstrip s : Py.lstrip s = s -> Py.lstrip (Py.rstrip s) = Py.rstrip s.
Proof.
  destruct s as [|c s]; [reflexivity|]. cbn [Py.lstrip Py.rstrip].
  destruct (Py.isspace c) eqn:Ec.
  - intros H. exfalso.
    assert (L : forall t, (String.length (Py.lstrip t) <= String.length t)%nat).
    { induction t as [|a t IHt]; cbn; [lia|]. destruct (Py.isspace a); cbn; lia. }
    specialize (L s). rewrite H in L. cbn in L. lia.
  - intros _. destruct (Py.rstrip s); cbn [Py.lstrip]; now rewrite Ec.
Qed.

Lemma lstrip_idem s : Py.lstrip (Py.lstrip s) = Py.lstrip s.
Proof.
  induction s as [|c s IH]; [reflexivity|]. cbn [Py.lstrip].
  destruct (Py.isspace c) eqn:Ec; [exact IH|]. cbn [Py.lstrip]. now rewrite Ec.
Qed.

Lemma strip_idem s : Py.strip (Py.strip s) = Py.strip s.
Proof.
  unfold Py.strip.
  rewrite (lstrip_fixed_rstrip (Py.lstrip s) (lstrip_idem s)).
  apply rstrip_idem.
Qed.

(** ** The documents that the importer produces *)

Lemma chain_snoc p l b :
  chain p (l ++ [b])
  = match chain p l with
    | None => None
    | Some q => follows q b
    end.
Proof.
  revert p. induction l as [|a l IH]; intros p; cbn [app chain].
  - now destruct (follows p b).
  - destruct (follows p a); [apply IH | reflexivity].
Qed.

Lemma canon_title_strip s :
  no_nl s = true -> canon_title (Py.strip s).
Proof. intros H. split; [apply strip_idem | now apply no_nl_strip]. Qed.

Lemma fence_language_word line :
  Py.truthy (fence_language line) = true
  /\ string_forallb Py.isword (fence_language line) = true.
Proof.
  unfold fence_language, re_match_fence.
  destruct (Py.startswith line "```"); [|split; reflexivity].
  assert (W : forall s, string_forallb Py.isword (Py.span Py.isword s) = true).
  { induction s as [|c s IH]; [reflexivity|]. cbn [Py.span].
    destruct (Py.isword c) eqn:E; [|reflexivity].
    cbn [string_forallb]. now rewrite E, IH. }
  specialize (W (Py.slice_from line 3)).
  destruct (Py.span Py.isword (Py.slice_from line 3)); [split; reflexivity|].
  cbn [Py.truthy]. split; [reflexivity | exact W].
Qed.

Lemma split_join_lines ls :
  Forall (fun l => no_nl l = true) ls -> ls <> [] ->
  Py.split Py.nl (Py.join Py.NL ls) = ls.
Proof.
  intros H Hne. rewrite split_join by exact Hne.
  clear Hne. induction H as [|l ls Hl _ IH]; [reflexivity|].
  cbn [flat_map]. rewrite (split_no_nl l Hl), IH. reflexivity.
Qed.

Lemma code_content_no_fence code :
  Forall (fun l => no_nl l = true) code ->
  Forall (fun c => Py.startswith c "```" = false) code ->
  Forall (fun l => Py.startswith l "```" = false)
         (Py.split Py.nl (Py.join Py.NL code)).
Proof.
  intros Hn Hf. destruct code as [|c code].
  - repeat constructor.
  - now rewrite split_join_lines by (assumption || discriminate).
Qed.

Ltac open_state st :=
  destruct st as [secs [sec|] [[d|b]|] bc tk];
  unfold canon_state, open_items, pending, dict_or_none in *;
  cbn [sections current_section current_block block_counter ticks is_some] in *.

Lemma Forall_map_list_append {A B} (P : B -> Prop) (f : A -> B) l x :
  Forall P (List.map f l) -> P (f x) -> Forall P (List.map f (list_append l x)).
Proof.
  intros H Hx. unfold list_append. rewrite map_app. apply Forall_app.
  split; [exact H | now constructor].
Qed.

Lemma canon_section_closed (sec : Section.t PyBlock) p :
  canon_title (Section.title sec) ->
  Forall canon_block (List.map as_block (Section.blocks sec)) ->
  chain false (List.map as_block (Section.blocks sec)) = Some p ->
  canon_section (Section.map as_block sec).
Proof.
  intros Ht Hb Hc. split; [exact Ht|]. split; [exact Hb|].
  cbn [Section.map Section.blocks]. rewrite Hc. discriminate.
Qed.

(** A titled canonical block is a text block. *)
Lemma follows_titled p b :
  canon_block b -> Block.title b <> None -> follows p b = Some true.
Proof.
  unfold canon_block, follows. intros Hc Ht.
  destruct (Block.type b), (Block.title b); try contradiction; congruence.
Qed.

Lemma canon_h2 clk line st :
  no_nl line = true -> canon_state st -> canon_state (on_h2 clk line st).
Proof.
  intros Hl. pose proof (canon_title_strip _ (no_nl_slice_from line 3 Hl)) as Ht.
  open_state st; intros (Hd & Hs & Ho & Hc); try contradiction; unfold on_h2;
    cbn [sections current_section current_block block_counter ticks is_some
         app List.map Section.blocks Section.title as_block] in *;
    rewrite ?app_nil_r in *;
    (split; [exact I|]).
  - destruct Hc as [Hc1 Hc2]. split; [|repeat split; solve [constructor | apply Ht]].
    apply Forall_map_list_append; [exact Hs|].
    apply (canon_section_closed _ true); [exact Hc1 | |];
      cbn [Section.append Section.blocks]; unfold list_append; assumption.
  - destruct Hc as [Hc1 Hc2]. split; [|repeat split; solve [constructor | apply Ht]].
    apply Forall_map_list_append; [exact Hs|].
    apply (canon_section_closed _ false); assumption.
  - split; [exact Hs|]. split; [exact Ho|]. split; [exact Ht|].
    cbn [chain]. inversion Ho as [|? ? Hb _]; subst.
    rewrite (follows_titled false _ Hb (Hc _ eq_refl)). reflexivity.
  - repeat split; solve [assumption | constructor | apply Ht].
Qed.

Ltac simpl_state :=
  cbn [sections current_section current_block block_counter ticks is_some
       app List.map Section.blocks Section.title Section.append as_block] in *;
  unfold list_append in *;
  rewrite ?app_nil_r in *.

Lemma canon_new_titled cheatsheet_id line c :
  no_nl line = true ->
  canon_block
    (Block_of_dict
       (BlockDict.mk (block_id cheatsheet_id c)
                     (Some (Py.strip (Py.slice_from line 4))) ""
                     BlockType.text 0 (c - 1) 6 2)).
Proof.
  intros Hl. destruct (canon_title_strip _ (no_nl_slice_from line 4 Hl)).
  unfold canon_block, Block_of_dict.
  cbn [Block.type Block.title Block.language Block.content
       BlockDict.type BlockDict.title BlockDict.content].
  repeat split; try assumption.
  exists []. split; [reflexivity | constructor].
Qed.

Lemma canon_new_untitled cheatsheet_id line c :
  no_nl line = true -> classify line = Text ->
  canon_block
    (Block_of_dict
       (BlockDict.mk (block_id cheatsheet_id c) None line
                     BlockType.text 0 (c - 1) 6 2)).
Proof.
  intros Hl Hk. unfold canon_block, Block_of_dict.
  cbn [Block.type Block.title Block.language Block.content
       BlockDict.type BlockDict.title BlockDict.content].
  split; [reflexivity|].
  rewrite (split_no_nl line Hl). now constructor.
Qed.

Lemma canon_new_code cheatsheet_id line code c :
  Forall (fun l => no_nl l = true) code ->
  Forall (fun l => Py.startswith l "```" = false) code ->
  canon_block
    (Block.mk (block_id cheatsheet_id c) BlockType.code None
              (Py.join Py.NL code) 0 (c - 1) 6 3
              (Some (fence_language line)) None).
Proof.
  intros Hn Hf. unfold canon_block.
  cbn [Block.type Block.title Block.language Block.content].
  exists (fence_language line). destruct (fence_language_word line).
  repeat split; try assumption. now apply code_content_no_fence.
Qed.

Lemma canon_add_line d line :
  no_nl line = true -> classify line = Text ->
  canon_block (Block_of_dict d) ->
  canon_block (Block_of_dict (BlockDict.add_content d (Py.NL ++ line))).
Proof.
  intros Hl Hk. unfold canon_block, Block_of_dict, BlockDict.add_content.
  cbn [Block.type Block.title Block.language Block.content
       BlockDict.type BlockDict.title BlockDict.content].
  rewrite split_app_nl, (split_no_nl line Hl).
  destruct (BlockDict.type d), (BlockDict.title d); try exact (fun H => H).
  - intros (H1 & H2 & H3 & ls & H4 & H5). repeat split; try assumption.
    exists (ls ++ [line])%list. rewrite H4. split; [reflexivity|].
    apply Forall_app. split; [exact H5 | now constructor].
  - intros (H1 & H2). split; [exact H1|].
    apply Forall_app. split; [exact H2 | now constructor].
  - intros (lang & H & _). discriminate H.
Qed.

Lemma open_snoc (l : list PyBlock) x p q :
  Forall canon_block (List.map as_block l) -> canon_block (as_block x) ->
  chain false (List.map as_block l) = Some p ->
  follows p (as_block x) = Some q ->
  Forall canon_block (List.map as_block (l ++ [x]))
  /\ chain false (List.map as_block (l ++ [x])) = Some q.
Proof.
  intros Hl Hx Hc Hf. rewrite map_app. cbn [List.map]. split.
  - apply Forall_app. split; [exact Hl | now constructor].
  - now rewrite chain_snoc, Hc.
Qed.

Lemma canon_h3 cheatsheet_id line st :
  no_nl line = true -> canon_state st ->
  canon_state (on_h3 cheatsheet_id line st).
Proof.
  intros Hl.
  pose proof (canon_new_titled cheatsheet_id line) as Hnew.
  open_state st; intros (Hd & Hs & Ho & Hc); try contradiction;
    unfold on_h3, append_current; simpl_state; (split; [exact I|]);
    (split; [exact Hs|]).
  - destruct Hc as [Hc1 Hc2].
    destruct (open_snoc _ (PyDict (BlockDict.mk (block_id cheatsheet_id (bc + 1))
                (Some (Py.strip (Py.slice_from line 4))) "" BlockType.text
                0 (bc + 1 - 1) 6 2)) _ true Ho (Hnew _ Hl) Hc2 eq_refl).
    auto.
  - destruct Hc as [Hc1 Hc2].
    destruct (open_snoc _ (PyDict (BlockDict.mk (block_id cheatsheet_id (bc + 1))
                (Some (Py.strip (Py.slice_from line 4))) "" BlockType.text
                0 (bc + 1 - 1) 6 2)) _ true Ho (Hnew _ Hl) Hc2 eq_refl).
    auto.
  - split; [constructor; [apply (Hnew _ Hl) | constructor]|].
    intros b0 E. injection E as <-. discriminate.
  - split; [constructor; [apply (Hnew _ Hl) | constructor]|].
    intros b0 E. injection E as <-. discriminate.
Qed.

Lemma canon_fence cheatsheet_id line code st :
  Forall (fun l => no_nl l = true) code ->
  Forall (fun c => Py.startswith c "```" = false) code ->
  canon_state st -> canon_state (on_fence cheatsheet_id line code st).
Proof.
  intros Hn Hf.
  pose proof (fun c => canon_new_code cheatsheet_id line code c Hn Hf) as Hnew.
  open_state st; intros (Hd & Hs & Ho & Hc); try contradiction;
    unfold on_fence, append_current; simpl_state; (split; [exact I|]);
    (split; [exact Hs|]).
  - destruct Hc as [Hc1 Hc2].
    destruct (open_snoc _ (PyModel (Block.mk (block_id cheatsheet_id (bc + 1))
                BlockType.code None (Py.join Py.NL code) 0 (bc + 1 - 1) 6 3
                (Some (fence_language line)) None)) _ false Ho (Hnew _) Hc2 eq_refl).
    auto.
  - destruct Hc as [Hc1 Hc2].
    destruct (open_snoc _ (PyModel (Block.mk (block_id cheatsheet_id (bc + 1))
                BlockType.code None (Py.join Py.NL code) 0 (bc + 1 - 1) 6 3
                (Some (fence_language line)) None)) _ false Ho (Hnew _) Hc2 eq_refl).
    auto.
  - split; [constructor | intros b0 E; discriminate E].
  - split; [constructor | intros b0 E; discriminate E].
Qed.

Lemma canon_title_default : canon_title "Imported Content".
Proof. split; reflexivity. Qed.

Lemma follows_add_content p d s :
  follows p (Block_of_dict (BlockDict.add_content d s))
  = follows p (Block_of_dict d).
Proof. reflexivity. Qed.

Lemma open_replace_last (l : list PyBlock) d d' q :
  Forall canon_block (List.map as_block (l ++ [PyDict d])) ->
  chain false (List.map as_block (l ++ [PyDict d])) = Some q ->
  canon_block (Block_of_dict d') ->
  (forall p, follows p (Block_of_dict d') = follows p (Block_of_dict d)) ->
  Forall canon_block (List.map as_block (l ++ [PyDict d']))
  /\ chain false (List.map as_block (l ++ [PyDict d'])) = Some q.
Proof.
  rewrite !map_app. cbn [List.map as_block]. intros Hf Hc Hd Hfol.
  apply Forall_app in Hf. destruct Hf as [Hf _]. split.
  - apply Forall_app. split; [exact Hf | now constructor].
  - rewrite chain_snoc in *.
    destruct (chain false (List.map as_block l)); [|discriminate Hc].
    now rewrite Hfol.
Qed.

Lemma canon_text clk cheatsheet_id line st :
  no_nl line = true -> classify line = Text -> canon_state st ->
  exists st', on_text clk cheatsheet_id line st = inr st' /\ canon_state st'.
Proof.
  intros Hl Hk.
  pose proof (fun c => canon_new_untitled cheatsheet_id line c Hl Hk) as Hnew.
  open_state st; intros (Hd & Hs & Ho & Hc); try contradiction;
    unfold on_text; simpl_state; eexists; (split; [reflexivity|]);
    unfold canon_state, open_items, pending, dict_or_none; simpl_state;
    (split; [exact I|]); (split; [exact Hs|]).
  - destruct Hc as [Hc1 Hc2].
    assert (Hcd : canon_block (Block_of_dict d)).
    { rewrite map_app in Ho. apply Forall_app in Ho. destruct Ho as [_ Ho].
      now inversion Ho. }
    destruct (open_replace_last _ d (BlockDict.add_content d (Py.NL ++ line))
                true Ho Hc2 (canon_add_line d line Hl Hk Hcd)
                (fun p => follows_add_content p d _)).
    auto.
  - destruct Hc as [Hc1 Hc2].
    destruct (open_snoc _ (PyDict (BlockDict.mk (block_id cheatsheet_id (bc + 1))
                None line BlockType.text 0 (bc + 1 - 1) 6 2)) _ true Ho
                (Hnew _) Hc2 eq_refl).
    auto.
  - inversion Ho as [|? ? Hcd _]; subst.
    pose proof (canon_add_line d line Hl Hk Hcd) as Hcd'.
    split; [constructor; [exact Hcd' | constructor]|].
    split; [exact canon_title_default|].
    cbn [chain]. rewrite follows_add_content.
    now rewrite (follows_titled false _ Hcd (Hc _ eq_refl)).
  - split; [constructor; [apply Hnew | constructor]|].
    split; [exact canon_title_default | reflexivity].
Qed.

Lemma canon_parse clk cheatsheet_id lines st :
  Forall (fun l => no_nl l = true) lines -> canon_state st ->
  exists st', parse_lines clk cheatsheet_id lines st = inr st'
              /\ canon_state st'.
Proof.
  intros Hl H.
  apply (parse_lines_invariant clk cheatsheet_id (fun l => no_nl l = true)
           canon_state).
  - intros line s Hn _. now apply canon_h2.
  - intros line s Hn _. now apply canon_h3.
  - intros line code s Hn _ Hc Hf. now apply canon_fence.
  - intros line s Hn Hk. now apply canon_text.
  - exact Hl.
  - exact H.
Qed.

Lemma finish_flushed clk st :
  List.map (Section.map as_block) (sections (finish clk st))
  = match flushed st with
    | [] => [Section.mk (section_id clk (ticks st) 0) "Imported Content"
                        None None []]
    | l => l
    end.
Proof.
  destruct st as [secs [[i t c z bl]|] [[d|b]|] bc tk];
    unfold finish, flushed, open_items, pending;
    cbn [sections current_section current_block ticks];
    unfold Section.append, list_append, Section.map;
    cbn [Section.id Section.title Section.titleColor Section.titleSize
         Section.blocks];
    destruct secs; cbn [app List.map sections];
    rewrite ?map_app; cbn [List.map as_block app
         Section.id Section.title Section.titleColor Section.titleSize
         Section.blocks]; rewrite ?map_app, ?app_nil_r; reflexivity.
Qed.

Lemma canon_finish clk st :
  canon_state st ->
  Forall canon_section
         (List.map (Section.map as_block) (sections (finish clk st))).
Proof.
  intros (Hd & Hs & Ho & Hc). rewrite finish_flushed.
  assert (H : Forall canon_section (flushed st)).
  { unfold flushed. apply Forall_app. split; [exact Hs|].
    destruct (current_section st) as [sec|]; [|constructor].
    destruct Hc as [Hc1 Hc2]. constructor; [|constructor].
    split; [exact Hc1|]. split; [exact Ho|].
    cbn [Section.blocks]. rewrite Hc2. discriminate. }
  destruct (flushed st); [|exact H].
  constructor; [|constructor]. split; [exact canon_title_default|].
  split; [constructor | discriminate].
Qed.

(** ** The exporter *)

Lemma fold_left_list_append {A B} (f : B -> A) rows (acc : list A) :
  fold_left (fun acc row => list_append acc (f row)) rows acc
  = (acc ++ List.map f rows)%list.
Proof.
  revert acc. induction rows as [|r rows IH]; intros acc; cbn [fold_left List.map].
  - now rewrite app_nil_r.
  - rewrite IH. unfold list_append. now rewrite <- app_assoc.
Qed.

Lemma export_block_app md_lines b :
  export_block md_lines b = (md_lines ++ export_block [] b)%list.
Proof.
  unfold export_block.
  set (t1 := match Block.title b with
             | Some t => if Py.truthy t
                         then list_append md_lines (Py.NL ++ "### " ++ t ++ Py.NL)
                         else md_lines
             | None => md_lines end).
  set (t0 := match Block.title b with
             | Some t => if Py.truthy t
                         then list_append [] (Py.NL ++ "### " ++ t ++ Py.NL)
                         else []
             | None => [] end).
  assert (E : t1 = (md_lines ++ t0)%list).
  { unfold t1, t0. destruct (Block.title b) as [t|]; [|now rewrite app_nil_r].
    destruct (Py.truthy t); [reflexivity | now rewrite app_nil_r]. }
  rewrite E. unfold list_append.
  destruct (Block.type b); rewrite <- ?app_assoc; try reflexivity.
  destruct (Block.referenceData b) as [[|r rows]|]; try reflexivity.
  rewrite !(fold_left_list_append
              (fun row => "| " ++ ReferenceCardRow.description row ++ " | `"
                          ++ ReferenceCardRow.code row ++ "` |" ++ Py.NL)).
  now rewrite <- !app_assoc.
Qed.

Lemma fold_export_block bs md_lines :
  fold_left export_block bs md_lines
  = (md_lines ++ flat_map (export_block []) bs)%list.
Proof.
  revert md_lines. induction bs as [|b bs IH]; intros md_lines; cbn [fold_left flat_map].
  - now rewrite app_nil_r.
  - rewrite IH, export_block_app. now rewrite <- app_assoc.
Qed.

Lemma export_section_app md_lines s :
  export_section md_lines s = (md_lines ++ export_section [] s)%list.
Proof.
  unfold export_section. rewrite !fold_export_block. unfold list_append.
  now rewrite <- !app_assoc.
Qed.

Lemma fold_export_section secs md_lines :
  fold_left export_section secs md_lines
  = (md_lines ++ flat_map (export_section []) secs)%list.
Proof.
  revert md_lines. induction secs as [|s secs IH]; intros md_lines;
    cbn [fold_left flat_map].
  - now rewrite app_nil_r.
  - rewrite IH, export_section_app. now rewrite <- app_assoc.
Qed.

Lemma export_section_nonempty s : export_section [] s <> [].
Proof.
  unfold export_section. rewrite fold_export_block. unfold list_append.
  cbn [app]. discriminate.
Qed.

(** The export is its first line, an empty line and the body. *)
Lemma export_markdown_body cs :
  Cheatsheet.sections cs <> [] ->
  export_markdown cs
  = "# " ++ Cheatsheet.name cs ++ Py.NL ++ Py.NL ++ export_body cs.
Proof.
  intros Hne. unfold export_markdown, export_body.
  rewrite !fold_export_section. cbn [app].
  destruct (Cheatsheet.sections cs) as [|s secs]; [congruence|].
  cbn [flat_map]. pose proof (export_section_nonempty s).
  destruct (export_section [] s) as [|e es]; [congruence|].
  cbn [app]. rewrite join_cons.
  change ("# " ++ Cheatsheet.name cs ++ Py.NL)
    with (String "#" (String " " (Cheatsheet.name cs ++ Py.NL))).
  cbn [append]. rewrite !append_assoc. reflexivity.
Qed.

Lemma flat_map_flat_map {A B C} (f : A -> list B) (g : B -> list C) l :
  flat_map g (flat_map f l) = flat_map (fun a => flat_map g (f a)) l.
Proof.
  induction l as [|a l IH]; [reflexivity|]. cbn [flat_map].
  now rewrite flat_map_app, IH.
Qed.

Lemma export_body_lines cs :
  Cheatsheet.sections cs <> [] ->
  Py.split Py.nl (export_body cs)
  = flat_map section_lines (Cheatsheet.sections cs).
Proof.
  intros Hne. unfold export_body. rewrite fold_export_section. cbn [app].
  rewrite split_join.
  - apply flat_map_flat_map.
  - destruct (Cheatsheet.sections cs) as [|s secs]; [congruence|].
    cbn [flat_map]. pose proof (export_section_nonempty s).
    destruct (export_section [] s); [congruence | discriminate].
Qed.

Lemma section_lines_eq s :
  no_nl (Section.title s) = true ->
  section_lines s
  = "" :: ("## " ++ Section.title s) :: ""
       :: flat_map block_lines (Section.blocks s).
Proof.
  intros Ht. unfold section_lines, export_section.
  rewrite fold_export_block. unfold list_append. cbn [app flat_map].
  rewrite flat_map_flat_map.
  rewrite <- (append_assoc "## " (Section.title s) Py.NL).
  rewrite split_cons_nl, split_snoc_nl, split_no_nl; [reflexivity|].
  rewrite no_nl_app. now rewrite Ht.
Qed.

Lemma word_no_nl s : string_forallb Py.isword s = true -> no_nl s = true.
Proof.
  unfold no_nl. induction s as [|c s IH]; cbn [string_forallb]; [reflexivity|].
  intros H. apply andb_true_iff in H. destruct H as [Hc Hs].
  rewrite (IH Hs), andb_true_r. apply negb_true_iff.
  destruct (Ascii.eqb c Py.nl) eqn:E; [|reflexivity].
  apply Ascii.eqb_eq in E. subst c. discriminate Hc.
Qed.

Lemma block_lines_untitled b :
  Block.type b = BlockType.text -> Block.title b = None ->
  block_lines b = "" :: (Py.split Py.nl (Block.content b) ++ [""])%list.
Proof.
  intros Hty Hti. unfold block_lines, export_block. rewrite Hty, Hti.
  unfold list_append. cbn [app flat_map]. rewrite app_nil_r.
  now rewrite split_cons_nl, split_snoc_nl.
Qed.

Lemma block_lines_titled b t :
  Block.type b = BlockType.text -> Block.title b = Some t ->
  Py.truthy t = true -> no_nl t = true ->
  block_lines b
  = "" :: ("### " ++ t) :: "" :: ""
       :: (Py.split Py.nl (Block.content b) ++ [""])%list.
Proof.
  intros Hty Hti Htr Hn. unfold block_lines, export_block.
  rewrite Hty, Hti, Htr. unfold list_append. cbn [app flat_map].
  rewrite app_nil_r.
  rewrite <- (append_assoc "### " t Py.NL).
  rewrite !split_cons_nl, !split_snoc_nl, split_no_nl; [reflexivity|].
  rewrite no_nl_app. now rewrite Hn.
Qed.

Lemma block_lines_code b lang :
  Block.type b = BlockType.code -> Block.title b = None ->
  Block.language b = Some lang -> Py.truthy lang = true ->
  no_nl lang = true ->
  block_lines b
  = "" :: ("```" ++ lang)
       :: (Py.split Py.nl (Block.content b) ++ ["```"; ""])%list.
Proof.
  intros Hty Hti Hla Htr Hn. unfold block_lines, export_block.
  rewrite Hty, Hti, Hla, Htr. unfold list_append. cbn [app flat_map].
  rewrite app_nil_r.
  replace (Py.NL ++ "```" ++ lang ++ Py.NL ++ Block.content b ++ Py.NL
                 ++ "```" ++ Py.NL)
    with (Py.NL ++ ("```" ++ lang) ++ Py.NL ++ Block.content b ++ Py.NL
                ++ "```" ++ Py.NL)
    by (now rewrite !append_assoc).
  rewrite split_cons_nl, !split_app_nl, split_snoc_nl.
  rewrite split_no_nl by (rewrite no_nl_app; now rewrite Hn).
  reflexivity.
Qed.

Lemma add_lines_cons c l ls :
  add_lines c (l :: ls) = add_lines (c ++ Py.NL ++ l) ls.
Proof. reflexivity. Qed.

Lemma add_lines_prefix a b ls : a ++ add_lines b ls = add_lines (a ++ b) ls.
Proof.
  revert b. induction ls as [|l ls IH]; intros b; [reflexivity|].
  rewrite !add_lines_cons, IH. now rewrite append_assoc.
Qed.

Lemma join_add_lines x ls : Py.join Py.NL (x :: ls) = add_lines x ls.
Proof.
  revert x. induction ls as [|l ls IH]; intros x; [reflexivity|].
  now rewrite join_cons, IH, add_lines_cons, !add_lines_prefix.
Qed.

Lemma code_lines_of_closed code closing rest :
  Forall (fun c => Py.startswith c "```" = false) code ->
  Py.startswith closing "```" = true ->
  code_lines_of (code ++ closing :: rest) = code.
Proof.
  intros Hc Hcl. induction Hc as [|c code Hc0 _ IH]; cbn [app code_lines_of].
  - now rewrite Hcl.
  - now rewrite Hc0, IH.
Qed.

Lemma parse_blank clk cheatsheet_id rest st :
  parse_lines clk cheatsheet_id ("" :: rest) st
  = parse_lines clk cheatsheet_id rest st.
Proof. now rewrite parse_lines_cons. Qed.

(** Text lines extend the pending dict of an open section. *)
Lemma parse_text_lines clk cheatsheet_id ls :
  Forall (fun l => classify l = Text) ls ->
  forall rest secs sec d bc tk,
    parse_lines clk cheatsheet_id (ls ++ rest)
                (mkState secs (Some sec) (Some (PyDict d)) bc tk)
    = parse_lines clk cheatsheet_id rest
        (mkState secs (Some sec)
           (Some (PyDict (BlockDict.mk (BlockDict.id d) (BlockDict.title d)
                            (add_lines (BlockDict.content d) ls)
                            (BlockDict.type d) (BlockDict.x d) (BlockDict.y d)
                            (BlockDict.w d) (BlockDict.h d))))
           bc tk).
Proof.
  induction 1 as [|l ls Hl _ IH]; intros rest secs sec d bc tk.
  - destruct d; reflexivity.
  - cbn [app]. rewrite parse_lines_cons, Hl. unfold on_text.
    cbn [current_section current_block sections block_counter ticks].
    rewrite IH. reflexivity.
Qed.

Lemma classify_h3 t : classify ("### " ++ t) = H3.
Proof.
  unfold classify.
  change (Py.startswith ("### " ++ t) "## ") with false.
  now rewrite startswith_app.
Qed.

Lemma classify_h2 t : classify ("## " ++ t) = H2.
Proof. unfold classify. now rewrite startswith_app. Qed.

Lemma fence_language_plain lang :
  Py.truthy lang = true -> string_forallb Py.isword lang = true ->
  fence_language ("```" ++ lang) = lang.
Proof.
  intros Ht Hw. rewrite <- (append_nil_r lang) at 1.
  rewrite (fence_language_tag lang "" Hw eq_refl). now rewrite Ht.
Qed.

Lemma reimport_block clk cheatsheet_id b secs sec cb bc tk rest q :
  canon_block b -> Block.title b <> Some "" ->
  not_model cb ->
  follows (is_some cb) b = Some q ->
  exists sec' cb' bc',
    parse_lines clk cheatsheet_id (block_lines b ++ rest)
                (mkState secs (Some sec) cb bc tk)
    = parse_lines clk cheatsheet_id rest (mkState secs (Some sec') cb' bc' tk)
    /\ Section.title sec' = Section.title sec
    /\ not_model cb'
    /\ is_some cb' = q
    /\ open_shape (mkState secs (Some sec') cb' bc' tk)
       = (open_shape (mkState secs (Some sec) cb bc tk) ++ [block_shape b])%list.
Proof.
  unfold canon_block, follows, open_shape, open_items, pending.
  cbn [current_section current_block].
  destruct (Block.type b) eqn:Hty; try contradiction;
    destruct (Block.title b) as [t|] eqn:Hti; try contradiction.
  - (* titled text block *)
    intros (Hla & Hst & Hnt & ls & Hsp & Hls) Hne Hcb Hq.
    injection Hq as <-.
    assert (Htr : Py.truthy t = true) by (destruct t; [congruence | reflexivity]).
    rewrite (block_lines_titled b t Hty Hti Htr Hnt), Hsp.
    cbn [app]. rewrite parse_blank, parse_lines_cons, classify_h3.
    rewrite !parse_blank. unfold on_h3.
    change (Py.slice_from ("### " ++ t) 4) with t. rewrite Hst.
    assert (Hshape : forall i x y w h,
               block_shape (Block_of_dict
                 (BlockDict.mk i (Some t) (add_lines "" ls) BlockType.text
                               x y w h)) = block_shape b).
    { intros. unfold block_shape, Block_of_dict. cbn.
      rewrite Hti, Hty, Hla. rewrite <- join_add_lines, <- Hsp, join_split.
      reflexivity. }
    rewrite <- app_assoc.
    destruct cb as [[d0|b0]|]; [| contradiction |];
      unfold append_current;
      cbn [current_section current_block sections block_counter ticks];
      rewrite parse_text_lines by exact Hls; cbn [app]; rewrite parse_blank;
      cbn [BlockDict.id BlockDict.title BlockDict.content BlockDict.type
           BlockDict.x BlockDict.y BlockDict.w BlockDict.h];
      eexists; eexists; eexists; (split; [reflexivity|]);
      (split; [reflexivity|]); (split; [exact I|]); (split; [reflexivity|]);
      cbn [Section.append Section.blocks]; unfold list_append;
      rewrite !map_app; cbn [List.map as_block]; rewrite Hshape;
      rewrite ?app_nil_r; reflexivity.
  - (* untitled text block *)
    intros (Hla & Hls) Hne Hcb Hq.
    destruct cb as [cb|]; [discriminate Hq|]. injection Hq as <-.
    rewrite (block_lines_untitled b Hty Hti).
    pose proof (join_split (Block.content b)) as Hjoin.
    pose proof (split_nonempty Py.nl (Block.content b)) as Hne'.
    destruct (Py.split Py.nl (Block.content b)) as [|l1 ls]; [congruence|].
    inversion Hls as [|? ? Hl1 Hls']; subst.
    assert (Hshape : forall i x y w h,
               block_shape (Block_of_dict
                 (BlockDict.mk i None (add_lines l1 ls) BlockType.text
                               x y w h)) = block_shape b).
    { intros. unfold block_shape, Block_of_dict. cbn.
      rewrite Hti, Hty, Hla. rewrite <- join_add_lines, Hjoin. reflexivity. }
    cbn [app]. rewrite parse_blank, parse_lines_cons, Hl1. unfold on_text.
    cbn [current_section current_block sections block_counter ticks].
    rewrite <- app_assoc, parse_text_lines by exact Hls'.
    cbn [app]. rewrite parse_blank.
    cbn [BlockDict.id BlockDict.title BlockDict.content BlockDict.type
         BlockDict.x BlockDict.y BlockDict.w BlockDict.h].
    eexists; eexists; eexists; (split; [reflexivity|]);
      (split; [reflexivity|]); (split; [exact I|]); (split; [reflexivity|]).
    rewrite !map_app. cbn [List.map as_block]. rewrite Hshape.
    now rewrite ?app_nil_r.
  - (* code block *)
    intros (lang & Hla & Htr & Hw & Hnf) Hne Hcb Hq. injection Hq as <-.
    rewrite (block_lines_code b lang Hty Hti Hla Htr (word_no_nl lang Hw)).
    cbn [app]. rewrite parse_blank, parse_lines_cons.
    rewrite (fence_classify _ (startswith_app "```" lang)).
    rewrite <- app_assoc. cbn [app].
    rewrite (code_lines_of_closed _ "```" ("" :: rest) Hnf eq_refl).
    rewrite (after_fence_closed _ "```" ("" :: rest) Hnf eq_refl).
    rewrite parse_blank. unfold on_fence.
    rewrite (fence_language_plain lang Htr Hw), join_split.
    assert (Hshape : forall i x y w h,
               block_shape (Block.mk i BlockType.code None (Block.content b)
                                     x y w h (Some lang) None)
               = block_shape b).
    { intros. unfold block_shape. cbn. now rewrite Hti, Hty, Hla. }
    destruct cb as [[d0|b0]|]; [| contradiction |];
      unfold append_current;
      cbn [current_section current_block sections block_counter ticks];
      eexists; eexists; eexists; (split; [reflexivity|]);
      (split; [reflexivity|]); (split; [exact I|]); (split; [reflexivity|]);
      cbn [Section.append Section.blocks]; unfold list_append;
      rewrite !map_app; cbn [List.map as_block]; rewrite Hshape;
      rewrite ?app_nil_r; reflexivity.
Qed.

Lemma reimport_blocks clk cheatsheet_id bs :
  forall secs sec cb bc tk rest q,
    Forall canon_block bs ->
    Forall (fun b => Block.title b <> Some "") bs ->
    not_model cb ->
    chain (is_some cb) bs = Some q ->
    exists sec' cb' bc',
      parse_lines clk cheatsheet_id (flat_map block_lines bs ++ rest)
                  (mkState secs (Some sec) cb bc tk)
      = parse_lines clk cheatsheet_id rest
                    (mkState secs (Some sec') cb' bc' tk)
      /\ Section.title sec' = Section.title sec
      /\ not_model cb'
      /\ is_some cb' = q
      /\ open_shape (mkState secs (Some sec') cb' bc' tk)
         = (open_shape (mkState secs (Some sec) cb bc tk)
            ++ List.map block_shape bs)%list.
Proof.
  induction bs as [|b bs IH]; intros secs sec cb bc tk rest q Hc Hne Hcb Hch.
  - cbn in Hch. injection Hch as <-. exists sec, cb, bc.
    cbn [flat_map app List.map]. rewrite app_nil_r. auto.
  - inversion Hc as [|? ? Hcb0 Hcbs]; inversion Hne as [|? ? Hne0 Hnes]; subst.
    cbn [chain] in Hch. destruct (follows (is_some cb) b) as [p|] eqn:Hf;
      [|discriminate Hch].
    cbn [flat_map]. rewrite <- app_assoc.
    destruct (reimport_block clk cheatsheet_id b secs sec cb bc tk
                (flat_map block_lines bs ++ rest) p Hcb0 Hne0 Hcb Hf)
      as (sec1 & cb1 & bc1 & E1 & Ht1 & Hm1 & Hp1 & Hs1).
    rewrite <- Hp1 in Hch.
    destruct (IH secs sec1 cb1 bc1 tk rest q Hcbs Hnes Hm1 Hch)
      as (sec2 & cb2 & bc2 & E2 & Ht2 & Hm2 & Hp2 & Hs2).
    exists sec2, cb2, bc2. rewrite E1, E2, Hs2, Hs1.
    repeat split; try assumption; [congruence|].
    cbn [List.map]. now rewrite <- app_assoc.
Qed.

Lemma state_shape_open secs sec cb bc tk :
  state_shape (mkState secs (Some sec) cb bc tk)
  = (List.map section_shape (List.map (Section.map as_block) secs)
     ++ [(Section.title sec, open_shape (mkState secs (Some sec) cb bc tk))])%list.
Proof.
  unfold state_shape, flushed, open_shape.
  cbn [sections current_section]. rewrite map_app. cbn [List.map].
  unfold section_shape at 2. cbn [Section.title Section.blocks].
  now rewrite !map_map.
Qed.

(** A [##] line closes what is open and opens an empty section. *)
Lemma on_h2_shape clk t st :
  canon_title t ->
  not_model (current_block st) ->
  is_some (current_section st) = true \/ current_block st = None ->
  exists secs1 sec1 tk1,
    on_h2 clk ("## " ++ t) st
    = mkState secs1 (Some sec1) None (block_counter st) tk1
    /\ Section.title sec1 = t
    /\ Section.blocks sec1 = []
    /\ List.map section_shape (List.map (Section.map as_block) secs1)
       = state_shape st.
Proof.
  intros [Hst _] Hm Ho. unfold on_h2.
  change (Py.slice_from ("## " ++ t) 3) with t. rewrite Hst.
  destruct st as [secs [sec|] [[d|b]|] bc tk]; cbn in Hm; try contradiction;
    cbn [current_section current_block sections block_counter ticks];
    try (destruct Ho as [Ho|Ho]; discriminate Ho);
    eexists; eexists; eexists; (split; [reflexivity|]);
    (split; [reflexivity|]); (split; [reflexivity|]);
    unfold state_shape, flushed, open_items, pending, list_append;
    cbn [current_section current_block sections];
    rewrite ?map_app, ?app_nil_r; cbn [List.map];
    unfold Section.map, Section.append, section_shape, list_append;
    cbn [Section.title Section.blocks];
    rewrite ?map_app, ?app_nil_r; reflexivity.
Qed.

Lemma reimport_sections clk cheatsheet_id secs :
  forall st rest,
    Forall canon_section secs ->
    Forall (fun s => Forall (fun b => Block.title b <> Some "")
                            (Section.blocks s)) secs ->
    not_model (current_block st) ->
    is_some (current_section st) = true \/ current_block st = None ->
    exists st',
      parse_lines clk cheatsheet_id (flat_map section_lines secs ++ rest) st
      = parse_lines clk cheatsheet_id rest st'
      /\ not_model (current_block st')
      /\ (is_some (current_section st') = true \/ current_block st' = None)
      /\ state_shape st'
         = (state_shape st ++ List.map section_shape secs)%list.
Proof.
  induction secs as [|s secs IH]; intros st rest Hc Hne Hm Ho.
  - exists st. cbn [flat_map app List.map]. rewrite app_nil_r. auto.
  - inversion Hc as [|? ? (Ht & Hbs & Hch) Hcs];
      inversion Hne as [|? ? Hne0 Hnes]; subst.
    cbn [flat_map]. rewrite section_lines_eq by apply Ht.
    cbn [app]. rewrite parse_blank, parse_lines_cons, classify_h2.
    destruct (on_h2_shape clk (Section.title s) st Ht Hm Ho)
      as (secs1 & sec1 & tk1 & E1 & Ht1 & Hb1 & Hs1).
    rewrite E1, parse_blank, <- app_assoc.
    destruct (chain false (Section.blocks s)) as [q|] eqn:Hq; [|congruence].
    destruct (reimport_blocks clk cheatsheet_id (Section.blocks s) secs1 sec1
                None (block_counter st) tk1
                (flat_map section_lines secs ++ rest) q Hbs Hne0 I Hq)
      as (sec2 & cb2 & bc2 & E2 & Ht2 & Hm2 & _ & Hs2).
    rewrite E2.
    destruct (IH (mkState secs1 (Some sec2) cb2 bc2 tk1) rest Hcs Hnes Hm2
                 (or_introl eq_refl))
      as (st' & E3 & Hm3 & Ho3 & Hs3).
    exists st'. rewrite E3, Hs3. repeat split; try assumption.
    rewrite state_shape_open, Hs1, Hs2, Ht2, Ht1.
    unfold open_shape at 1, open_items, pending.
    cbn [current_section current_block]. rewrite Hb1. cbn [app List.map].
    rewrite <- app_assoc. reflexivity.
Qed.

(** ** Round trip *)

Lemma classify_h1 name : classify ("# " ++ name) = Text.
Proof.
  unfold classify.
  change (Py.startswith ("# " ++ name) "## ") with false.
  change (Py.startswith ("# " ++ name) "### ") with false.
  change (Py.startswith ("# " ++ name) "```") with false.
  cbv iota. unfold Py.strip.
  change (Py.lstrip ("# " ++ name)) with (String "#" (String " " name)).
  cbn [Py.rstrip]. destruct (Py.rstrip name); reflexivity.
Qed.

Lemma Forall_blocks_sections {A B} (f : A -> B) (P : B -> Prop) secs :
  Forall P (List.map f (all_blocks secs)) ->
  Forall (fun s => Forall P (Section.blocks s))
         (List.map (Section.map f) secs).
Proof.
  unfold all_blocks. induction secs as [|s secs IH]; cbn [flat_map List.map];
    intros H; [constructor|].
  rewrite map_app in H. apply Forall_app in H. destruct H as [H1 H2].
  constructor; [exact H1 | now apply IH].
Qed.

Lemma canon_initial : canon_state initial_state.
Proof.
  repeat split; try constructor. intros b H. discriminate H.
Qed.

(** The import, with what the round trip needs of it. *)
Lemma import_canonical clk markdown_content name :
  exists doc,
    parse_markdown_to_cheatsheet clk markdown_content name = inr doc
    /\ Cheatsheet.name doc = name
    /\ Cheatsheet.sections (stored doc) <> []
    /\ Forall canon_section (Cheatsheet.sections (stored doc)).
Proof.
  unfold parse_markdown_to_cheatsheet.
  destruct (canon_parse clk (new_cheatsheet_id clk)
              (Py.split Py.nl markdown_content) initial_state
              (split_lines_no_nl _) canon_initial) as (st & -> & Hc).
  eexists. split; [reflexivity|]. split; [reflexivity|].
  unfold stored, Cheatsheet.map. cbn [Cheatsheet.sections].
  split; [|now apply canon_finish].
  rewrite finish_flushed. destruct (flushed st); discriminate.
Qed.

(** Re-importing lines that end with the export of canonical sections. *)
Lemma reimport_from clk cheatsheet_id secs st :
  secs <> [] ->
  Forall canon_section secs ->
  Forall (fun s => Forall (fun b => Block.title b <> Some "")
                          (Section.blocks s)) secs ->
  not_model (current_block st) ->
  is_some (current_section st) = true \/ current_block st = None ->
  exists st',
    parse_lines clk cheatsheet_id (flat_map section_lines secs) st = inr st'
    /\ List.map section_shape
                (List.map (Section.map as_block) (sections (finish clk st')))
       = (state_shape st ++ List.map section_shape secs)%list.
Proof.
  intros Hne Hc Ht Hm Ho.
  destruct (reimport_sections clk cheatsheet_id secs st [] Hc Ht Hm Ho)
    as (st' & E & _ & _ & Hs).
  rewrite app_nil_r in E. exists st'. split; [exact E|].
  rewrite finish_flushed. fold (state_shape st') in *.
  unfold state_shape in *. destruct (flushed st'); [|exact Hs].
  destruct secs; [congruence|]. cbn [List.map] in Hs.
  destruct (List.map section_shape (flushed st)); discriminate Hs.
Qed.

(** Claim C2, amended.  For every Markdown text whose import has no block
    with an empty title (no [###] header with a blank title), the export
    of the imported document is the line ["# {name}"], an empty line and a
    body, and re-importing it reproduces the structure of the document:
    same section titles in order, same block titles, types, contents and
    code languages in order.  Re-importing the body gives exactly that
    structure; re-importing the whole export, when the name is on one
    line, gives it after one more section, "Imported Content", whose only
    block is the text ["# {name}"]. *)
Theorem roundtrip_text_code
        (clk clk' : Clock) (markdown_content name name' : string) :
  exists doc,
    parse_markdown_to_cheatsheet clk markdown_content name = inr doc
    /\ (no_empty_title doc ->
        export_markdown (stored doc)
        = "# " ++ name ++ Py.NL ++ Py.NL ++ export_body (stored doc)
        /\ (exists doc',
               parse_markdown_to_cheatsheet clk' (export_body (stored doc))
                                            name' = inr doc'
               /\ shape doc' = shape doc)
        /\ (no_nl name = true ->
            exists doc',
              parse_markdown_to_cheatsheet clk' (export_markdown (stored doc))
                                           name' = inr doc'
              /\ shape doc'
                 = ("Imported Content",
                    [(None, BlockType.text, "# " ++ name, None)])
                   :: shape doc)).
Proof.
  destruct (import_canonical clk markdown_content name)
    as (doc & E & Hname & Hne & Hc).
  exists doc. split; [exact E|]. intros Hnt.
  assert (Ht : Forall (fun s => Forall (fun b => Block.title b <> Some "")
                                       (Section.blocks s))
                      (Cheatsheet.sections (stored doc))).
  { apply Forall_blocks_sections. exact Hnt. }
  pose proof (export_markdown_body (stored doc) Hne) as Hexp.
  change (Cheatsheet.name (stored doc)) with (Cheatsheet.name doc) in Hexp.
  rewrite Hname in Hexp.
  split; [exact Hexp|]. split.
  - unfold parse_markdown_to_cheatsheet.
    rewrite export_body_lines by exact Hne.
    destruct (reimport_from clk' (new_cheatsheet_id clk') _ initial_state
                Hne Hc Ht I (or_intror eq_refl)) as (st' & -> & Hs).
    eexists. split; [reflexivity|].
    unfold shape at 1. unfold stored at 1. unfold Cheatsheet.map.
    cbn [Cheatsheet.sections]. rewrite Hs. reflexivity.
  - intros Hn. unfold parse_markdown_to_cheatsheet. rewrite Hexp.
    rewrite <- (append_assoc "# " name), split_app_nl, split_cons_nl.
    rewrite split_no_nl by (rewrite no_nl_app; now rewrite Hn).
    rewrite export_body_lines by exact Hne.
    cbn [app]. rewrite parse_lines_cons, classify_h1.
    unfold on_text, initial_state.
    cbn [current_section current_block sections block_counter ticks].
    rewrite parse_blank.
    match goal with
    | |- context [parse_lines _ _ _ ?s] =>
        destruct (reimport_from clk' (new_cheatsheet_id clk') _ s
                    Hne Hc Ht I (or_introl eq_refl)) as (st' & -> & Hs)
    end.
    eexists. split; [reflexivity|].
    unfold shape at 1. unfold stored at 1. unfold Cheatsheet.map.
    cbn [Cheatsheet.sections]. rewrite Hs. reflexivity.
Qed.

Lemma roundtrip_text_code_witness :
  exists doc doc',
    parse_markdown_to_cheatsheet sample_clock md_api_notes "Notes" = inr doc
    /\ parse_markdown_to_cheatsheet sample_clock (export_markdown (stored doc))
                                    "Copy" = inr doc'
    /\ shape doc'
       = ("Imported Content", [(None, BlockType.text, "# Notes", None)])
         :: shape doc.
Proof.
  destruct (roundtrip_text_code sample_clock sample_clock md_api_notes
                                "Notes" "Copy") as (doc & E & H).
  assert (Hnt : no_empty_title doc).
  { pose proof E as E'. vm_compute in E'. injection E' as <-.
    repeat constructor; discriminate. }
  destruct (H Hnt) as (_ & _ & H3).
  destruct (H3 eq_refl) as (doc' & E' & Hs).
  exists doc, doc'. auto.
Defined.

(** The import of ["## S\nfoo\n### \nbar"] and the re-import of its
    export: the two blocks of section "S" come back as one. *)
Lemma roundtrip_empty_title_shapes :
  exists doc doc',
    parse_markdown_to_cheatsheet sample_clock md_empty_title "Notes" = inr doc
    /\ parse_markdown_to_cheatsheet sample_clock (export_markdown (stored doc))
                                    "Notes" = inr doc'
    /\ shape doc
       = [("S", [(None, BlockType.text, "foo", None);
                 (Some "", BlockType.text, Py.NL ++ "bar", None)])]
    /\ shape doc'
       = [("Imported Content", [(None, BlockType.text, "# Notes", None)]);
          ("S", [(None, BlockType.text, "foo" ++ Py.NL ++ "bar", None)])].
Proof.
  eexists. eexists. split; [reflexivity|]. split; [reflexivity|].
  split; reflexivity.
Qed.

(** The claim C2 as the specification states it fails on
    ["## S\nfoo\n### \nbar"]: whether the whole export or its body is
    re-imported, and whatever leading sections are left out of the
    comparison, the re-imported document does not even have the outline
    (section titles and numbers of blocks) of the imported one. *)
Lemma roundtrip_fails_on_empty_title :
  ~ exists doc doc' text pre,
      parse_markdown_to_cheatsheet sample_clock md_empty_title "Notes"
      = inr doc
      /\ (text = export_markdown (stored doc)
          \/ text = export_body (stored doc))
      /\ parse_markdown_to_cheatsheet sample_clock text "Notes" = inr doc'
      /\ outline (shape doc') = (pre ++ outline (shape doc))%list.
Proof.
  intros (doc & doc' & text & pre & E & Ht & E' & Ho).
  vm_compute in E. injection E as <-.
  destruct Ht as [-> | ->]; vm_compute in E'; injection E' as <-;
    vm_compute in Ho;
    destruct pre as [|a [|b [|c pre]]]; discriminate Ho.
Qed.

(** * The store *)

(** ** Dicts *)

Lemma dict_get_set_same {V} (d : dict V) k v :
  dict_get (dict_set d k v) k = Some v.
Proof.
  induction d as [|[k' v'] d IH]; cbn [dict_set dict_get].
  - now rewrite String.eqb_refl.
  - destruct (String.eqb k' k) eqn:E; cbn [dict_get]; rewrite E; auto.
Qed.

Lemma dict_get_set_other {V} (d : dict V) k k0 v :
  k0 <> k -> dict_get (dict_set d k v) k0 = dict_get d k0.
Proof.
  intros Hne. induction d as [|[k' v'] d IH]; cbn [dict_set dict_get].
  - destruct (String.eqb k k0) eqn:E; [|reflexivity].
    apply String.eqb_eq in E. congruence.
  - destruct (String.eqb k' k) eqn:E; cbn [dict_get].
    + apply String.eqb_eq in E. subst k'.
      destruct (String.eqb k k0) eqn:E0; [|reflexivity].
      apply String.eqb_eq in E0. congruence.
    + now rewrite IH.
Qed.

Lemma dict_contains_In {V} (d : dict V) k :
  dict_contains k d = true <-> In k (dict_keys d).
Proof.
  unfold dict_contains, dict_keys.
  induction d as [|[k' v'] d IH]; cbn [dict_get List.map In fst].
  - split; [discriminate | contradiction].
  - destruct (String.eqb k' k) eqn:E.
    + apply String.eqb_eq in E. split; auto.
    + apply String.eqb_neq in E. rewrite IH. split; [auto|].
      intros [H|H]; [congruence | exact H].
Qed.

Lemma dict_keys_set {V} (d : dict V) k v :
  dict_keys (dict_set d k v)
  = if dict_contains k d then dict_keys d else (dict_keys d ++ [k])%list.
Proof.
  unfold dict_contains, dict_keys.
  induction d as [|[k' v'] d IH]; cbn [dict_set dict_get List.map fst app].
  - reflexivity.
  - destruct (String.eqb k' k) eqn:E; cbn [List.map fst]; [reflexivity|].
    rewrite IH. now destruct (dict_get d k).
Qed.

Lemma dict_keys_del_notin {V} (d : dict V) k :
  NoDup (dict_keys d) -> ~ In k (dict_keys (dict_del d k)).
Proof.
  unfold dict_keys. induction d as [|[k' v'] d IH]; cbn [dict_del List.map fst];
    intros Hnd; [auto|].
  inversion Hnd as [|? ? Hk' Hd]; subst.
  destruct (String.eqb k' k) eqn:E.
  - apply String.eqb_eq in E. now subst k'.
  - apply String.eqb_neq in E. cbn [List.map fst In]. intros [H|H];
      [congruence | now apply IH].
Qed.

Lemma dict_keys_del_In {V} (d : dict V) k k0 :
  In k0 (dict_keys (dict_del d k)) -> In k0 (dict_keys d).
Proof.
  unfold dict_keys. induction d as [|[k' v'] d IH]; cbn [dict_del List.map fst];
    [auto|].
  destruct (String.eqb k' k); cbn [List.map fst In]; intuition.
Qed.

Lemma dict_keys_del_other {V} (d : dict V) k k0 :
  k0 <> k -> In k0 (dict_keys d) -> In k0 (dict_keys (dict_del d k)).
Proof.
  unfold dict_keys. intros Hne.
  induction d as [|[k' v'] d IH]; cbn [dict_del List.map fst In]; [auto|].
  destruct (String.eqb k' k) eqn:E; cbn [List.map fst In].
  - apply String.eqb_eq in E. subst k'. intros [H|H]; [congruence | exact H].
  - intuition.
Qed.

Lemma dict_keys_del_NoDup {V} (d : dict V) k :
  NoDup (dict_keys d) -> NoDup (dict_keys (dict_del d k)).
Proof.
  induction d as [|[k' v'] d IH]; cbn [dict_del]; intros Hnd; [exact Hnd|].
  unfold dict_keys in *. cbn [List.map fst] in *.
  inversion Hnd as [|? ? Hk' Hd]; subst.
  destruct (String.eqb k' k); [exact Hd|].
  cbn [List.map fst]. constructor; [|now apply IH].
  intros H. apply Hk'. now apply (dict_keys_del_In d k k').
Qed.

(** ** Files and index *)

Lemma stored_models cs : stored (models cs) = cs.
Proof.
  destruct cs as [i n secs c u]. unfold stored, models, Cheatsheet.map.
  cbn [Cheatsheet.id Cheatsheet.name Cheatsheet.sections Cheatsheet.created
       Cheatsheet.updated].
  f_equal. rewrite map_map. rewrite <- (map_id secs) at 2.
  apply map_ext. intros [si st sc sz bl]. unfold Section.map.
  cbn [Section.id Section.title Section.titleColor Section.titleSize
       Section.blocks].
  f_equal. rewrite map_map. apply map_id.
Qed.

Lemma load_all_flat joinpath w :
  load_all_cheatsheets joinpath w
  = flat_map (fun k => match load_cheatsheet joinpath w k with
                       | Some cs => [cs]
                       | None => []
                       end)
             (dict_keys (load_index w)).
Proof.
  unfold load_all_cheatsheets.
  assert (G : forall ks acc,
             fold_left
               (fun cheatsheets k =>
                  match load_cheatsheet joinpath w k with
                  | Some cs => list_append cheatsheets cs
                  | None => cheatsheets
                  end) ks acc
             = (acc ++ flat_map (fun k => match load_cheatsheet joinpath w k with
                                          | Some cs => [cs]
                                          | None => []
                                          end) ks)%list).
  { induction ks as [|k ks IH]; intros acc; cbn [fold_left flat_map].
    - now rewrite app_nil_r.
    - rewrite IH. destruct (load_cheatsheet joinpath w k); unfold list_append;
        [now rewrite <- app_assoc | reflexivity]. }
  apply G.
Qed.

Lemma save_files joinpath cs w q :
  files (save_cheatsheet joinpath cs w) q
  = if String.eqb q (get_cheatsheet_path joinpath (Cheatsheet.id cs))
    then Some (stored cs) else files w q.
Proof. reflexivity. Qed.

Lemma save_index_eq joinpath cs w :
  load_index (save_cheatsheet joinpath cs w)
  = dict_set (load_index w) (Cheatsheet.id cs)
             (IndexEntry.mk (Cheatsheet.id cs) (Cheatsheet.name cs)
                            (Cheatsheet.created cs) (Cheatsheet.updated cs)).
Proof. reflexivity. Qed.

Lemma delete_files joinpath cheatsheet_id w q :
  files (delete_cheatsheet_file joinpath cheatsheet_id w) q
  = if String.eqb q (get_cheatsheet_path joinpath cheatsheet_id)
    then None else files w q.
Proof.
  unfold delete_cheatsheet_file.
  set (p := get_cheatsheet_path joinpath cheatsheet_id).
  assert (H : forall w1 : World,
             files (if dict_contains cheatsheet_id (load_index w1)
                    then save_index (dict_del (load_index w1) cheatsheet_id) w1
                    else w1) q = files w1 q).
  { intros w1. now destruct (dict_contains _ _). }
  rewrite H. destruct (files w p) eqn:E; cbn [files]; [reflexivity|].
  destruct (String.eqb q p) eqn:Eq; [|reflexivity].
  apply String.eqb_eq in Eq. now subst q.
Qed.

Lemma delete_index_eq joinpath cheatsheet_id w :
  load_index (delete_cheatsheet_file joinpath cheatsheet_id w)
  = if dict_contains cheatsheet_id (load_index w)
    then dict_del (load_index w) cheatsheet_id
    else load_index w.
Proof.
  unfold delete_cheatsheet_file.
  set (p := get_cheatsheet_path joinpath cheatsheet_id).
  set (w1 := match files w p with
             | Some _ => mkWorld (fun q => if String.eqb q p then None
                                           else files w q) (index_file w)
             | None => w
             end).
  assert (Hidx : load_index w1 = load_index w).
  { unfold w1. now destruct (files w p). }
  rewrite Hidx. destruct (dict_contains cheatsheet_id (load_index w));
    [reflexivity | exact Hidx].
Qed.

(** X1.  Saving a cheatsheet makes it the content read back under its id,
    with its blocks as [Block] models, and records its metadata in the
    index; the files at other paths are left as they were. *)
Theorem save_then_load joinpath (cs : Cheatsheet.t PyBlock) (w : World) :
  load_cheatsheet joinpath (save_cheatsheet joinpath cs w) (Cheatsheet.id cs)
  = Some (stored cs)
  /\ dict_get (load_index (save_cheatsheet joinpath cs w)) (Cheatsheet.id cs)
     = Some (IndexEntry.mk (Cheatsheet.id cs) (Cheatsheet.name cs)
                           (Cheatsheet.created cs) (Cheatsheet.updated cs))
  /\ (forall k, get_cheatsheet_path joinpath k
                <> get_cheatsheet_path joinpath (Cheatsheet.id cs) ->
                load_cheatsheet joinpath (save_cheatsheet joinpath cs w) k
                = load_cheatsheet joinpath w k)
  /\ (forall k, k <> Cheatsheet.id cs ->
                dict_get (load_index (save_cheatsheet joinpath cs w)) k
                = dict_get (load_index w) k).
Proof.
  unfold load_cheatsheet. rewrite save_index_eq. repeat split.
  - rewrite save_files. now rewrite String.eqb_refl.
  - apply dict_get_set_same.
  - intros k Hk. rewrite save_files. apply String.eqb_neq in Hk.
    now rewrite Hk.
  - intros k Hk. now apply dict_get_set_other.
Qed.

Lemma save_then_load_witness :
  load_cheatsheet sample_joinpath
    (save_cheatsheet sample_joinpath (models (sample_doc "B" []))
       (save_cheatsheet sample_joinpath
          (Cheatsheet.mk "cs_0" "A" [] "t0" "t0") empty_world))
    "cs_0"
  = Some (Cheatsheet.mk "cs_0" "A" [] "t0" "t0").
Proof.
  rewrite (proj1 (proj2 (proj2 (save_then_load sample_joinpath
             (models (sample_doc "B" []))
             (save_cheatsheet sample_joinpath
                (Cheatsheet.mk "cs_0" "A" [] "t0" "t0") empty_world))))
             "cs_0").
  - reflexivity.
  - vm_compute. discriminate.
Defined.

(** X2.  After [delete_cheatsheet_file] nothing is read back under the id
    and the id is no key of the index; the files at other paths and the
    other keys of the index are left as they were. *)
Theorem delete_then_load joinpath (cheatsheet_id : string) (w : World) :
  NoDup (dict_keys (load_index w)) ->
  let w' := delete_cheatsheet_file joinpath cheatsheet_id w in
  load_cheatsheet joinpath w' cheatsheet_id = None
  /\ ~ In cheatsheet_id (dict_keys (load_index w'))
  /\ (forall k, get_cheatsheet_path joinpath k
                <> get_cheatsheet_path joinpath cheatsheet_id ->
                load_cheatsheet joinpath w' k = load_cheatsheet joinpath w k)
  /\ (forall k, k <> cheatsheet_id ->
                (In k (dict_keys (load_index w'))
                 <-> In k (dict_keys (load_index w)))).
Proof.
  intros Hnd w'. subst w'. unfold load_cheatsheet.
  rewrite delete_index_eq. repeat split.
  - rewrite delete_files. now rewrite String.eqb_refl.
  - destruct (dict_contains cheatsheet_id (load_index w)) eqn:Hc.
    + now apply dict_keys_del_notin.
    + intros H. apply dict_contains_In in H. congruence.
  - intros k Hk. rewrite delete_files. apply String.eqb_neq in Hk.
    now rewrite Hk.
  - destruct (dict_contains cheatsheet_id (load_index w));
      [apply dict_keys_del_In | auto].
  - intros Hk. destruct (dict_contains cheatsheet_id (load_index w));
      [now apply dict_keys_del_other | exact Hk].
Qed.

Lemma delete_then_load_witness :
  load_cheatsheet sample_joinpath
    (delete_cheatsheet_file sample_joinpath "cs_0"
       (save_cheatsheet sample_joinpath
          (Cheatsheet.mk "cs_0" "A" [] "t0" "t0") empty_world))
    "cs_0"
  = None.
Proof.
  apply (delete_then_load sample_joinpath "cs_0"
           (save_cheatsheet sample_joinpath
              (Cheatsheet.mk "cs_0" "A" [] "t0" "t0") empty_world)).
  vm_compute. repeat constructor. intros [].
Defined.

Lemma NoDup_snoc {A} (l : list A) (a : A) :
  NoDup l -> ~ In a l -> NoDup (l ++ [a])%list.
Proof.
  induction l as [|b l IH]; cbn; intros Hnd Hn.
  - constructor; [intros [] | constructor].
  - inversion Hnd; subst. constructor.
    + rewrite in_app_iff. cbn. intros [H|[H|[]]]; [auto | subst; auto].
    + apply IH; auto.
Qed.

Lemma dict_get_keys {V} (d : dict V) k :
  dict_get d k = None <-> ~ In k (dict_keys d).
Proof.
  induction d as [|[k' v] d IH]; cbn.
  - split; auto.
  - destruct (String.eqb k' k) eqn:E.
    + apply String.eqb_eq in E. subst. split; [discriminate | intros H; exfalso; auto].
    + apply String.eqb_neq in E. rewrite IH. split.
      * intros H [H1|H1]; auto.
      * intros H H1. auto.
Qed.

Lemma store_ok_save joinpath cs w :
  no_path_clash joinpath (Cheatsheet.id cs) w -> store_ok joinpath w ->
  store_ok joinpath (save_cheatsheet joinpath cs w).
Proof.
  intros Hcl [Hnd Hfiles]. unfold store_ok, load_cheatsheet.
  rewrite save_index_eq, dict_keys_set. split.
  - destruct (dict_contains _ _) eqn:Hc; [exact Hnd|].
    apply NoDup_snoc; [exact Hnd|].
    intros H. apply dict_contains_In in H. congruence.
  - intros k Hk.
    assert (Hk' : In k (dict_keys (load_index w)) \/ k = Cheatsheet.id cs).
    { destruct (dict_contains _ _); [now left|].
      apply in_app_iff in Hk. destruct Hk as [Hk|[Hk|[]]];
        [now left | now right]. }
    rewrite save_files.
    destruct (String.eqb _ _) eqn:E.
    + apply String.eqb_eq in E.
      assert (Ek : k = Cheatsheet.id cs)
        by (destruct Hk' as [Hk'|Hk']; [now apply Hcl | exact Hk']).
      subst k. exists (stored cs). split; [reflexivity | now destruct cs].
    + apply Hfiles. destruct Hk' as [Hk'|Hk']; [exact Hk'|].
      subst k. now rewrite String.eqb_refl in E.
Qed.

Lemma store_ok_delete joinpath cheatsheet_id w :
  no_path_clash joinpath cheatsheet_id w -> store_ok joinpath w ->
  store_ok joinpath (delete_cheatsheet_file joinpath cheatsheet_id w).
Proof.
  intros Hcl [Hnd Hfiles]. unfold store_ok, load_cheatsheet.
  rewrite delete_index_eq.
  destruct (dict_contains cheatsheet_id (load_index w)) eqn:Hc.
  - split; [now apply dict_keys_del_NoDup|].
    intros k Hk. rewrite delete_files.
    pose proof (dict_keys_del_In _ _ _ Hk) as Hk0.
    destruct (String.eqb _ _) eqn:E.
    + apply String.eqb_eq in E. pose proof (Hcl k Hk0 E). subst k.
      exfalso. revert Hk. now apply dict_keys_del_notin.
    + now apply Hfiles.
  - split; [exact Hnd|].
    intros k Hk. rewrite delete_files.
    destruct (String.eqb _ _) eqn:E.
    + apply String.eqb_eq in E. pose proof (Hcl k Hk E). subst k.
      apply dict_contains_In in Hk. congruence.
    + now apply Hfiles.
Qed.

Lemma store_ok_empty joinpath : store_ok joinpath empty_world.
Proof. split; [constructor | intros k []]. Qed.

Lemma sample_path_injective a b :
  get_cheatsheet_path sample_joinpath a = get_cheatsheet_path sample_joinpath b ->
  a = b.
Proof.
  intros H. unfold get_cheatsheet_path, sample_joinpath in H.
  assert (A : forall p x y : string, p ++ x = p ++ y -> x = y).
  { induction p as [|c p IH]; cbn; intros x y E; [exact E|].
    injection E as E. now apply IH. }
  apply (A DATA_DIR) in H. apply (A "/") in H.
  revert b H. induction a as [|c a IH]; intros [|d b] H;
    try reflexivity.
  - apply (f_equal String.length) in H. cbn [append] in H.
    change (String d (b ++ ".json")) with (String d b ++ ".json") in H.
    rewrite length_append in H. cbn in H. lia.
  - apply (f_equal String.length) in H. cbn [append] in H.
    change (String c (a ++ ".json")) with (String c a ++ ".json") in H.
    rewrite length_append in H. cbn in H. lia.
  - cbn [append] in H. injection H as -> H. f_equal. now apply IH.
Qed.

Lemma sample_no_path_clash cheatsheet_id w :
  no_path_clash sample_joinpath cheatsheet_id w.
Proof. intros k _. apply sample_path_injective. Qed.

Lemma sample_store_ok : store_ok sample_joinpath sample_store.
Proof.
  unfold sample_store.
  repeat (apply store_ok_save; [apply sample_no_path_clash|]).
  apply store_ok_empty.
Qed.

(** X3.  The store keeps its index and its files in step.  Take a store
    in which the keys of the index are distinct and each names a file
    holding a cheatsheet of that id.  After [save_cheatsheet], and after
    [delete_cheatsheet_file], it is still such a store, provided no other
    key of the index names the file of the id that is saved or deleted. *)
Theorem store_invariant joinpath cs cheatsheet_id (w : World) :
  store_ok joinpath w ->
  (no_path_clash joinpath (Cheatsheet.id cs) w ->
   store_ok joinpath (save_cheatsheet joinpath cs w))
  /\ (no_path_clash joinpath cheatsheet_id w ->
      store_ok joinpath (delete_cheatsheet_file joinpath cheatsheet_id w)).
Proof.
  intros Hok. split; intros Hcl;
    [now apply store_ok_save | now apply store_ok_delete].
Qed.

Lemma store_invariant_witness :
  store_ok sample_joinpath
    (save_cheatsheet sample_joinpath
       (Cheatsheet.mk "cs_1" "Go Notes, revised" [] "t1" "t3") sample_store)
  /\ store_ok sample_joinpath
       (delete_cheatsheet_file sample_joinpath "cs_1" sample_store).
Proof.
  destruct (store_invariant sample_joinpath
              (Cheatsheet.mk "cs_1" "Go Notes, revised" [] "t1" "t3") "cs_1"
              sample_store sample_store_ok) as [Hsave Hdelete].
  split; [apply Hsave | apply Hdelete]; apply sample_no_path_clash.
Defined.

Lemma load_all_ids joinpath w :
  store_ok joinpath w ->
  map Cheatsheet.id (load_all_cheatsheets joinpath w)
  = dict_keys (load_index w).
Proof.
  intros [_ Hfiles]. rewrite load_all_flat.
  induction (dict_keys (load_index w)) as [|k ks IH]; [reflexivity|].
  cbn [flat_map]. rewrite map_app, IH by (intros k' Hk'; apply Hfiles; now right).
  destruct (Hfiles k (or_introl eq_refl)) as (cs & -> & Hid).
  cbn. now rewrite Hid.
Qed.

(** X4.  In a store that satisfies the invariant, the listing endpoint
    returns exactly one cheatsheet for each key of the index, in the order
    of the keys, and the cheatsheet at each place has the key as its id. *)
Theorem listing_follows_index joinpath (w : World) :
  store_ok joinpath w ->
  map Cheatsheet.id (get_cheatsheets joinpath w) = dict_keys (load_index w)
  /\ NoDup (map Cheatsheet.id (get_cheatsheets joinpath w))
  /\ forall cs, In cs (get_cheatsheets joinpath w) ->
                get_cheatsheet joinpath (Cheatsheet.id cs) w = inr cs.
Proof.
  intros Hok. unfold get_cheatsheets.
  rewrite (load_all_ids _ _ Hok). destruct Hok as [Hnd Hfiles].
  repeat split; [exact Hnd|].
  intros cs Hin. rewrite load_all_flat in Hin.
  apply in_flat_map in Hin. destruct Hin as (k & Hk & Hin).
  destruct (Hfiles k Hk) as (cs' & Hl & Hid).
  rewrite Hl in Hin. destruct Hin as [<-|[]].
  unfold get_cheatsheet. now rewrite Hid, Hl.
Qed.

Lemma listing_follows_index_witness :
  map Cheatsheet.id
      (get_cheatsheets sample_joinpath
         (save_cheatsheet sample_joinpath
            (Cheatsheet.mk "cs_1" "B" [] "t1" "t1") empty_world))
  = dict_keys (load_index
         (save_cheatsheet sample_joinpath
            (Cheatsheet.mk "cs_1" "B" [] "t1" "t1") empty_world)).
Proof.
  apply (listing_follows_index sample_joinpath).
  apply store_ok_save;
    [apply sample_no_path_clash | apply store_ok_empty].
Defined.

Lemma flat_map_load_ext (f g : string -> option (Cheatsheet.t Block.t)) ks :
  (forall k, In k ks -> f k = g k) ->
  flat_map (fun k => match f k with Some cs => [cs] | None => [] end) ks
  = flat_map (fun k => match g k with Some cs => [cs] | None => [] end) ks.
Proof.
  induction ks as [|k ks IH]; intros H; [reflexivity|].
  cbn [flat_map]. rewrite (H k (or_introl eq_refl)), IH; [reflexivity|].
  intros k' Hk'. apply H. now right.
Qed.

Lemma load_save_eq joinpath cs w k :
  (get_cheatsheet_path joinpath k
   = get_cheatsheet_path joinpath (Cheatsheet.id cs) ->
   k = Cheatsheet.id cs) ->
  load_cheatsheet joinpath (save_cheatsheet joinpath cs w) k
  = if String.eqb k (Cheatsheet.id cs) then Some (stored cs)
    else load_cheatsheet joinpath w k.
Proof.
  intros Hcl. unfold load_cheatsheet. rewrite save_files.
  destruct (String.eqb k (Cheatsheet.id cs)) eqn:E.
  - apply String.eqb_eq in E. subst k. now rewrite String.eqb_refl.
  - destruct (String.eqb (get_cheatsheet_path joinpath k) _) eqn:E';
      [|reflexivity].
    apply String.eqb_eq, Hcl in E'. subst k.
    now rewrite String.eqb_refl in E.
Qed.

Lemma load_delete_eq joinpath cheatsheet_id w k :
  (get_cheatsheet_path joinpath k
   = get_cheatsheet_path joinpath cheatsheet_id ->
   k = cheatsheet_id) ->
  load_cheatsheet joinpath (delete_cheatsheet_file joinpath cheatsheet_id w) k
  = if String.eqb k cheatsheet_id then None
    else load_cheatsheet joinpath w k.
Proof.
  intros Hcl. unfold load_cheatsheet. rewrite delete_files.
  destruct (String.eqb k cheatsheet_id) eqn:E.
  - apply String.eqb_eq in E. subst k. now rewrite String.eqb_refl.
  - destruct (String.eqb (get_cheatsheet_path joinpath k) _) eqn:E';
      [|reflexivity].
    apply String.eqb_eq, Hcl in E'. subst k.
    now rewrite String.eqb_refl in E.
Qed.

Lemma save_listing_replace joinpath cs w ks :
  (forall k, In k ks ->
             get_cheatsheet_path joinpath k
             = get_cheatsheet_path joinpath (Cheatsheet.id cs) ->
             k = Cheatsheet.id cs) ->
  (forall k, In k ks -> exists c, load_cheatsheet joinpath w k = Some c
                                  /\ Cheatsheet.id c = k) ->
  flat_map (fun k => match load_cheatsheet joinpath
                             (save_cheatsheet joinpath cs w) k with
                     | Some c => [c] | None => [] end) ks
  = map (fun c => if String.eqb (Cheatsheet.id c) (Cheatsheet.id cs)
                  then stored cs else c)
        (flat_map (fun k => match load_cheatsheet joinpath w k with
                            | Some c => [c] | None => [] end) ks).
Proof.
  induction ks as [|k ks IH]; intros Hcl H; [reflexivity|].
  cbn [flat_map].
  rewrite map_app.
  rewrite IH;
    [| intros k' Hk'; apply Hcl; now right
     | intros k' Hk'; apply H; now right].
  f_equal. rewrite load_save_eq by (apply Hcl; now left).
  destruct (H k (or_introl eq_refl)) as (c & -> & Hid).
  cbn [map]. rewrite Hid. now destruct (String.eqb k (Cheatsheet.id cs)).
Qed.

Lemma dict_keys_del_filter {V} (d : dict V) k :
  NoDup (dict_keys d) ->
  dict_keys (dict_del d k)
  = filter (fun k' => negb (String.eqb k' k)) (dict_keys d).
Proof.
  unfold dict_keys.
  induction d as [|[k' v] d IH]; cbn [dict_del List.map fst filter];
    intros Hnd; [reflexivity|].
  inversion Hnd as [|? ? Hn Hnd']; subst.
  destruct (String.eqb k' k) eqn:E; cbn [negb List.map fst].
  - apply String.eqb_eq in E. subst k'.
    symmetry. apply forallb_filter_id. apply forallb_forall.
    intros x Hx. destruct (String.eqb x k) eqn:E; [|reflexivity].
    apply String.eqb_eq in E. now subst x.
  - now rewrite IH.
Qed.

Lemma filter_flat_map_load (f : string -> option (Cheatsheet.t Block.t))
      (p : string -> bool) ks :
  (forall k, In k ks -> exists c, f k = Some c /\ Cheatsheet.id c = k) ->
  flat_map (fun k => match f k with Some c => [c] | None => [] end)
           (filter p ks)
  = filter (fun c => p (Cheatsheet.id c))
           (flat_map (fun k => match f k with Some c => [c] | None => [] end)
                     ks).
Proof.
  induction ks as [|k ks IH]; intros H; [reflexivity|].
  cbn [flat_map filter]. rewrite filter_app, <- IH
    by (intros k' Hk'; apply H; now right).
  destruct (H k (or_introl eq_refl)) as (c & Hc & Hid).
  rewrite Hc. cbn [filter]. rewrite Hid.
  destruct (p k); cbn [flat_map]; [now rewrite Hc | reflexivity].
Qed.

Lemma listing_after_save joinpath cs w :
  no_path_clash joinpath (Cheatsheet.id cs) w -> store_ok joinpath w ->
  load_all_cheatsheets joinpath (save_cheatsheet joinpath cs w)
  = if dict_contains (Cheatsheet.id cs) (load_index w)
    then map (fun c => if String.eqb (Cheatsheet.id c) (Cheatsheet.id cs)
                       then stored cs else c)
             (load_all_cheatsheets joinpath w)
    else list_append (load_all_cheatsheets joinpath w) (stored cs).
Proof.
  intros Hcl [Hnd Hfiles]. rewrite !load_all_flat.
  rewrite save_index_eq, dict_keys_set.
  destruct (dict_contains _ _) eqn:Hc.
  - now apply save_listing_replace.
  - unfold list_append. rewrite flat_map_app. f_equal.
    + apply flat_map_load_ext. intros k Hk.
      rewrite load_save_eq by (now apply Hcl).
      destruct (String.eqb k (Cheatsheet.id cs)) eqn:E; [|reflexivity].
      apply String.eqb_eq in E. subst k.
      apply dict_contains_In in Hk. congruence.
    + cbn [flat_map]. rewrite load_save_eq by reflexivity.
      now rewrite String.eqb_refl.
Qed.

Lemma listing_after_delete joinpath cheatsheet_id w :
  no_path_clash joinpath cheatsheet_id w -> store_ok joinpath w ->
  load_all_cheatsheets joinpath
    (delete_cheatsheet_file joinpath cheatsheet_id w)
  = filter (fun c => negb (String.eqb (Cheatsheet.id c) cheatsheet_id))
           (load_all_cheatsheets joinpath w).
Proof.
  intros Hcl [Hnd Hfiles]. rewrite !load_all_flat, delete_index_eq.
  assert (K : dict_keys (if dict_contains cheatsheet_id (load_index w)
                         then dict_del (load_index w) cheatsheet_id
                         else load_index w)
              = filter (fun k' => negb (String.eqb k' cheatsheet_id))
                       (dict_keys (load_index w))).
  { destruct (dict_contains _ _) eqn:Hc; [now apply dict_keys_del_filter|].
    symmetry. apply forallb_filter_id. apply forallb_forall.
    intros x Hx. destruct (String.eqb x cheatsheet_id) eqn:E; [|reflexivity].
    apply String.eqb_eq in E. subst x.
    apply dict_contains_In in Hx. congruence. }
  rewrite K.
  rewrite <- (filter_flat_map_load (load_cheatsheet joinpath w)
               (fun k => negb (String.eqb k cheatsheet_id))) by exact Hfiles.
  apply flat_map_load_ext. intros k Hk.
  apply filter_In in Hk. destruct Hk as [Hk0 Hk].
  rewrite load_delete_eq by (now apply Hcl).
  now destruct (String.eqb k cheatsheet_id).
Qed.

(** X5.  What the listing shows after a change of the store.  Take a
    store that satisfies the invariant, and an id whose file is named by
    no other key of the index.  Saving under that id appends the
    cheatsheet at the end of the listing when the index does not have the
    id, and replaces the cheatsheet of that id where it stands when it
    does; deleting the id removes the cheatsheet of that id from the
    listing and nothing else. *)
Theorem listing_after_change joinpath cs cheatsheet_id (w : World) :
  store_ok joinpath w ->
  (no_path_clash joinpath (Cheatsheet.id cs) w ->
   get_cheatsheets joinpath (save_cheatsheet joinpath cs w)
   = if dict_contains (Cheatsheet.id cs) (load_index w)
     then map (fun c => if String.eqb (Cheatsheet.id c) (Cheatsheet.id cs)
                        then stored cs else c)
              (get_cheatsheets joinpath w)
     else list_append (get_cheatsheets joinpath w) (stored cs))
  /\ (no_path_clash joinpath cheatsheet_id w ->
      get_cheatsheets joinpath
        (delete_cheatsheet_file joinpath cheatsheet_id w)
      = filter (fun c => negb (String.eqb (Cheatsheet.id c) cheatsheet_id))
               (get_cheatsheets joinpath w)).
Proof.
  intros Hok. unfold get_cheatsheets. split; intros Hcl.
  - now apply listing_after_save.
  - now apply listing_after_delete.
Qed.

Lemma listing_after_change_witness :
  get_cheatsheets sample_joinpath
    (save_cheatsheet sample_joinpath
       (Cheatsheet.mk "cs_1" "Go Notes, revised" [] "t1" "t3") sample_store)
  = [Cheatsheet.mk "cs_1" "Go Notes, revised" [] "t1" "t3";
     Cheatsheet.mk "cs_2" "Go Basics" [] "t2" "t2"]
  /\ get_cheatsheets sample_joinpath
       (delete_cheatsheet_file sample_joinpath "cs_1" sample_store)
     = [Cheatsheet.mk "cs_2" "Go Basics" [] "t2" "t2"].
Proof.
  destruct (listing_after_change sample_joinpath
              (Cheatsheet.mk "cs_1" "Go Notes, revised" [] "t1" "t3") "cs_1"
              sample_store sample_store_ok) as [Hsave Hdelete].
  split.
  - rewrite Hsave by apply sample_no_path_clash. reflexivity.
  - rewrite Hdelete by apply sample_no_path_clash. reflexivity.
Defined.

Lemma stored_no_sections i n c u :
  stored (Cheatsheet.mk i n [] c u) = Cheatsheet.mk i n [] c u.
Proof. reflexivity. Qed.

(** X6.  [create_cheatsheet] answers with an empty cheatsheet of the given
    name whose id is [cs_] followed by the clock's milliseconds, and
    [get_cheatsheet] then returns it.  In a store that satisfies the
    invariant and in which no other key of the index names the file of
    the new id, the invariant is kept, and the id comes from the clock
    alone: when the index does not have it the cheatsheet is added at the
    end of the listing, and when it does (a second creation in the same
    millisecond) the earlier cheatsheet of that id is replaced and the
    listing grows by nothing. *)
Theorem create_then_get joinpath (clk : Clock) (name : string) (w : World) :
  let new_cheatsheet : Cheatsheet.t Block.t :=
    Cheatsheet.mk ("cs_" ++ Py.str (timestamp_ms clk 0)) name []
                  (isoformat clk 1) (isoformat clk 2) in
  let w' := snd (create_cheatsheet joinpath clk name w) in
  fst (create_cheatsheet joinpath clk name w) = models new_cheatsheet
  /\ get_cheatsheet joinpath (Cheatsheet.id new_cheatsheet) w'
     = inr new_cheatsheet
  /\ (store_ok joinpath w ->
      no_path_clash joinpath (Cheatsheet.id new_cheatsheet) w ->
      store_ok joinpath w'
      /\ (~ In (Cheatsheet.id new_cheatsheet) (dict_keys (load_index w)) ->
          get_cheatsheets joinpath w'
          = list_append (get_cheatsheets joinpath w) new_cheatsheet)
      /\ (In (Cheatsheet.id new_cheatsheet) (dict_keys (load_index w)) ->
          get_cheatsheets joinpath w'
          = map (fun c => if String.eqb (Cheatsheet.id c)
                                        (Cheatsheet.id new_cheatsheet)
                          then new_cheatsheet else c)
                (get_cheatsheets joinpath w))).
Proof.
  intros new_cheatsheet w'. subst w'.
  unfold create_cheatsheet. cbn [fst snd].
  set (pc := Cheatsheet.mk ("cs_" ++ Py.str (timestamp_ms clk 0)) name []
                           (isoformat clk 1) (isoformat clk 2)
             : Cheatsheet.t PyBlock).
  assert (Hst : stored pc = new_cheatsheet) by reflexivity.
  assert (Hid : Cheatsheet.id pc = Cheatsheet.id new_cheatsheet)
    by reflexivity.
  split; [reflexivity|]. split.
  { unfold get_cheatsheet, load_cheatsheet. rewrite save_files.
    rewrite <- Hid, String.eqb_refl. now rewrite Hst. }
  intros Hok Hcl. rewrite <- Hid in Hcl.
  pose proof (listing_after_save joinpath pc w Hcl Hok) as L.
  fold (get_cheatsheets joinpath (save_cheatsheet joinpath pc w)) in L.
  fold (get_cheatsheets joinpath w) in L.
  split; [now apply store_ok_save|]. split.
  - intros Hn. rewrite L.
    destruct (dict_contains _ _) eqn:Hc; [|now rewrite Hst].
    apply dict_contains_In in Hc. now rewrite Hid in Hc.
  - intros Hin. rewrite L.
    destruct (dict_contains _ _) eqn:Hc; [now rewrite Hst, Hid|].
    rewrite <- Hid in Hin. apply dict_contains_In in Hin. congruence.
Qed.

Lemma create_then_get_witness :
  get_cheatsheets sample_joinpath
    (snd (create_cheatsheet sample_joinpath sample_clock "Rust" sample_store))
  = [Cheatsheet.mk "cs_1" "Go Notes" [] "t1" "t1";
     Cheatsheet.mk "cs_2" "Go Basics" [] "t2" "t2";
     Cheatsheet.mk "cs_1700000000000" "Rust" []
                   (isoformat sample_clock 1) (isoformat sample_clock 2)].
Proof.
  destruct (create_then_get sample_joinpath sample_clock "Rust" sample_store)
    as (_ & _ & H).
  destruct (H sample_store_ok (sample_no_path_clash _ _)) as (_ & Hnew & _).
  rewrite Hnew; [reflexivity|].
  vm_compute. intros [E|[E|[]]]; discriminate E.
Defined.

(** X7.  [update_cheatsheet] on an id without a file answers 404 and
    leaves the store as it is.  On a stored cheatsheet it answers with
    that cheatsheet where the name and the sections are replaced by the
    ones the request gives, and kept when the request gives none; the id
    and [created] are kept and [updated] is the clock's reading.  The
    answer is what [get_cheatsheet] returns afterwards under the id of the
    stored cheatsheet, and the index entry carries its name and times. *)
Theorem update_then_get joinpath (clk : Clock) (cheatsheet_id : string)
        (update : CheatsheetUpdate.t) (w : World) :
  match load_cheatsheet joinpath w cheatsheet_id with
  | None =>
      update_cheatsheet joinpath clk cheatsheet_id update w
      = (inl not_found, w)
  | Some cs =>
      let cs1 :=
        Cheatsheet.mk
          (Cheatsheet.id cs)
          (match CheatsheetUpdate.name update with
           | Some n => n | None => Cheatsheet.name cs end)
          (match CheatsheetUpdate.sections update with
           | Some s => s | None => Cheatsheet.sections cs end)
          (Cheatsheet.created cs)
          (isoformat clk 0) in
      let w' := snd (update_cheatsheet joinpath clk cheatsheet_id update w) in
      fst (update_cheatsheet joinpath clk cheatsheet_id update w) = inr cs1
      /\ get_cheatsheet joinpath (Cheatsheet.id cs) w' = inr cs1
      /\ dict_get (load_index w') (Cheatsheet.id cs)
         = Some (IndexEntry.mk (Cheatsheet.id cs) (Cheatsheet.name cs1)
                               (Cheatsheet.created cs) (isoformat clk 0))
      /\ (forall k, get_cheatsheet_path joinpath k
                    <> get_cheatsheet_path joinpath (Cheatsheet.id cs) ->
                    get_cheatsheet joinpath k w' = get_cheatsheet joinpath k w)
  end.
Proof.
  unfold update_cheatsheet.
  destruct (load_cheatsheet joinpath w cheatsheet_id) as [cs|] eqn:Hl;
    [|reflexivity].
  cbn zeta. cbn [fst snd].
  set (cs1 := Cheatsheet.mk (Cheatsheet.id cs) _ _ _ _).
  repeat split.
  - unfold get_cheatsheet, load_cheatsheet. rewrite save_files.
    change (Cheatsheet.id (models cs1)) with (Cheatsheet.id cs).
    now rewrite String.eqb_refl, stored_models.
  - rewrite save_index_eq.
    change (Cheatsheet.id (models cs1)) with (Cheatsheet.id cs).
    now rewrite dict_get_set_same.
  - intros k Hk. unfold get_cheatsheet, load_cheatsheet. rewrite save_files.
    change (Cheatsheet.id (models cs1)) with (Cheatsheet.id cs).
    apply String.eqb_neq in Hk. now rewrite Hk.
Qed.

(** X8.  [delete_cheatsheet] on an id without a file answers 404 and
    leaves the store as it is; otherwise it answers with its message.
    Either way [get_cheatsheet] answers 404 for the id afterwards, a
    second [delete_cheatsheet] answers 404, and the cheatsheets at other
    paths are read as before. *)
Theorem delete_then_get joinpath (cheatsheet_id : string) (w : World) :
  let w' := snd (delete_cheatsheet joinpath cheatsheet_id w) in
  (load_cheatsheet joinpath w cheatsheet_id = None ->
   delete_cheatsheet joinpath cheatsheet_id w = (inl not_found, w))
  /\ (load_cheatsheet joinpath w cheatsheet_id <> None ->
      fst (delete_cheatsheet joinpath cheatsheet_id w)
      = inr "Cheatsheet deleted successfully")
  /\ get_cheatsheet joinpath cheatsheet_id w' = inl not_found
  /\ delete_cheatsheet joinpath cheatsheet_id w' = (inl not_found, w')
  /\ (forall k, get_cheatsheet_path joinpath k
                <> get_cheatsheet_path joinpath cheatsheet_id ->
                get_cheatsheet joinpath k w' = get_cheatsheet joinpath k w).
Proof.
  intros w'.
  assert (Hgone : load_cheatsheet joinpath w' cheatsheet_id = None).
  { subst w'. unfold delete_cheatsheet.
    destruct (load_cheatsheet joinpath w cheatsheet_id) eqn:Hl;
      cbn [snd]; [|exact Hl].
    unfold load_cheatsheet. rewrite delete_files.
    now rewrite String.eqb_refl. }
  repeat split.
  - intros Hl. unfold delete_cheatsheet. now rewrite Hl.
  - intros Hl. unfold delete_cheatsheet.
    now destruct (load_cheatsheet joinpath w cheatsheet_id).
  - unfold get_cheatsheet. now rewrite Hgone.
  - unfold delete_cheatsheet at 1. now rewrite Hgone.
  - intros k Hk. subst w'. unfold delete_cheatsheet.
    destruct (load_cheatsheet joinpath w cheatsheet_id); cbn [snd];
      [|reflexivity].
    unfold get_cheatsheet, load_cheatsheet. rewrite delete_files.
    apply String.eqb_neq in Hk. now rewrite Hk.
Qed.

Lemma delete_then_get_witness :
  delete_cheatsheet sample_joinpath "cs_0" empty_world
  = (inl not_found, empty_world)
  /\ fst (delete_cheatsheet sample_joinpath "cs_0"
            (save_cheatsheet sample_joinpath
               (Cheatsheet.mk "cs_0" "A" [] "t0" "t0") empty_world))
     = inr "Cheatsheet deleted successfully".
Proof.
  split.
  - apply (proj1 (delete_then_get sample_joinpath "cs_0" empty_world)).
    reflexivity.
  - apply (proj1 (proj2 (delete_then_get sample_joinpath "cs_0"
             (save_cheatsheet sample_joinpath
                (Cheatsheet.mk "cs_0" "A" [] "t0" "t0") empty_world)))).
    discriminate.
Defined.

(** X9.  On a request body whose values are strings, [import_markdown]
    answers 400 with "No markdown content provided" when the request has
    no content or an empty one, and leaves the store as it is.  For every
    other content the importer builds a document, under the name of the
    request or, without one, under "Imported from Markdown".  When the
    save completes, the endpoint answers with that document and
    [get_cheatsheet] returns it as read back from the store.  When the
    save raises, the endpoint answers 400 with "Failed to parse
    markdown: " and the message of the exception.  The importer itself
    never fails. *)
Theorem import_markdown_answer joinpath (clk : Clock)
        (save_failure : option (string * World)) (data : dict string)
        (w : World) :
  let markdown_content :=
    match dict_get data "content" with Some c => c | None => "" end in
  let name :=
    match dict_get data "name" with
    | Some n => n | None => "Imported from Markdown" end in
  let answer := import_markdown joinpath clk save_failure data w in
  (markdown_content = "" /\
   answer = (inl (mkHTTPException 400 "No markdown content provided"), w))
  \/ (markdown_content <> "" /\
      exists doc,
        parse_markdown_to_cheatsheet clk markdown_content name = inr doc
        /\ Cheatsheet.name doc = name
        /\ Cheatsheet.id doc = "cs_" ++ Py.str (timestamp_ms clk 0)
        /\ match save_failure with
           | None =>
               answer = (inr doc, save_cheatsheet joinpath doc w)
               /\ get_cheatsheet joinpath (Cheatsheet.id doc) (snd answer)
                  = inr (stored doc)
           | Some (msg, w') =>
               answer
               = (inl (mkHTTPException
                         400 ("Failed to parse markdown: " ++ msg)), w')
           end).
Proof.
  intros markdown_content name answer. subst answer. unfold import_markdown.
  fold markdown_content. fold name.
  destruct markdown_content as [|c s] eqn:Hc; [left; now split|].
  right. split; [discriminate|].
  cbn [Py.truthy negb].
  unfold parse_markdown_to_cheatsheet.
  destruct (parse_lines_ok clk (new_cheatsheet_id clk)
              (Py.split Py.nl (String c s)) initial_state I)
    as (st & -> & _).
  eexists. split; [reflexivity|]. split; [reflexivity|].
  split; [reflexivity|].
  destruct save_failure as [[msg w']|]; [reflexivity|].
  split; [reflexivity|]. cbn [snd].
  unfold get_cheatsheet, load_cheatsheet. rewrite save_files.
  now rewrite String.eqb_refl.
Qed.

(** * More on the search *)

Lemma lower_char_idem c : Py.lower_char (Py.lower_char c) = Py.lower_char c.
Proof.
  destruct c as [[] [] [] [] [] [] [] []]; reflexivity.
Qed.

Lemma lower_idem s : Py.lower (Py.lower s) = Py.lower s.
Proof.
  induction s as [|c s IH]; cbn [Py.lower]; [reflexivity|].
  now rewrite lower_char_idem, IH.
Qed.

Lemma lower_app a b : Py.lower (a ++ b) = Py.lower a ++ Py.lower b.
Proof. induction a as [|c a IH]; cbn [Py.lower append]; congruence. Qed.

Lemma lower_substring n m s :
  Py.lower (String.substring n m s) = String.substring n m (Py.lower s).
Proof.
  revert n m; induction s as [|c s IH]; intros [|n] [|m];
    cbn [String.substring Py.lower]; try reflexivity; try apply IH.
  now rewrite IH.
Qed.

Lemma substring_length_le n m s :
  (String.length (String.substring n m s) <= m)%nat.
Proof.
  revert n m; induction s as [|c s IH]; intros [|n] [|m];
    cbn [String.substring String.length]; try lia; try apply IH.
  specialize (IH 0%nat m). lia.
Qed.

Lemma find_lower_bound s q : -1 <= Py.find s q.
Proof.
  unfold Py.find. destruct (Py.contains q s) eqn:H.
  - pose proof (find_from_present q s 0 H). lia.
  - rewrite (find_from_absent q s 0 H). lia.
Qed.

Lemma prefix_app q x y :
  String.prefix q x = true -> String.prefix q (x ++ y) = true.
Proof.
  revert x; induction q as [|c q IH]; intros x H; [apply prefix_nil_l|].
  destruct x as [|d x]; cbn [String.prefix append] in *; [discriminate|].
  destruct (ascii_dec c d); [now apply IH | discriminate].
Qed.

Lemma contains_app_l q x y :
  Py.contains q x = true -> Py.contains q (x ++ y) = true.
Proof.
  induction x as [|c x IH]; cbn [Py.contains append]; intros H.
  - rewrite orb_false_r in H. apply prefix_nil_r in H. subst q.
    destruct y; reflexivity.
  - apply orb_true_iff in H. destruct H as [H|H].
    + change (String c (x ++ y)) with (String c x ++ y).
      now rewrite (prefix_app _ _ _ H).
    + rewrite (IH H). apply orb_true_r.
Qed.

Lemma contains_app_r q x y :
  Py.contains q y = true -> Py.contains q (x ++ y) = true.
Proof.
  intros H. induction x as [|c x IH]; cbn [Py.contains append]; [exact H|].
  rewrite IH. apply orb_true_r.
Qed.

Lemma contains_slice_from q s i :
  String.prefix q (Py.slice_from s i) = true -> Py.contains q s = true.
Proof.
  revert s; induction i as [|i IH]; intros s H.
  - cbn [Py.slice_from] in H. destruct s; cbn [Py.contains]; now rewrite H.
  - destruct s as [|c s]; cbn [Py.slice_from] in H.
    + cbn [Py.contains]. now rewrite H.
    + cbn [Py.contains]. rewrite (IH s H). apply orb_true_r.
Qed.

Lemma prefix_length q s :
  String.prefix q s = true -> (String.length q <= String.length s)%nat.
Proof.
  revert s; induction q as [|c q IH]; intros s H; cbn [String.length]; [lia|].
  destruct s as [|d s]; cbn [String.prefix String.length] in *; [discriminate|].
  destruct (ascii_dec c d); [|discriminate].
  specialize (IH s H). lia.
Qed.

Lemma slice_from_length s n :
  String.length (Py.slice_from s n) = (String.length s - n)%nat.
Proof.
  revert s; induction n as [|n IH]; intros s; cbn [Py.slice_from]; [lia|].
  destruct s as [|c s]; cbn [String.length]; [reflexivity | apply IH].
Qed.

Lemma slice_from_add s a j :
  Py.slice_from (Py.slice_from s a) j = Py.slice_from s (a + j).
Proof.
  revert s; induction a as [|a IH]; intros s; [reflexivity|].
  destruct s as [|c s]; cbn [Py.slice_from Nat.add]; [|apply IH].
  now destruct j.
Qed.

Lemma substring_slice_from a m s :
  String.substring a m s = String.substring 0 m (Py.slice_from s a).
Proof.
  revert s; induction a as [|a IH]; intros s; [reflexivity|].
  destruct s as [|c s]; cbn [Py.slice_from String.substring]; [|apply IH].
  now destruct m.
Qed.

Lemma prefix_take q s m :
  String.prefix q s = true -> (String.length q <= m)%nat ->
  String.prefix q (String.substring 0 m s) = true.
Proof.
  revert s m; induction q as [|c q IH]; intros s m H Hm; [apply prefix_nil_l|].
  destruct s as [|d s]; cbn [String.prefix] in H; [discriminate|].
  destruct m as [|m]; cbn [String.length] in Hm; [lia|].
  cbn [String.substring String.prefix].
  destruct (ascii_dec c d); [|discriminate].
  apply IH; [exact H | lia].
Qed.

Lemma prefix_take_from q s m j :
  String.prefix q (Py.slice_from s j) = true ->
  (j + String.length q <= m)%nat ->
  String.prefix q (Py.slice_from (String.substring 0 m s) j) = true.
Proof.
  revert s m; induction j as [|j IH]; intros s m H Hm.
  - cbn [Py.slice_from] in *. now apply prefix_take.
  - destruct s as [|c s]; cbn [Py.slice_from] in H.
    + apply prefix_nil_r in H. subst q. apply prefix_nil_l.
    + destruct m as [|m]; [lia|].
      cbn [String.substring Py.slice_from]. apply IH; [exact H | lia].
Qed.

Lemma snippet_length_bound content query :
  Py.len (snippet_of content query) <= Py.len query + 106.
Proof.
  unfold snippet_of.
  set (i := Py.find (Py.lower content) query).
  pose proof (find_lower_bound (Py.lower content) query) as Hi. fold i in Hi.
  pose proof (len_nonneg content) as Hc. pose proof (len_nonneg query) as Hq.
  set (start := Z.max 0 (i - 50)).
  set (end_ := Z.min (Py.len content) (i + Py.len query + 50)).
  assert (Hs : Py.len (Py.slice content start end_) <= Py.len query + 100).
  { unfold Py.slice.
    destruct (Z.ltb_spec start 0); [unfold start in *; lia|].
    destruct (Z.ltb_spec end_ 0); [unfold end_ in *; lia|].
    unfold Py.len at 1.
    pose proof (substring_length_le
                  (Z.to_nat (Z.min start (Py.len content)))
                  (Z.to_nat (Z.min end_ (Py.len content)
                             - Z.min start (Py.len content))) content).
    unfold start, end_ in *. lia. }
  assert (Happ : forall a b, Py.len (a ++ b) = Py.len a + Py.len b).
  { intros a b. unfold Py.len. rewrite length_append. lia. }
  destruct (start >? 0), (end_ <? Py.len content);
    rewrite ?Happ; change (Py.len "...") with 3; lia.
Qed.

Lemma search_short q css : Py.len q < 2 -> search_cheatsheets css q = [].
Proof.
  intros H. unfold search_cheatsheets.
  destruct (Z.ltb_spec (Py.len q) 2); [|lia].
  now rewrite orb_true_r.
Qed.

(** X10.  The search goes through the documents one after the other and
    no document changes what another one yields: the results for two
    lists of documents put end to end are the results for the first list
    followed by the results for the second, for every query. *)
Theorem search_concat (css1 css2 : list (Cheatsheet.t Block.t)) (q : string) :
  search_cheatsheets (css1 ++ css2)%list q
  = (search_cheatsheets css1 q ++ search_cheatsheets css2 q)%list.
Proof.
  destruct (Z.lt_ge_cases (Py.len q) 2) as [H|H].
  - now rewrite !search_short.
  - rewrite !search_refines_spec by exact H.
    unfold spec_search. apply flat_map_app.
Qed.

(** X11.  The search does not see the case of the letters of an ASCII
    query: two ASCII queries with the same lowercase form give the same
    results, and so an ASCII query gives the results of its lowercase
    form. *)
Theorem search_query_case (css : list (Cheatsheet.t Block.t))
        (q1 q2 : string) :
  is_ascii q1 = true -> is_ascii q2 = true ->
  Py.lower q1 = Py.lower q2 ->
  search_cheatsheets css q1 = search_cheatsheets css q2
  /\ search_cheatsheets css (Py.lower q1) = search_cheatsheets css q1.
Proof.
  intros _ _ H.
  assert (K : forall a b, Py.lower a = Py.lower b ->
                          search_cheatsheets css a = search_cheatsheets css b).
  { intros a b E.
    assert (L : Py.len a = Py.len b)
      by (rewrite <- (len_lower a), <- (len_lower b); now rewrite E).
    destruct (Z.lt_ge_cases (Py.len a) 2) as [Ha|Ha].
    - rewrite !search_short by lia. reflexivity.
    - rewrite !search_refines_spec by lia.
      unfold spec_search. now rewrite E. }
  split; [now apply K|].
  apply K. apply lower_idem.
Qed.

Lemma search_query_case_witness :
  search_cheatsheets [sample_doc "Go Basics" []] "GO"
  = search_cheatsheets [sample_doc "Go Basics" []] "go".
Proof.
  apply (search_query_case [sample_doc "Go Basics" []] "GO" "go");
    reflexivity.
Defined.

(** X12.  For an ASCII query, the match text of a result of kind block
    is short whatever the size of the block: at most the length of the
    query plus 100 characters of the content, and the two ellipses. *)
Theorem block_snippet_bounded (css : list (Cheatsheet.t Block.t))
        (q : string) (r : SearchResult) :
  is_ascii q = true ->
  In r (search_cheatsheets css q) ->
  result_type r = block ->
  Py.len (result_match r) <= Py.len q + 106.
Proof.
  intros _ Hin Hk.
  destruct (Z.lt_ge_cases (Py.len q) 2) as [H|H].
  { rewrite search_short in Hin by exact H. destruct Hin. }
  destruct (block_result_origin css q r) as (cs & sec & b & _ & _ & _ & _ & ->);
    [lia | exact Hin | exact Hk |].
  cbn [result_match]. rewrite <- (len_lower q).
  apply snippet_length_bound.
Qed.

Lemma block_snippet_bounded_witness :
  Py.len "...aaaaaaaaaaaaaaaaaaaaaaaaaaaaaaaaaaaaaaaaaaaaaaaaaaCachebbbbbbbbbbbbbbbbbbbbbbbbbbbbbbbbbbbbbbbbbbbbbbbbbb..."
  <= Py.len "cache" + 106.
Proof.
  apply (block_snippet_bounded
           [sample_doc "Caching"
              [sample_block None
                 "aaaaaaaaaaaaaaaaaaaaaaaaaaaaaaaaaaaaaaaaaaaaaaaaaaaaaaaaaaaaCachebbbbbbbbbbbbbbbbbbbbbbbbbbbbbbbbbbbbbbbbbbbbbbbbbbbbbbbbbbbb"]]
           "cache"
           (BlockResult "cs_1" "Caching" "Notes" BlockType.text None
              "...aaaaaaaaaaaaaaaaaaaaaaaaaaaaaaaaaaaaaaaaaaaaaaaaaaCachebbbbbbbbbbbbbbbbbbbbbbbbbbbbbbbbbbbbbbbbbbbbbbbbbb...")).
  - reflexivity.
  - vm_compute. left. reflexivity.
  - reflexivity.
Defined.

(** X13.  When the query occurs in the lowercased content of a block
    whose content is ASCII, the snippet shows the occurrence: the query
    occurs in the lowercased snippet. *)
Theorem snippet_shows_match (content query : string) :
  is_ascii content = true ->
  Py.contains query (Py.lower content) = true ->
  Py.contains query (Py.lower (snippet_of content query)) = true.
Proof.
  intros _ Hc. unfold snippet_of.
  set (L := Py.lower content).
  set (i := Py.find L query).
  destruct (find_first_occurrence _ _ Hc) as [Hp _].
  fold L in Hp. fold i in Hp. unfold Py.startswith in Hp.
  pose proof (find_from_present _ _ 0 Hc) as Hi.
  fold L in Hi. fold (Py.find L query) in Hi. fold i in Hi.
  assert (HL : Py.len L = Py.len content) by apply len_lower.
  pose proof (prefix_length _ _ Hp) as Hlen.
  rewrite slice_from_length in Hlen.
  assert (Hq : i + Py.len query <= Py.len content).
  { rewrite <- HL. unfold Py.len in *. lia. }
  pose proof (len_nonneg query) as Hq0.
  set (start := Z.max 0 (i - 50)).
  set (end_ := Z.min (Py.len content) (i + Py.len query + 50)).
  assert (Hbody : Py.contains query (Py.lower (Py.slice content start end_))
                  = true).
  { unfold Py.slice.
    destruct (Z.ltb_spec start 0); [unfold start in *; lia|].
    destruct (Z.ltb_spec end_ 0); [unfold end_ in *; lia|].
    rewrite lower_substring. fold L.
    rewrite substring_slice_from.
    apply (contains_slice_from _ _ (Z.to_nat i
                                    - Z.to_nat (Z.min start (Py.len content)))).
    apply prefix_take_from.
    - rewrite slice_from_add.
      replace (Z.to_nat (Z.min start (Py.len content))
               + (Z.to_nat i - Z.to_nat (Z.min start (Py.len content))))%nat
        with (Z.to_nat i) by (unfold start; lia).
      exact Hp.
    - unfold start, end_, Py.len in *. lia. }
  destruct (start >? 0), (end_ <? Py.len content);
    rewrite ?lower_app;
    repeat first [apply contains_app_r; exact Hbody
                 | apply contains_app_l
                 | exact Hbody].
Qed.

Lemma snippet_shows_match_witness :
  Py.contains "cache" (Py.lower (snippet_of "The Cache layer" "cache")) = true.
Proof.
  apply (snippet_shows_match "The Cache layer" "cache"); reflexivity.
Defined.

(** * More on the importer *)

Lemma str_injective a b : Py.str a = Py.str b -> a = b.
Proof.
  unfold Py.str. intros H.
  assert (N : forall z, Z.to_int z <> Decimal.Pos Decimal.Nil
                        /\ Z.to_int z <> Decimal.Neg Decimal.Nil).
  { intros z. split; intros E;
      pose proof (DecimalZ.of_to z) as K; rewrite E in K; cbn in K;
      subst z; discriminate E. }
  apply DecimalZ.to_int_inj.
  apply (f_equal NilZero.int_of_string) in H.
  rewrite !NilZero.isi in H by apply N.
  now injection H.
Qed.

Lemma append_cancel_l p x y : p ++ x = p ++ y -> x = y.
Proof.
  induction p as [|c p IH]; cbn [append]; intros H; [exact H|].
  injection H as H. now apply IH.
Qed.

Lemma block_id_injective cheatsheet_id a b :
  block_id cheatsheet_id a = block_id cheatsheet_id b -> a = b.
Proof.
  unfold block_id. intros H.
  apply (append_cancel_l "block_"), append_cancel_l in H.
  apply (append_cancel_l "_") in H. now apply str_injective.
Qed.

Lemma import_laid_out clk markdown_content name :
  exists doc,
    parse_markdown_to_cheatsheet clk markdown_content name = inr doc
    /\ Forall (fun b => imported_layout (Cheatsheet.id doc) b)
              (document_blocks doc)
    /\ StronglySorted Z.lt (List.map Block.y (document_blocks doc)).
Proof.
  unfold parse_markdown_to_cheatsheet.
  set (csid := new_cheatsheet_id clk).
  set (lines := Py.split Py.nl markdown_content).
  assert (H0 : counters_inv csid 0 initial_state).
  { split; [exact I|]. split; [reflexivity|]. apply laid_out_nil. }
  destruct (counters_inv_parse clk csid 0 lines initial_state H0)
    as (st & E & Hd & Hlo & HT).
  rewrite E. eexists. split; [reflexivity|].
  unfold document_blocks. cbn [Cheatsheet.id Cheatsheet.sections].
  destruct (finish_blocks clk st) as (drop & Htr & Hdrop).
  rewrite Htr in HT. apply laid_out_app_l in HT. destruct HT as [Hf Hs].
  split; [|exact Hs].
  eapply Forall_impl; [|exact Hf]. cbv beta. now intros b [H1 _].
Qed.

Lemma laid_out_ids_NoDup cheatsheet_id (l : list Block.t) :
  Forall (imported_layout cheatsheet_id) l ->
  StronglySorted Z.lt (List.map Block.y l) ->
  NoDup (List.map Block.id l).
Proof.
  induction l as [|b l IH]; cbn [List.map]; intros Hf Hs; [constructor|].
  inversion Hf as [|? ? Hb Hl]; subst.
  inversion Hs as [|? ? Hs' Hlt]; subst.
  constructor; [|now apply IH].
  intros Hin. apply in_map_iff in Hin. destruct Hin as (b' & Hid & Hb').
  rewrite Forall_forall in Hl, Hlt.
  destruct (Hl b' Hb') as [Hid' _]. destruct Hb as [Hidb _].
  rewrite Hid', Hidb in Hid. apply block_id_injective in Hid.
  specialize (Hlt (Block.y b') (in_map Block.y l b' Hb')). lia.
Qed.

(** X14.  The blocks of an imported document have pairwise distinct ids,
    whatever the text. *)
Theorem imported_block_ids_unique (clk : Clock)
        (markdown_content name : string) :
  exists doc,
    parse_markdown_to_cheatsheet clk markdown_content name = inr doc
    /\ NoDup (List.map Block.id (document_blocks doc)).
Proof.
  destruct (import_laid_out clk markdown_content name) as (doc & E & Hf & Hs).
  exists doc. split; [exact E|].
  now apply (laid_out_ids_NoDup (Cheatsheet.id doc)).
Qed.

Lemma positional_snoc {B} clk (l : list (Section.t B)) s :
  positional_ids clk l ->
  Section.id s = section_id clk (S (List.length l)) (Z.of_nat (List.length l)) ->
  positional_ids clk (l ++ [s])%list.
Proof.
  unfold positional_ids. intros Hl Hs.
  rewrite length_app. cbn [List.length].
  rewrite Nat.add_1_r, seq_S, !map_app, Hl. cbn [List.map Nat.add].
  now rewrite Hs.
Qed.

Lemma positional_same_ids {B} clk (l l' : list (Section.t B)) :
  List.map Section.id l' = List.map Section.id l ->
  positional_ids clk l -> positional_ids clk l'.
Proof.
  unfold positional_ids. intros E H.
  assert (L : List.length l' = List.length l).
  { rewrite <- (length_map Section.id l'), E. apply length_map. }
  now rewrite E, L.
Qed.

Lemma on_h2_open clk line st :
  exists secs1 new,
    sections (on_h2 clk line st) = secs1
    /\ current_section (on_h2 clk line st) = Some new
    /\ List.map Section.id secs1 = List.map Section.id (open_sections st)
    /\ Section.id new
       = section_id clk (ticks st) (Z.of_nat (List.length secs1))
    /\ ticks (on_h2 clk line st) = S (ticks st).
Proof.
  destruct st as [secs [sec|] [b|] bc tk]; unfold on_h2, open_sections;
    cbn [sections current_section current_block ticks block_counter];
    unfold list_append; do 2 eexists;
    (split; [reflexivity|]); (split; [reflexivity|]);
    rewrite ?map_app, ?app_nil_r; cbn [Section.id List.map Section.append];
    auto.
Qed.

Lemma section_ids_h2 clk line st :
  section_ids_inv clk st -> section_ids_inv clk (on_h2 clk line st).
Proof.
  intros (Hd & Ht & Hn & Hp). split; [now apply dict_or_none_h2|].
  destruct (on_h2_open clk line st) as (secs1 & new & E1 & E2 & E3 & E4 & E5).
  assert (L : List.length secs1 = List.length (open_sections st)).
  { rewrite <- (length_map Section.id secs1), E3. apply length_map. }
  assert (O : open_sections (on_h2 clk line st) = (secs1 ++ [new])%list).
  { unfold open_sections. now rewrite E1, E2. }
  rewrite O, E5.
  split; [rewrite length_app; cbn [List.length]; lia|].
  split; [discriminate|].
  apply positional_snoc.
  - now apply (positional_same_ids clk (open_sections st)).
  - rewrite E4, Ht, L. reflexivity.
Qed.

Lemma open_sections_append_current st :
  List.map Section.id (open_sections (append_current st))
  = List.map Section.id (open_sections st)
  /\ sections (append_current st) = sections st
  /\ ticks (append_current st) = ticks st
  /\ is_some (current_section (append_current st))
     = is_some (current_section st).
Proof.
  destruct st as [secs [sec|] [b|] bc tk]; unfold append_current, open_sections;
    cbn [sections current_section current_block ticks];
    rewrite ?map_app; auto.
Qed.

Lemma section_ids_same clk st st' :
  dict_or_none st' ->
  List.map Section.id (open_sections st')
  = List.map Section.id (open_sections st) ->
  sections st' = sections st ->
  ticks st' = ticks st ->
  is_some (current_section st') = is_some (current_section st) ->
  section_ids_inv clk st -> section_ids_inv clk st'.
Proof.
  intros Hd' Hids Hsecs Htk Hsome (Hd & Ht & Hn & Hp).
  assert (L : List.length (open_sections st')
              = List.length (open_sections st)).
  { rewrite <- (length_map Section.id (open_sections st')), Hids.
    apply length_map. }
  split; [exact Hd'|]. split; [now rewrite Htk, L|]. split.
  - intros E. rewrite Hsecs. apply Hn. rewrite E in Hsome.
    destruct (current_section st); [discriminate | reflexivity].
  - now apply (positional_same_ids clk (open_sections st)).
Qed.

Lemma section_ids_h3 clk cheatsheet_id line st :
  section_ids_inv clk st -> section_ids_inv clk (on_h3 cheatsheet_id line st).
Proof.
  destruct (open_sections_append_current st) as (H1 & H2 & H3 & H4).
  apply section_ids_same; try assumption. exact I.
Qed.

Lemma section_ids_fence clk cheatsheet_id line code st :
  section_ids_inv clk st ->
  section_ids_inv clk (on_fence cheatsheet_id line code st).
Proof.
  destruct (open_sections_append_current st) as (H1 & H2 & H3 & H4).
  apply section_ids_same; try assumption; try exact I.
  - rewrite <- H1. unfold on_fence, open_sections.
    cbn [sections current_section].
    destruct (current_section (append_current st)); rewrite ?map_app;
      reflexivity.
  - rewrite <- H4. unfold on_fence. cbn [current_section].
    now destruct (current_section (append_current st)).
Qed.

Lemma section_ids_text clk cheatsheet_id line st :
  section_ids_inv clk st ->
  exists st', on_text clk cheatsheet_id line st = inr st'
              /\ section_ids_inv clk st'.
Proof.
  intros (Hd & Ht & Hn & Hp).
  destruct st as [secs [sec|] [[d|b]|] bc tk]; unfold on_text;
    cbn [sections current_section current_block ticks block_counter] in *;
    try contradiction; eexists; (split; [reflexivity|]);
    unfold section_ids_inv, open_sections in *;
    cbn [sections current_section current_block ticks] in *;
    try (repeat split; try exact I; try assumption; discriminate).
  all: rewrite (Hn eq_refl) in *; cbn [app List.length] in *.
  all: repeat split; try exact I; try discriminate; try (now rewrite Ht).
  all: unfold positional_ids; cbn; now rewrite Ht.
Qed.

Lemma section_ids_parse clk cheatsheet_id lines st :
  section_ids_inv clk st ->
  exists st', parse_lines clk cheatsheet_id lines st = inr st'
              /\ section_ids_inv clk st'.
Proof.
  intros H.
  apply (parse_lines_invariant clk cheatsheet_id (fun _ => True)
           (section_ids_inv clk)).
  - intros line s _ _. apply section_ids_h2.
  - intros line s _ _. apply section_ids_h3.
  - intros line code s _ _ _ _. apply section_ids_fence.
  - intros line s _ _. apply section_ids_text.
  - now apply Forall_forall.
  - exact H.
Qed.

Lemma section_ids_finish clk st :
  section_ids_inv clk st ->
  positional_ids clk (sections (finish clk st))
  /\ ticks (finish clk st) = S (List.length (sections (finish clk st))).
Proof.
  intros (Hd & Ht & Hn & Hp).
  destruct st as [[|s0 secs] [sec|] [[d|b]|] bc tk]; unfold finish;
    unfold open_sections in *;
    cbn [sections current_section current_block ticks app] in *;
    try contradiction; unfold list_append; cbn [app sections ticks];
    try (specialize (Hn eq_refl); discriminate Hn).
  all: split;
    [ first [ exact Hp
            | revert Hp; apply positional_same_ids; cbn [List.map];
              rewrite ?map_app; reflexivity
            | unfold positional_ids; cbn; now rewrite Ht ]
    | rewrite Ht; cbn [List.length]; rewrite ?length_app; reflexivity ].
Qed.

(** X15.  How an import reads the clock.  The first reading gives the id
    of the cheatsheet; each section takes one reading when it is opened,
    and the section at place [k] (from 0) has the id
    [sec_{reading k+1}_{k}]; the two readings after the last section give
    [created] and [updated]. *)
Theorem imported_section_ids (clk : Clock) (markdown_content name : string) :
  exists doc,
    parse_markdown_to_cheatsheet clk markdown_content name = inr doc
    /\ Cheatsheet.id doc = "cs_" ++ Py.str (timestamp_ms clk 0)
    /\ List.map Section.id (Cheatsheet.sections doc)
       = List.map (fun k => "sec_" ++ Py.str (timestamp_ms clk (S k)) ++ "_"
                            ++ Py.str (Z.of_nat k))
                  (seq 0 (List.length (Cheatsheet.sections doc)))
    /\ Cheatsheet.created doc
       = isoformat clk (S (List.length (Cheatsheet.sections doc)))
    /\ Cheatsheet.updated doc
       = isoformat clk (S (S (List.length (Cheatsheet.sections doc)))).
Proof.
  unfold parse_markdown_to_cheatsheet.
  assert (H0 : section_ids_inv clk initial_state).
  { repeat split. }
  destruct (section_ids_parse clk (new_cheatsheet_id clk)
              (Py.split Py.nl markdown_content) initial_state H0)
    as (st & -> & Hinv).
  destruct (section_ids_finish clk st Hinv) as [Hp Ht].
  eexists. split; [reflexivity|].
  cbn [Cheatsheet.id Cheatsheet.sections Cheatsheet.created Cheatsheet.updated].
  split; [reflexivity|]. split; [exact Hp|]. now rewrite Ht.
Qed.

Lemma default_section_parse clk cheatsheet_id lines st :
  Forall (fun l => Py.startswith l "## " = false) lines ->
  default_section_inv st ->
  exists st', parse_lines clk cheatsheet_id lines st = inr st'
              /\ default_section_inv st'.
Proof.
  intros Hl H.
  apply (parse_lines_invariant clk cheatsheet_id
           (fun l => Py.startswith l "## " = false) default_section_inv).
  - intros line s Hq K. unfold classify in K. rewrite Hq in K.
    destruct (Py.startswith line "### "); [discriminate|].
    destruct (Py.startswith line "```"); [discriminate|].
    destruct (Py.truthy _); discriminate.
  - intros line s _ _ (Hd & Hs & Hc).
    destruct s as [secs [sec|] [b|] bc tk]; unfold on_h3, append_current;
      cbn [sections current_section current_block] in *;
      repeat split; auto.
  - intros line code s _ _ _ _ (Hd & Hs & Hc).
    destruct s as [secs [sec|] [b|] bc tk]; unfold on_fence, append_current;
      cbn [sections current_section current_block] in *;
      repeat split; auto.
  - intros line s _ _ (Hd & Hs & Hc).
    destruct s as [secs [sec|] [[d|b]|] bc tk]; unfold on_text;
      cbn [sections current_section current_block] in *;
      try contradiction; eexists; (split; [reflexivity|]);
      repeat split; auto.
  - exact Hl.
  - exact H.
Qed.

(** X16.  A text without any line that starts with ["## "] is imported
    as a document of exactly one section, titled "Imported Content". *)
Theorem import_without_h2 (clk : Clock) (markdown_content name : string) :
  Forall (fun l => Py.startswith l "## " = false)
         (Py.split Py.nl markdown_content) ->
  exists doc sec,
    parse_markdown_to_cheatsheet clk markdown_content name = inr doc
    /\ Cheatsheet.sections doc = [sec]
    /\ Section.title sec = "Imported Content".
Proof.
  intros Hl. unfold parse_markdown_to_cheatsheet.
  assert (H0 : default_section_inv initial_state) by (repeat split).
  destruct (default_section_parse clk (new_cheatsheet_id clk) _ _ Hl H0)
    as (st & -> & Hd & Hs & Hc).
  destruct st as [secs [sec|] [[d|b]|] bc tk];
    cbn [sections current_section current_block] in *; subst secs;
    try contradiction; eexists; eexists; (split; [reflexivity|]);
    unfold finish; cbn; auto.
Qed.

Lemma import_without_h2_witness :
  exists doc sec,
    parse_markdown_to_cheatsheet sample_clock
      (Py.join Py.NL ["### T"; "text"; "```"; "# not a section"]) "N"
    = inr doc
    /\ Cheatsheet.sections doc = [sec]
    /\ Section.title sec = "Imported Content".
Proof.
  apply (import_without_h2 sample_clock).
  vm_compute. repeat constructor.
Defined.

(** X17.  What the document imported from an ASCII text is made of.  The
    section titles are stripped and on one line.  Every block is a text
    block or a code block: a text block has no language and its title, if
    any, is stripped and on one line; a code block has no title and its
    language is a non-empty string of word characters. *)
Theorem imported_block_kinds (clk : Clock) (markdown_content name : string) :
  is_ascii markdown_content = true ->
  exists doc,
    parse_markdown_to_cheatsheet clk markdown_content name = inr doc
    /\ Forall (fun s => Py.strip (Section.title s) = Section.title s
                        /\ no_nl (Section.title s) = true)
              (Cheatsheet.sections doc)
    /\ Forall (fun b =>
                 match Block.type b with
                 | BlockType.text =>
                     Block.language b = None
                     /\ forall t, Block.title b = Some t ->
                                  Py.strip t = t /\ no_nl t = true
                 | BlockType.code =>
                     Block.title b = None
                     /\ exists lang,
                          Block.language b = Some lang
                          /\ lang <> ""
                          /\ string_forallb Py.isword lang = true
                 | _ => False
                 end)
              (document_blocks doc).
Proof.
  intros _.
  destruct (import_canonical clk markdown_content name)
    as (doc & E & _ & _ & Hc).
  exists doc. split; [exact E|].
  unfold stored, Cheatsheet.map in Hc. cbn [Cheatsheet.sections] in Hc.
  unfold document_blocks, all_blocks.
  induction (Cheatsheet.sections doc) as [|s secs IH]; cbn [List.map] in Hc.
  - split; constructor.
  - inversion Hc as [|? ? Hs Hrest]; subst.
    destruct (IH Hrest) as [IH1 IH2].
    destruct Hs as ((Hst & Hnl) & Hb & _).
    split; [constructor; [now split | exact IH1]|].
    cbn [flat_map]. rewrite map_app. apply Forall_app. split; [|exact IH2].
    cbn [Section.map Section.blocks] in Hb.
    eapply Forall_impl; [|exact Hb]. cbv beta.
    intros b Hcb. unfold canon_block in Hcb.
    destruct (Block.type b); try contradiction;
      destruct (Block.title b) as [t|]; try contradiction.
    + destruct Hcb as (Hla & Hs1 & Hn1 & _).
      split; [exact Hla|]. intros t' Et. injection Et as <-. now split.
    + destruct Hcb as (Hla & _). split; [exact Hla|]. discriminate.
    + destruct Hcb as (lang & Hla & Htr & Hw & _).
      split; [reflexivity|]. exists lang. split; [exact Hla|].
      split; [|exact Hw]. intros ->. discriminate.
Qed.

Lemma imported_block_kinds_witness :
  exists doc,
    parse_markdown_to_cheatsheet sample_clock md_api_auth "Notes" = inr doc
    /\ Forall (fun s => Py.strip (Section.title s) = Section.title s
                        /\ no_nl (Section.title s) = true)
              (Cheatsheet.sections doc)
    /\ Forall (fun b =>
                 match Block.type b with
                 | BlockType.text =>
                     Block.language b = None
                     /\ forall t, Block.title b = Some t ->
                                  Py.strip t = t /\ no_nl t = true
                 | BlockType.code =>
                     Block.title b = None
                     /\ exists lang,
                          Block.language b = Some lang
                          /\ lang <> ""
                          /\ string_forallb Py.isword lang = true
                 | _ => False
                 end)
              (document_blocks doc).
Proof.
  apply (imported_block_kinds sample_clock md_api_auth "Notes").
  reflexivity.
Defined.

Lemma code_lines_of_open rest :
  Forall (fun c => Py.startswith c "```" = false) rest ->
  code_lines_of rest = rest /\ after_fence rest = [].
Proof.
  induction 1 as [|c rest Hc _ [IH1 IH2]]; cbn [code_lines_of after_fence];
    [now split|].
  rewrite Hc, IH1, IH2. now split.
Qed.

(** X18.  The extent of a fenced block.  After an opening fence line the
    lines up to the first line that starts with three backticks are the
    code, whatever else that closing line holds, and the loop resumes
    after it; when no such line follows, all the remaining lines are the
    code and the loop ends. *)
Theorem fence_extent (clk : Clock) (cheatsheet_id line : string)
        (code : list string) (st : state) :
  Py.startswith line "```" = true ->
  Forall (fun c => Py.startswith c "```" = false) code ->
  parse_lines clk cheatsheet_id (line :: code) st
  = inr (on_fence cheatsheet_id line code st)
  /\ forall closing rest,
       Py.startswith closing "```" = true ->
       parse_lines clk cheatsheet_id (line :: code ++ closing :: rest) st
       = parse_lines clk cheatsheet_id rest
                     (on_fence cheatsheet_id line code st).
Proof.
  intros Hl Hc. split.
  - rewrite parse_lines_cons, (fence_classify _ Hl).
    destruct (code_lines_of_open code Hc) as [-> ->]. reflexivity.
  - intros closing rest Hcl.
    rewrite parse_lines_cons, (fence_classify _ Hl).
    now rewrite (code_lines_of_closed code closing rest Hc Hcl),
                (after_fence_closed code closing rest Hc Hcl).
Qed.

Lemma fence_extent_witness :
  parse_lines sample_clock "cs_1" ["```py"; "x = 1"; ""; "## S"] initial_state
  = inr (on_fence "cs_1" "```py" ["x = 1"; ""; "## S"] initial_state).
Proof.
  apply (fence_extent sample_clock "cs_1" "```py" ["x = 1"; ""; "## S"]
                      initial_state).
  - reflexivity.
  - repeat constructor.
Defined.

Lemma parse_paragraph_lines clk cheatsheet_id ls :
  Forall (fun l => classify l = Text \/ classify l = Blank) ls ->
  forall rest secs sec d bc tk,
    parse_lines clk cheatsheet_id (ls ++ rest)
                (mkState secs (Some sec) (Some (PyDict d)) bc tk)
    = parse_lines clk cheatsheet_id rest
        (mkState secs (Some sec)
           (Some (PyDict (BlockDict.mk (BlockDict.id d) (BlockDict.title d)
                            (add_lines (BlockDict.content d)
                                       (filter is_text_line ls))
                            (BlockDict.type d) (BlockDict.x d) (BlockDict.y d)
                            (BlockDict.w d) (BlockDict.h d))))
           bc tk).
Proof.
  induction 1 as [|l ls Hl _ IH]; intros rest secs sec d bc tk.
  - destruct d; reflexivity.
  - cbn [app filter]. rewrite parse_lines_cons. unfold is_text_line.
    destruct Hl as [Hl|Hl]; rewrite Hl.
    + unfold on_text.
      cbn [current_section current_block sections block_counter ticks].
      rewrite IH. reflexivity.
    + apply IH.
Qed.

(** X19.  A paragraph, in ASCII text.  Under a [##] header, a text line
    followed by text lines and blank lines makes one text block: its
    content is the text lines joined by newlines, and the blank lines
    between them are lost. *)
Theorem paragraph_is_one_block (clk : Clock) (t l1 : string)
        (ls : list string) (name : string) :
  is_ascii t = true -> is_ascii l1 = true -> forallb is_ascii ls = true ->
  no_nl t = true ->
  no_nl l1 = true -> classify l1 = Text ->
  Forall (fun l => no_nl l = true) ls ->
  Forall (fun l => classify l = Text \/ classify l = Blank) ls ->
  parse_markdown_to_cheatsheet clk
    (Py.join Py.NL (("## " ++ t) :: l1 :: ls)) name
  = inr (Cheatsheet.mk
           (new_cheatsheet_id clk) name
           [Section.mk (section_id clk 1 0) (Py.strip t) None None
              [PyModel
                 (Block.mk (block_id (new_cheatsheet_id clk) 1)
                           BlockType.text None
                           (Py.join Py.NL (l1 :: filter is_text_line ls))
                           0 0 6 2 None None)]]
           (isoformat clk 2) (isoformat clk 3)).
Proof.
  intros _ _ _ Ht Hl1 K1 Hnl Hls. unfold parse_markdown_to_cheatsheet.
  rewrite split_join_lines.
  2:{ constructor; [|constructor; assumption].
      unfold no_nl in *. cbn [append string_forallb]. exact Ht. }
  2:{ discriminate. }
  rewrite parse_lines_cons, classify_h2.
  rewrite parse_lines_cons, K1.
  unfold on_h2, initial_state, on_text.
  cbn [current_section current_block sections block_counter ticks
       list_append app List.length].
  rewrite <- (app_nil_r ls) at 1.
  rewrite parse_paragraph_lines by exact Hls.
  cbn [parse_lines BlockDict.content BlockDict.id BlockDict.title
       BlockDict.type BlockDict.x BlockDict.y BlockDict.w BlockDict.h].
  rewrite <- join_add_lines.
  reflexivity.
Qed.

Lemma paragraph_is_one_block_witness :
  parse_markdown_to_cheatsheet sample_clock
    (Py.join Py.NL (("## " ++ "S") :: "a" :: [""; "b"])) "N"
  = inr (Cheatsheet.mk
           (new_cheatsheet_id sample_clock) "N"
           [Section.mk (section_id sample_clock 1 0) (Py.strip "S") None None
              [PyModel
                 (Block.mk (block_id (new_cheatsheet_id sample_clock) 1)
                           BlockType.text None
                           (Py.join Py.NL ("a" :: filter is_text_line [""; "b"]))
                           0 0 6 2 None None)]]
           (isoformat sample_clock 2) (isoformat sample_clock 3)).
Proof.
  apply (paragraph_is_one_block sample_clock "S" "a" [""; "b"] "N").
  - reflexivity.
  - reflexivity.
  - reflexivity.
  - reflexivity.
  - reflexivity.
  - reflexivity.
  - repeat constructor.
  - constructor; [right; reflexivity|].
    constructor; [left; reflexivity | constructor].
Defined.

(** * More on the exporter *)

Lemma export_block_alike b1 b2 :
  export_alike b1 b2 -> export_block [] b1 = export_block [] b2.
Proof.
  intros (Ht & Hc & [[H1 H2]|(Hty & Hl & Hr)]); unfold export_block.
  - rewrite Ht, Hc.
    destruct (Block.type b1); try discriminate H1;
      destruct (Block.type b2); try discriminate H2; reflexivity.
  - now rewrite Ht, Hc, Hty, Hl, Hr.
Qed.

Lemma export_blocks_alike bs1 bs2 :
  Forall2 export_alike bs1 bs2 ->
  flat_map (export_block []) bs1 = flat_map (export_block []) bs2.
Proof.
  induction 1 as [|b1 b2 bs1 bs2 Hb _ IH]; [reflexivity|].
  cbn [flat_map]. now rewrite (export_block_alike b1 b2 Hb), IH.
Qed.

(** X20.  What the export does not depend on.  Two documents with the
    same name, the same section titles in order and, in each section,
    blocks that agree one by one on title and content and are either both
    of a type exported as bare content (text, table, list, checkbox) or of
    the same type, language and reference rows, have the same export:
    the ids, the grid positions and sizes, the title colours and sizes
    and the timestamps are not exported, and neither is the difference
    between text, table, list and checkbox blocks. *)
Theorem export_ignores_layout (cs1 cs2 : Cheatsheet.t Block.t) :
  Cheatsheet.name cs1 = Cheatsheet.name cs2 ->
  Forall2 (fun s1 s2 => Section.title s1 = Section.title s2
                        /\ Forall2 export_alike (Section.blocks s1)
                                   (Section.blocks s2))
          (Cheatsheet.sections cs1) (Cheatsheet.sections cs2) ->
  export_markdown cs1 = export_markdown cs2.
Proof.
  intros Hn Hs. unfold export_markdown. rewrite !fold_export_section, Hn.
  f_equal. f_equal.
  induction Hs as [|s1 s2 l1 l2 [Ht Hb] _ IH]; [reflexivity|].
  cbn [flat_map]. rewrite IH. f_equal.
  unfold export_section. rewrite !fold_export_block, Ht.
  now rewrite (export_blocks_alike _ _ Hb).
Qed.

Lemma export_ignores_layout_witness :
  export_markdown (sample_doc "Notes" [sample_block (Some "T") "a | b"])
  = export_markdown
      (Cheatsheet.mk "cs_9" "Notes"
         [Section.mk "sec_9_0" "Notes" (Some "#ff0000") None
            [Block.mk "b9" BlockType.table (Some "T") "a | b" 3 4 2 1
                      None None]]
         "2025-01-01T00:00:00" "2025-02-01T00:00:00").
Proof.
  apply export_ignores_layout.
  - reflexivity.
  - constructor; [|constructor]. split; [reflexivity|].
    constructor; [|constructor].
    split; [reflexivity|]. split; [reflexivity|]. left. now split.
Defined.

(** X21.  The export opens with the line ["# {name}"]: it is that line
    alone for a document without sections, and that line followed by an
    empty line and the sections otherwise. *)
Theorem export_title_line (cs : Cheatsheet.t Block.t) :
  Py.startswith (export_markdown cs) ("# " ++ Cheatsheet.name cs ++ Py.NL)
  = true
  /\ (Cheatsheet.sections cs = [] ->
      export_markdown cs = "# " ++ Cheatsheet.name cs ++ Py.NL)
  /\ (Cheatsheet.sections cs <> [] ->
      export_markdown cs
      = "# " ++ Cheatsheet.name cs ++ Py.NL ++ Py.NL ++ export_body cs).
Proof.
  assert (E : Cheatsheet.sections cs = [] ->
              export_markdown cs = "# " ++ Cheatsheet.name cs ++ Py.NL).
  { intros H. unfold export_markdown. rewrite H. reflexivity. }
  split; [|split; [exact E | apply export_markdown_body]].
  destruct (Cheatsheet.sections cs) as [|s secs] eqn:Hs.
  - rewrite (E eq_refl).
    rewrite <- (append_nil_r ("# " ++ Cheatsheet.name cs ++ Py.NL)) at 1.
    apply startswith_app.
  - rewrite export_markdown_body by (rewrite Hs; discriminate).
    replace ("# " ++ Cheatsheet.name cs ++ Py.NL ++ Py.NL ++ export_body cs)
      with (("# " ++ Cheatsheet.name cs ++ Py.NL)
            ++ (Py.NL ++ export_body cs)).
    + apply startswith_app.
    + now rewrite !append_assoc.
Qed.

Lemma export_title_line_witness :
  export_markdown (Cheatsheet.mk "cs_1" "Go" [] "t0" "t0")
  = "# " ++ "Go" ++ Py.NL.
Proof.
  apply (export_title_line (Cheatsheet.mk "cs_1" "Go" [] "t0" "t0")).
  reflexivity.
Defined.

(** * The search over the store *)

Lemma saved_in_listing joinpath cs w :
  In (stored cs) (load_all_cheatsheets joinpath (save_cheatsheet joinpath cs w)).
Proof.
  rewrite load_all_flat. apply in_flat_map.
  exists (Cheatsheet.id cs). split.
  - rewrite save_index_eq, dict_keys_set.
    destruct (dict_contains _ _) eqn:Hc.
    + now apply dict_contains_In.
    + apply in_or_app. right. now left.
  - unfold load_cheatsheet. rewrite save_files, String.eqb_refl. now left.
Qed.

(** X22.  A saved cheatsheet is found by the search at once.  For an
    ASCII name and an ASCII query of at least two characters that occurs,
    without regard to case, in the name, the search over the store
    returns the result of kind cheatsheet with the id and the name of the
    saved cheatsheet. *)
Theorem saved_is_searchable joinpath (cs : Cheatsheet.t PyBlock)
        (w : World) (q : string) :
  is_ascii q = true -> is_ascii (Cheatsheet.name cs) = true ->
  2 <= Py.len q ->
  Py.contains (Py.lower q) (Py.lower (Cheatsheet.name cs)) = true ->
  In (CheatsheetResult (Cheatsheet.id cs) (Cheatsheet.name cs)
                       (Cheatsheet.name cs))
     (search_endpoint joinpath q (save_cheatsheet joinpath cs w)).
Proof.
  intros _ _ Hq Hc. unfold search_endpoint.
  rewrite search_refines_spec by exact Hq.
  unfold spec_search. apply in_flat_map.
  exists (stored cs). split; [apply saved_in_listing|].
  unfold spec_cheatsheet_matches. apply in_or_app. left.
  change (Cheatsheet.name (stored cs)) with (Cheatsheet.name cs).
  change (Cheatsheet.id (stored cs)) with (Cheatsheet.id cs).
  rewrite Hc. now left.
Qed.

Lemma saved_is_searchable_witness :
  In (CheatsheetResult "cs_1" "Go Basics" "Go Basics")
     (search_endpoint sample_joinpath "GO"
        (save_cheatsheet sample_joinpath
           (Cheatsheet.mk "cs_1" "Go Basics" [] "t0" "t0") empty_world)).
Proof.
  apply (saved_is_searchable sample_joinpath
           (Cheatsheet.mk "cs_1" "Go Basics" [] "t0" "t0") empty_world "GO").
  - reflexivity.
  - reflexivity.
  - vm_compute. discriminate.
  - reflexivity.
Defined.

Lemma matches_carry_id query cs r :
  In r (spec_cheatsheet_matches query cs) ->
  result_cheatsheet_id r = Cheatsheet.id cs.
Proof.
  unfold spec_cheatsheet_matches. intros Hr.
  apply in_app_or in Hr. destruct Hr as [Hr|Hr].
  { destruct (Py.contains _ _); simpl in Hr; [|contradiction].
    now destruct Hr as [<-|[]]. }
  apply in_flat_map in Hr. destruct Hr as (sec & _ & Hr).
  unfold spec_section_matches in Hr.
  apply in_app_or in Hr. destruct Hr as [Hr|Hr].
  { destruct (Py.contains _ _); simpl in Hr; [|contradiction].
    now destruct Hr as [<-|[]]. }
  apply in_flat_map in Hr. destruct Hr as (b & _ & Hr).
  unfold spec_block_matches in Hr.
  destruct (_ || _); simpl in Hr; [|contradiction].
  now destruct Hr as [<-|[]].
Qed.

Lemma filter_none {A} (f : A -> bool) l :
  (forall x, In x l -> f x = false) -> filter f l = [].
Proof.
  induction l as [|a l IH]; intros H; [reflexivity|]. cbn [filter].
  rewrite (H a (or_introl eq_refl)). apply IH. intros x Hx. apply H. now right.
Qed.

Lemma search_filter_id css q cheatsheet_id :
  search_cheatsheets
    (filter (fun c => negb (String.eqb (Cheatsheet.id c) cheatsheet_id)) css) q
  = filter (fun r => negb (String.eqb (result_cheatsheet_id r) cheatsheet_id))
           (search_cheatsheets css q).
Proof.
  destruct (Z.lt_ge_cases (Py.len q) 2) as [H|H].
  { now rewrite !search_short by exact H. }
  rewrite !search_refines_spec by lia. unfold spec_search.
  induction css as [|cs css IH]; [reflexivity|].
  change (flat_map (spec_cheatsheet_matches (Py.lower q)) (cs :: css))
    with (spec_cheatsheet_matches (Py.lower q) cs
          ++ flat_map (spec_cheatsheet_matches (Py.lower q)) css)%list.
  rewrite filter_app. cbn [filter].
  destruct (String.eqb (Cheatsheet.id cs) cheatsheet_id) eqn:E; cbn [negb].
  - rewrite IH.
    rewrite (filter_none _ (spec_cheatsheet_matches (Py.lower q) cs));
      [reflexivity|].
    intros r Hr. rewrite (matches_carry_id _ _ _ Hr), E. reflexivity.
  - cbn [flat_map]. rewrite IH. f_equal. symmetry. apply forallb_filter_id.
    apply forallb_forall. intros r Hr.
    rewrite (matches_carry_id _ _ _ Hr), E. reflexivity.
Qed.

(** X23.  A deleted cheatsheet is gone from the search at once, and
    nothing else is.  In a store that satisfies the invariant and in
    which no other key of the index names the file of the id, the
    results of a search after [delete_cheatsheet_file] are the results
    of the same search before it without those that carry the deleted
    id, in the same order. *)
Theorem deleted_not_searchable joinpath (cheatsheet_id : string) (w : World)
        (q : string) :
  store_ok joinpath w ->
  no_path_clash joinpath cheatsheet_id w ->
  search_endpoint joinpath q
    (delete_cheatsheet_file joinpath cheatsheet_id w)
  = filter (fun r => negb (String.eqb (result_cheatsheet_id r) cheatsheet_id))
           (search_endpoint joinpath q w).
Proof.
  intros Hok Hcl. unfold search_endpoint.
  rewrite listing_after_delete by assumption.
  apply search_filter_id.
Qed.

Lemma deleted_not_searchable_witness :
  search_endpoint sample_joinpath "go" sample_store
  = [CheatsheetResult "cs_1" "Go Notes" "Go Notes";
     CheatsheetResult "cs_2" "Go Basics" "Go Basics"]
  /\ search_endpoint sample_joinpath "go"
       (delete_cheatsheet_file sample_joinpath "cs_2" sample_store)
     = [CheatsheetResult "cs_1" "Go Notes" "Go Notes"].
Proof.
  split; [reflexivity|].
  rewrite (deleted_not_searchable sample_joinpath "cs_2" sample_store "go"
             sample_store_ok (sample_no_path_clash _ _)).
  reflexivity.
Defined.
